(** * skills_extract: dictionary-based skill extraction and aggregation

    A shallow embedding of the matching / normalisation / aggregation core of
    the [skills_extract] pipeline:

    - [src/features/skill_dictionary.py]   ([SkillDictionary])
    - [src/features/skill_extractor.py]    ([SkillExtractor])
    - [src/features/aggregator.py]         ([Aggregator])
    - [src/features/rules_generator.py]    ([RulesGenerator])

    Conventions of the embedding.

    - Python [str] values are [string]s; the character-level primitives
      ([str.lower], [str.strip], the [\w] class of [re]) are given on the
      ASCII range, code points above 127 being left untouched and counted as
      neither letters, white space nor word characters.
    - Python [set]s of strings are [gset string]; the order in which a set is
      iterated is not fixed by the language, so every function that iterates a
      set takes a [set_order] that chooses it.
    - Python [dict]s whose iteration order is observable ([Counter], the
      frequency table, the role mappings, the variation table) are association
      lists in insertion order.
    - Objects that are shared and mutated (the sets held by a
      [SkillDictionary]) live in an explicit heap of set objects.
    - Python [float] arithmetic in the percentage computations is carried out
      in exact rational arithmetic ([Q]). *)

From Stdlib Require Import ZArith QArith Qround Lqa Ascii String List Bool Lia
  Permutation.
From stdpp Require Import base gmap sets list sorting strings.

Local Open Scope string_scope.

(* ===================================================================== *)
(** * Python string primitives (ASCII range) *)
(* ===================================================================== *)

Module PyStr.

(** [c.lower()] for one character. *)
Definition lower_ascii (c : ascii) : ascii :=
  let n := nat_of_ascii c in
  if (65 <=? n)%nat && (n <=? 90)%nat then ascii_of_nat (n + 32) else c.

(** [s.lower()]. *)
Fixpoint lower (s : string) : string :=
  match s with
  | EmptyString => EmptyString
  | String c s' => String (lower_ascii c) (lower s')
  end.

(** [c.isspace()]: tab, line feed, vertical tab, form feed, carriage
    return, the four separators 28-31 and the blank. *)
Definition is_space (c : ascii) : bool :=
  let n := nat_of_ascii c in
  ((9 <=? n)%nat && (n <=? 13)%nat) || ((28 <=? n)%nat && (n <=? 32)%nat).

(** The [\w] class of [re]: letters, digits and the underscore. *)
Definition is_word (c : ascii) : bool :=
  let n := nat_of_ascii c in
  ((48 <=? n)%nat && (n <=? 57)%nat)
  || ((65 <=? n)%nat && (n <=? 90)%nat)
  || ((97 <=? n)%nat && (n <=? 122)%nat)
  || (n =? 95)%nat.

(** [s.lstrip()]. *)
Fixpoint lstrip (s : string) : string :=
  match s with
  | EmptyString => EmptyString
  | String c s' => if is_space c then lstrip s' else s
  end.

(** [s.rstrip()]: a character is dropped when it is white space and
    everything after it has been dropped too. *)
Fixpoint rstrip (s : string) : string :=
  match s with
  | EmptyString => EmptyString
  | String c s' =>
      match rstrip s' with
      | EmptyString => if is_space c then EmptyString else String c EmptyString
      | r => String c r
      end
  end.

(** [s.strip()]. *)
Definition strip (s : string) : string := rstrip (lstrip s).

(** [s.startswith(c)] for a one-character prefix. *)
Definition startswith_char (c : ascii) (s : string) : bool :=
  match s with
  | String c' _ => Ascii.eqb c c'
  | EmptyString => false
  end.

(** [not s]: the empty string is the only falsy string. *)
Definition is_empty (s : string) : bool :=
  match s with
  | EmptyString => true
  | String _ _ => false
  end.

(** [len(s)]. *)
Definition len (s : string) : nat := String.length s.


End PyStr.

(* ===================================================================== *)
(** * Python built-ins: stable sort, slices, sets, results *)
(* ===================================================================== *)

Module Py.

(** The outcome of a call that may raise. *)
Inductive exn := OSError | UnicodeDecodeError | KeyError | ZeroDivisionError.

Inductive result (A : Type) :=
| Ok (a : A)
| Raise (e : exn).
Arguments Ok {A} a.
Arguments Raise {A} e.

Section Sorted.
Context {A : Type} (key : A -> Z).

(** One step of the stable descending sort: [x] goes in front of the
    first element whose key is not greater than its own. *)
Fixpoint insert_desc (x : A) (l : list A) : list A :=
  match l with
  | [] => [x]
  | y :: l' =>
      if (key x <? key y)%Z then y :: insert_desc x l' else x :: y :: l'
  end.

(** [sorted(l, key=key, reverse=True)]: descending by key, elements of
    equal key staying in their original relative order. *)
Fixpoint sorted_desc (l : list A) : list A :=
  match l with
  | [] => []
  | x :: l' => insert_desc x (sorted_desc l')
  end.

(** A list whose keys never increase, in inductive form. *)
Inductive desc_chain : list A -> Prop :=
| desc_nil : desc_chain []
| desc_cons x l :
    Forall (fun y => (key y <= key x)%Z) l -> desc_chain l -> desc_chain (x :: l).
End Sorted.

(** [l[:n]], with Python's reading of a negative bound. *)
Definition slice_to {A : Type} (n : Z) (l : list A) : list A :=
  if (0 <=? n)%Z then take (Z.to_nat n) l
  else take (length l - Z.to_nat (- n)) l.

(** The order in which a [set] of strings is iterated: some enumeration of
    its elements, each once. *)
Record set_order := {
  iter : gset string -> list string;
  iter_perm : forall X, iter X ≡ₚ elements X
}.

(** One such order, used to run examples. *)
Definition elements_order : set_order :=
  {| iter := elements; iter_perm := fun X => reflexivity (elements X) |}.

(** Another one: the same elements the other way round. *)
Definition reversed_order : set_order :=
  {| iter := fun X => reverse (elements X);
     iter_perm := fun X => reverse_Permutation (elements X) |}.

(** One step of the stable ascending sort of strings: [x] goes in front of
    the first element that is not smaller than it. *)
Fixpoint insert_asc (x : string) (l : list string) : list string :=
  match l with
  | [] => [x]
  | y :: l' =>
      if String.leb x y then x :: y :: l' else y :: insert_asc x l'
  end.

(** [sorted(l)] on strings, which compare by their characters' codes. *)
Fixpoint sorted (l : list string) : list string :=
  match l with
  | [] => []
  | x :: l' => insert_asc x (sorted l')
  end.

End Py.

(* ===================================================================== *)
(** * The compiled pattern: [\b(a1|a2|...|an)\b] under [re.findall] *)
(* ===================================================================== *)

Module Regex.
Import PyStr.

(** What [re.compile] is given in [_build_patterns]: the escaped
    alternatives, in the order of the alternation, and whether
    [re.IGNORECASE] is set.  Every alternative went through [re.escape], so
    it stands for its own characters. *)
Record pattern := {
  alternatives : list string;
  ignorecase : bool
}.

(** Comparison of a pattern character with a text character. *)
Definition char_eq (ic : bool) (a b : ascii) : bool :=
  if ic then Ascii.eqb (lower_ascii a) (lower_ascii b) else Ascii.eqb a b.

(** An escaped literal [p] against the head of the text [s]: the text it
    consumed and what is left. *)
Fixpoint match_literal (ic : bool) (p s : string) : option (string * string) :=
  match p with
  | EmptyString => Some (EmptyString, s)
  | String a p' =>
      match s with
      | EmptyString => None
      | String b s' =>
          if char_eq ic a b then
            match match_literal ic p' s' with
            | Some (m, r) => Some (String b m, r)
            | None => None
            end
          else None
      end
  end.

Definition is_word_opt (c : option ascii) : bool :=
  match c with
  | Some c => is_word c
  | None => false
  end.

(** [\b] between the character before the position and the one at it
    (absent at either end of the text). *)
Definition word_boundary (prev next : option ascii) : bool :=
  xorb (is_word_opt prev) (is_word_opt next).

Definition head (s : string) : option ascii :=
  match s with
  | String c _ => Some c
  | EmptyString => None
  end.

(** The character before the position reached after consuming [m]. *)
Fixpoint last_char (prev : option ascii) (m : string) : option ascii :=
  match m with
  | EmptyString => prev
  | String c m' => last_char (Some c) m'
  end.

(** The alternation followed by the closing [\b], tried in order with
    backtracking: the first alternative that matches and is followed by a
    word boundary wins.  Under [must_advance] (the attempt that follows an
    empty match at the same position) an empty match is refused. *)
Fixpoint match_alts (ic must_advance : bool) (alts : list string)
    (prev : option ascii) (s : string) : option (string * string) :=
  match alts with
  | [] => None
  | p :: alts' =>
      match match_literal ic p s with
      | Some (m, r) =>
          if word_boundary (last_char prev m) (head r)
             && negb (must_advance && is_empty m)
          then Some (m, r)
          else match_alts ic must_advance alts' prev s
      | None => match_alts ic must_advance alts' prev s
      end
  end.

(** One attempt of the whole pattern at one position. *)
Definition match_here (pat : pattern) (must_advance : bool)
    (prev : option ascii) (s : string) : option (string * string) :=
  if word_boundary prev (head s)
  then match_alts (ignorecase pat) must_advance (alternatives pat) prev s
  else None.

(** The scan of [finditer]/[findall]: positions are tried from left to
    right; a match is reported with its start and the search resumes where
    it ended; after an empty match the same position is tried once more
    under [must_advance] before moving on.  [skip] counts the characters
    of the current match still to be passed over. *)
Fixpoint scan (pat : pattern) (pos : nat) (prev : option ascii)
    (s : string) (skip : nat) {struct s} : list (nat * string) :=
  match skip with
  | S k =>
      match s with
      | String c s' => scan pat (S pos) (Some c) s' k
      | EmptyString => []
      end
  | O =>
      match match_here pat false prev s with
      | Some (m, _) =>
          match len m with
          | S k =>
              (pos, m) ::
              match s with
              | String c s' => scan pat (S pos) (Some c) s' k
              | EmptyString => []
              end
          | O =>
              (pos, m) ::
              match match_here pat true prev s with
              | Some (m', _) =>
                  (pos, m') ::
                  match s with
                  | String c s' => scan pat (S pos) (Some c) s' (pred (len m'))
                  | EmptyString => []
                  end
              | None =>
                  match s with
                  | String c s' => scan pat (S pos) (Some c) s' 0
                  | EmptyString => []
                  end
              end
          end
      | None =>
          match s with
          | String c s' => scan pat (S pos) (Some c) s' 0
          | EmptyString => []
          end
      end
  end.

(** [pattern.finditer(text)]: start and text of every match. *)
Definition finditer (pat : pattern) (text : string) : list (nat * string) :=
  scan pat 0 None text 0.

(** [pattern.findall(text)] for a pattern with one group: the text of
    every match, left to right. *)
Definition findall (pat : pattern) (text : string) : list string :=
  map snd (finditer pat text).

End Regex.

(* ===================================================================== *)
(** * [SkillDictionary] *)
(* ===================================================================== *)

Module SkillDictionary.
Import PyStr Py.

(** References to set objects, and the heap that holds them. *)
Definition loc := positive.
Abbreviation heap := (gmap loc (gset string)).

(** The set stored at a reference. *)
Definition deref (h : heap) (l : loc) : gset string := default ∅ (h !! l).

(** A new set object holding [v]. *)
Definition alloc (v : gset string) (h : heap) : loc * heap :=
  let l := fresh (dom h) in (l, <[l := v]> h).

(** [self._stats]. *)
Record stats := {
  total_loaded : nat;
  duplicates_removed : nat;
  files_loaded : nat
}.

(** A [SkillDictionary] object: [_skills] maps a category to its set
    object (keys in insertion order), [_all_skills] is the combined set. *)
Record t := {
  _skills : list (string * loc);
  _all_skills : loc;
  _stats : stats
}.

(** [dict.get(key)] on [_skills]. *)
Fixpoint dict_get (d : list (string * loc)) (key : string) : option loc :=
  match d with
  | [] => None
  | (k, l) :: d' => if String.eqb k key then Some l else dict_get d' key
  end.

(** [d[key] = l] on [_skills]: an existing key keeps its place. *)
Fixpoint dict_set (d : list (string * loc)) (key : string) (l : loc)
    : list (string * loc) :=
  match d with
  | [] => [(key, l)]
  | (k, l0) :: d' =>
      if String.eqb k key then (k, l) :: d' else (k, l0) :: dict_set d' key l
  end.

(** [__init__]: three empty category sets and an empty combined set. *)
Definition init (h : heap) : t * heap :=
  let '(lt, h) := alloc ∅ h in
  let '(ls, h) := alloc ∅ h in
  let '(lc, h) := alloc ∅ h in
  let '(la, h) := alloc ∅ h in
  ({| _skills := [("technical", lt); ("soft", ls); ("custom", lc)];
      _all_skills := la;
      _stats := {| total_loaded := 0; duplicates_removed := 0;
                   files_loaded := 0 |} |}, h).

(** What the file system holds at a path: nothing, something that cannot
    be opened or decoded (the read raises [e]), or the lines of a text
    file. *)
Inductive file :=
| Missing
| Unreadable (e : exn)
| Lines (ls : list string).

Definition filesystem := string -> file.

(** The body of the loop of [load_from_file] for one line. *)
Definition load_line (acc : gset string * nat) (line : string)
    : gset string * nat :=
  let '(skills, duplicates) := acc in
  let line := strip line in
  if is_empty line || startswith_char "#" line then acc
  else
    let skill := lower line in
    if decide (skill ∈ skills) then (skills, S duplicates)
    else ({[skill]} ∪ skills, duplicates).

(** [load_from_file]: the outcome and the statistics afterwards. *)
Definition load_from_file (fs : filesystem) (st : stats) (file_path : string)
    : result (gset string) * stats :=
  match fs file_path with
  | Missing => (Ok ∅, st)
  | Unreadable e => (Raise e, st)
  | Lines ls =>
      let '(skills, duplicates) := foldl load_line (∅, 0%nat) ls in
      (Ok skills,
       {| total_loaded := total_loaded st;
          duplicates_removed := duplicates_removed st + duplicates;
          files_loaded := files_loaded st + 1 |})
  end.

(** [self._skills[category] = self.load_from_file(path, category)] when
    the category is configured with a non-empty path. *)
Definition load_category (fs : filesystem) (category : string)
    (path : option string) (self : t) (h : heap) : result (t * heap) :=
  match path with
  | None => Ok (self, h)
  | Some p =>
      if is_empty p then Ok (self, h)
      else
        match load_from_file fs (_stats self) p with
        | (Ok skills, st) =>
            let '(l, h) := alloc skills h in
            Ok ({| _skills := dict_set (_skills self) category l;
                   _all_skills := _all_skills self;
                   _stats := st |}, h)
        | (Raise e, _) => Raise e
        end
  end.

(** The paths configured under [extraction.dictionaries]. *)
Record dict_config := {
  technical : option string;
  soft : option string;
  custom : option string
}.

(** [load_all]. *)
Definition load_all (fs : filesystem) (cfg : dict_config) (self : t)
    (h : heap) : result (t * heap) :=
  match load_category fs "technical" (technical cfg) self h with
  | Raise e => Raise e
  | Ok (self, h) =>
  match load_category fs "soft" (soft cfg) self h with
  | Raise e => Raise e
  | Ok (self, h) =>
  match load_category fs "custom" (custom cfg) self h with
  | Raise e => Raise e
  | Ok (self, h) =>
      let all := foldl (fun acc kl => acc ∪ deref h kl.2) ∅ (_skills self) in
      let '(la, h) := alloc all h in
      Ok ({| _skills := _skills self;
             _all_skills := la;
             _stats := {| total_loaded := size all;
                          duplicates_removed := duplicates_removed (_stats self);
                          files_loaded := files_loaded (_stats self) |} |}, h)
  end end end.

(** [get_all_skills]: a copy of the combined set, as a new object. *)
Definition get_all_skills (self : t) (h : heap) : loc * heap :=
  alloc (deref h (_all_skills self)) h.

(** [get_skills_by_category]: [self._skills.get(category, set()).copy()];
    the default [set()] is built before the lookup. *)
Definition get_skills_by_category (self : t) (category : string) (h : heap)
    : loc * heap :=
  let '(dflt, h) := alloc ∅ h in
  let src := default dflt (dict_get (_skills self) category) in
  alloc (deref h src) h.

(** [add_skill]: [KeyError] on a category that is not a key. *)
Definition add_skill (self : t) (skill category : string) (h : heap)
    : result heap :=
  let normalized := lower skill in
  match dict_get (_skills self) category with
  | None => Raise KeyError
  | Some l =>
      let h := <[l := {[normalized]} ∪ deref h l]> h in
      Ok (<[_all_skills self := {[normalized]} ∪ deref h (_all_skills self)]> h)
  end.

(** [contains]. *)
Definition contains (self : t) (skill : string) (h : heap) : bool :=
  bool_decide (lower skill ∈ deref h (_all_skills self)).

(** The loop of [get_category] over [self._skills.items()]. *)
Fixpoint first_category (h : heap) (items : list (string * loc))
    (normalized : string) : option string :=
  match items with
  | [] => None
  | (category, l) :: items' =>
      if bool_decide (normalized ∈ deref h l) then Some category
      else first_category h items' normalized
  end.

(** [get_category]. *)
Definition get_category (self : t) (skill : string) (h : heap)
    : option string :=
  first_category h (_skills self) (lower skill).

(** What a caller can do to a set it holds. *)
Inductive set_op :=
| Add (x : string)
| Discard (x : string)
| Clear
| Update (xs : list string)
| DifferenceUpdate (xs : list string)
| IntersectionUpdate (xs : list string).

Definition denote (op : set_op) (v : gset string) : gset string :=
  match op with
  | Add x => {[x]} ∪ v
  | Discard x => v ∖ {[x]}
  | Clear => ∅
  | Update xs => v ∪ list_to_set xs
  | DifferenceUpdate xs => v ∖ list_to_set xs
  | IntersectionUpdate xs => v ∩ list_to_set xs
  end.

(** The mutation [op] applied to the object at [r]. *)
Definition mutate (r : loc) (h : heap) (op : set_op) : heap :=
  alter (denote op) r h.

(** A dictionary is allocated in a heap when every set it refers to is an
    object of that heap. *)
Definition allocated (self : t) (h : heap) : Prop :=
  _all_skills self ∈ dom h ∧ Forall (fun kl => kl.2 ∈ dom h) (_skills self).

(** [__len__]: the number of skills in the combined set. *)
Definition __len__ (self : t) (h : heap) : nat :=
  size (deref h (_all_skills self)).

End SkillDictionary.

(* ===================================================================== *)
(** * [SkillExtractor] *)
(* ===================================================================== *)

Module SkillExtractor.
Import PyStr Py.

(** The three settings read under [extraction.*]. *)
Record settings := {
  case_sensitive : bool;
  remove_duplicates : bool;
  normalize_skills : bool
}.

(** [self._stats]. *)
Record stats := {
  total_extractions : nat;
  total_skills_found : nat;
  unique_skills_found : gset string
}.

(** A [SkillExtractor] object.  [variations] is the table read from the
    variations file (canonical name, surface forms), [_variation_map] the
    reverse mapping, [_pattern] the compiled pattern or [None]. *)
Record t := {
  cfg : settings;
  variations : list (string * list string);
  _variation_map : gmap string string;
  _pattern : option Regex.pattern;
  _stats : stats
}.

(** The value of [_stats] after [__init__] and after [reset_stats]. *)
Definition zero_stats : stats :=
  {| total_extractions := 0; total_skills_found := 0;
     unique_skills_found := ∅ |}.

(** The reverse mapping built by [_load_variations]: later entries
    overwrite earlier ones. *)
Definition build_variation_map (table : list (string * list string))
    : gmap string string :=
  foldl (fun m '(canonical, vs) =>
           foldl (fun m v => <[lower v := lower canonical]> m) m vs)
        ∅ table.

(** [all_patterns] of [_build_patterns]: the skills and every lowercased
    variation. *)
Definition all_patterns (all_skills : gset string)
    (table : list (string * list string)) : gset string :=
  foldl (fun acc '(_, vs) => acc ∪ list_to_set (map lower vs)) all_skills table.

(** The sort key [len]. *)
Definition len_key (s : string) : Z := Z.of_nat (len s).

(** [_build_patterns]: [all_skills] is what [get_all_skills] returned. *)
Definition _build_patterns (o : set_order) (case_sensitive : bool)
    (all_skills : gset string) (table : list (string * list string))
    : option Regex.pattern :=
  let sorted_skills := sorted_desc len_key (iter o (all_patterns all_skills table)) in
  match sorted_skills with
  | [] => None
  | _ :: _ =>
      Some {| Regex.alternatives := sorted_skills;
              Regex.ignorecase := negb case_sensitive |}
  end.

(** [__init__]: [loaded] is the content of the variations file ([[]] when
    there is none); it is read only when normalisation is on. *)
Definition init (o : set_order) (c : settings) (all_skills : gset string)
    (loaded : list (string * list string)) : t :=
  let table := if normalize_skills c then loaded else [] in
  {| cfg := c;
     variations := table;
     _variation_map := build_variation_map table;
     _pattern := _build_patterns o (case_sensitive c) all_skills table;
     _stats := zero_stats |}.

(** [_normalize_skill]. *)
Definition _normalize_skill (self : t) (skill : string) : string :=
  let skill_lower := lower skill in
  match _variation_map self !! skill_lower with
  | Some canonical => canonical
  | None => skill_lower
  end.

(** One turn of the loop of [_remove_duplicates_preserve_order]. *)
Definition dedup_step (acc : gset string * list string) (skill : string)
    : gset string * list string :=
  let '(seen, result) := acc in
  if decide (skill ∈ seen) then acc
  else ({[skill]} ∪ seen, (result ++ [skill])%list).

(** [_remove_duplicates_preserve_order]. *)
Definition _remove_duplicates_preserve_order (skills : list string)
    : list string :=
  (foldl dedup_step (∅, []) skills).2.

(** The argument of [extract]: [None], a string, or some other value
    (a float such as NaN from a data frame). *)
Inductive pyval :=
| PNone
| PStr (s : string)
| POther.

(** The matches of [extract] after lowercasing and normalisation, before
    duplicates are removed. *)
Definition normalized_matches (self : t) (pat : Regex.pattern) (text : string)
    : list string :=
  let matches := Regex.findall pat text in
  let skills := map lower matches in
  if normalize_skills (cfg self) then map (_normalize_skill self) skills
  else skills.

(** [extract]: the list returned and the extractor afterwards. *)
Definition extract (self : t) (text : pyval) : list string * t :=
  match text with
  | PNone | POther => ([], self)
  | PStr text =>
      if is_empty text then ([], self)
      else
        match _pattern self with
        | None => ([], self)
        | Some pat =>
            let skills := normalized_matches self pat text in
            let skills :=
              if remove_duplicates (cfg self)
              then _remove_duplicates_preserve_order skills else skills in
            (skills,
             {| cfg := cfg self;
                variations := variations self;
                _variation_map := _variation_map self;
                _pattern := _pattern self;
                _stats :=
                  {| total_extractions := total_extractions (_stats self) + 1;
                     total_skills_found :=
                       total_skills_found (_stats self) + length skills;
                     unique_skills_found :=
                       unique_skills_found (_stats self) ∪ list_to_set skills |}
             |})
        end
  end.

(** [reset_stats]. *)
Definition reset_stats (self : t) : t :=
  {| cfg := cfg self;
     variations := variations self;
     _variation_map := _variation_map self;
     _pattern := _pattern self;
     _stats := zero_stats |}.

(** The dict that [get_extraction_stats] returns. *)
Record extraction_stats := {
  stats_total_extractions : nat;
  stats_total_skills_found : nat;
  unique_skills_count : nat;
  unique_skills : list string
}.

(** [get_extraction_stats]; [o] is the order in which [list] goes through
    the set. *)
Definition get_extraction_stats (o : Py.set_order) (self : t)
    : extraction_stats :=
  {| stats_total_extractions := total_extractions (_stats self);
     stats_total_skills_found := total_skills_found (_stats self);
     unique_skills_count := size (unique_skills_found (_stats self));
     unique_skills :=
       Py.sorted (Py.iter o (unique_skills_found (_stats self))) |}.

(** [extract_batch] over the text column of a frame: for every row, in
    order, its [extracted_skills] and its [skill_count]; and the extractor
    afterwards. *)
Fixpoint extract_batch (self : t) (col : list pyval)
    : list (list string * nat) * t :=
  match col with
  | [] => ([], self)
  | text :: col' =>
      let '(skills, self) := extract self text in
      let '(rows, self) := extract_batch self col' in
      ((skills, length skills) :: rows, self)
  end.

End SkillExtractor.

(* ===================================================================== *)
(** * Numbers: percentages as exact rationals *)
(* ===================================================================== *)

Module Num.
Import Py.

(** [a / b] on integers: [ZeroDivisionError] when [b] is zero. *)
Definition truediv (a b : Z) : result Q :=
  if (b =? 0)%Z then Raise ZeroDivisionError
  else Ok (inject_Z a / inject_Z b)%Q.

(** [(count / total) * 100 if total > 0 else 0], the expression shared by
    [Aggregator._aggregate_group] and [RulesGenerator._create_rule]; the
    division is evaluated only in the first branch. *)
Definition percentage (count total : Z) : result Q :=
  if (0 <? total)%Z then
    match truediv count total with
    | Ok q => Ok (q * 100)%Q
    | Raise e => Raise e
    end
  else Ok 0%Q.

(** Rounding to the nearest integer, halves to the even neighbour. *)
Definition round_half_even (q : Q) : Z :=
  let f := Qfloor q in
  match (q - inject_Z f ?= 1 # 2)%Q with
  | Lt => f
  | Gt => (f + 1)%Z
  | Eq => if Z.even f then f else (f + 1)%Z
  end.

(** [round(q, 2)]. *)
Definition round2 (q : Q) : Q :=
  (inject_Z (round_half_even (q * 100)) / 100)%Q.

End Num.

(* ===================================================================== *)
(** * [Aggregator] *)
(* ===================================================================== *)

Module Aggregator.
Import PyStr Py.

(** An [Aggregator] object: the three values read from the configuration;
    [role_mappings] is a dict from canonical role to its variations. *)
Record t := {
  role_column : option string;
  top_n : Z;
  role_mappings : list (string * list string)
}.

(** A value of the role column: [None], NaN, or a string. *)
Inductive role_value :=
| RNone
| RNaN
| RStr (s : string).

(** [normalize_role]. *)
Definition normalize_role (self : t) (role : role_value) : string :=
  match role with
  | RNone | RNaN => "Unknown"
  | RStr s =>
      if is_empty s then "Unknown"
      else
        let role_lower := strip (lower s) in
        match
          find (fun cv : string * list string =>
                  bool_decide (role_lower ∈ map lower cv.2))
               (role_mappings self)
        with
        | Some (canonical, _) => canonical
        | None => strip s
        end
  end.

(** A cell of the [extracted_skills] column: a list of skills, or something
    that is not a list. *)
Inductive cell :=
| CList (skills : list string)
| COther.

(** A row of the data frame, as far as the aggregator reads it. *)
Record row := {
  role : role_value;
  extracted_skills : cell
}.

(** [set(skills) if isinstance(skills, list) else set()]. *)
Definition unique_skills_of (c : cell) : gset string :=
  match c with
  | CList skills => list_to_set skills
  | COther => ∅
  end.

(** [counter[k] += 1]: a new key goes to the end. *)
Fixpoint counter_incr (c : list (string * Z)) (k : string)
    : list (string * Z) :=
  match c with
  | [] => [(k, 1%Z)]
  | (k', n) :: c' =>
      if String.eqb k' k then (k', (n + 1)%Z) :: c'
      else (k', n) :: counter_incr c' k
  end.

(** [Counter.update(iterable)]. *)
Definition counter_update (c : list (string * Z)) (it : list string)
    : list (string * Z) :=
  foldl counter_incr c it.

(** [d.get(k)] on a frequency table. *)
Fixpoint freq_get (c : list (string * Z)) (k : string) : option Z :=
  match c with
  | [] => None
  | (k', n) :: c' => if String.eqb k' k then Some n else freq_get c' k
  end.

(** [calculate_document_frequency] over the [extracted_skills] column. *)
Definition calculate_document_frequency (o : set_order) (col : list cell)
    : list (string * Z) :=
  foldl (fun skill_counts skills =>
           counter_update skill_counts (iter o (unique_skills_of skills)))
        [] col.

(** The dict comprehension that builds [skill_percentages]. *)
Fixpoint percentages (total_jds : Z) (freqs : list (string * Z))
    : result (list (string * Q)) :=
  match freqs with
  | [] => Ok []
  | (skill, count) :: freqs' =>
      match Num.percentage count total_jds with
      | Raise e => Raise e
      | Ok p =>
          match percentages total_jds freqs' with
          | Raise e => Raise e
          | Ok ps => Ok ((skill, p) :: ps)
          end
      end
  end.

(** The sort key [lambda x: x[1]]. *)
Definition count_key (x : string * Z) : Z := x.2.

(** [sorted(freqs.items(), key=lambda x: x[1], reverse=True)[:top_n]]. *)
Definition top_skills_of (top_n : Z) (freqs : list (string * Z))
    : list (string * Z) :=
  slice_to top_n (sorted_desc count_key freqs).

(** An entry of [top_skills]. *)
Record top_entry := {
  skill : string;
  count : Z;
  percentage : Q
}.

(** The dict returned by [_aggregate_group] (without the average of the
    [skill_count] column). *)
Record aggregation := {
  total_jds : Z;
  unique_skills : nat;
  skill_frequencies : list (string * Z);
  skill_percentages : list (string * Q);
  top_skills : list top_entry
}.

(** [skill_percentages[skill]]. *)
Fixpoint pct_get (ps : list (string * Q)) (k : string) : option Q :=
  match ps with
  | [] => None
  | (k', p) :: ps' => if String.eqb k' k then Some p else pct_get ps' k
  end.

(** [_aggregate_group] on the rows of one group. *)
Definition _aggregate_group (o : set_order) (self : t) (df : list row)
    : result aggregation :=
  let total := Z.of_nat (length df) in
  let freqs := calculate_document_frequency o (map extracted_skills df) in
  match percentages total freqs with
  | Raise e => Raise e
  | Ok pcts =>
      Ok {| total_jds := total;
            unique_skills := length freqs;
            skill_frequencies := freqs;
            skill_percentages := pcts;
            top_skills :=
              map (fun sc : string * Z =>
                     {| skill := sc.1; count := sc.2;
                        percentage :=
                          Num.round2 (default 0%Q (pct_get pcts sc.1)) |})
                  (top_skills_of (top_n self) freqs) |}
  end.

(** The rows of each normalised role, in their order in the frame. *)
Definition group_rows (self : t) (df : list row) : gmap string (list row) :=
  foldl (fun m r =>
           let k := normalize_role self (role r) in
           <[k := (default [] (m !! k) ++ [r])%list]> m)
        ∅ df.

(** [aggregate_by_role]; [has_role_column] tells whether the configured
    column is one of the frame's. *)
Definition aggregate_by_role (o : set_order) (self : t)
    (has_role_column : bool) (df : list row)
    : gmap string (result aggregation) :=
  match role_column self with
  | Some c =>
      if is_empty c || negb has_role_column
      then {[ "all" := _aggregate_group o self df ]}
      else _aggregate_group o self <$> group_rows self df
  | None => {[ "all" := _aggregate_group o self df ]}
  end.

End Aggregator.

(* ===================================================================== *)
(** * [RulesGenerator] *)
(* ===================================================================== *)

Module RulesGenerator.
Import PyStr Py.

(** A [RulesGenerator] object, as far as [_create_rule] reads it. *)
Record t := {
  dictionary : SkillDictionary.t;
  min_frequency : Z;
  core_threshold : Q;
  variations : list (string * list string)
}.

(** A rule entry. *)
Record rule := {
  skill : string;
  pattern : string;
  rule_variations : list string;
  category : string;
  pattern_type : string;
  frequency : Z;
  percentage : Q;
  is_core_skill : bool;
  rank : option nat;
  role : option string
}.

(** [_get_variations]. *)
Fixpoint get_variations_in (table : list (string * list string))
    (skill : string) : list string :=
  match table with
  | [] => [skill]
  | (canonical, vs) :: table' =>
      if String.eqb (lower canonical) (lower skill) then vs
      else if bool_decide (lower skill ∈ map lower vs) then canonical :: vs
      else get_variations_in table' skill
  end.

Definition _get_variations (self : t) (skill : string) : list string :=
  get_variations_in (variations self) skill.

(** [_get_rank]: the position, from one, in the top list. *)
Fixpoint rank_from (i : nat) (top : list Aggregator.top_entry) (skill : string)
    : option nat :=
  match top with
  | [] => None
  | e :: top' =>
      if String.eqb (Aggregator.skill e) skill then Some i
      else rank_from (S i) top' skill
  end.

Definition _get_rank (skill : string) (top : list Aggregator.top_entry)
    : option nat :=
  rank_from 1 top skill.

(** [percentage >= core_threshold * 100]. *)
Definition is_core (self : t) (percentage : Q) : bool :=
  Qle_bool (core_threshold self * 100) percentage.

(** [_create_rule]; [h] is the heap the dictionary lives in. *)
Definition _create_rule (self : t) (h : SkillDictionary.heap)
    (skill : string) (count total_jds : Z) (rank : option nat)
    (role : option string) : result rule :=
  match Num.percentage count total_jds with
  | Raise e => Raise e
  | Ok percentage =>
      Ok {| skill := skill;
            pattern := skill;
            rule_variations := _get_variations self skill;
            category :=
              default "unknown"
                (SkillDictionary.get_category (dictionary self) skill h);
            pattern_type := "dictionary";
            frequency := count;
            percentage := Num.round2 percentage;
            is_core_skill := is_core self percentage;
            rank := rank;
            role := role |}
  end.

(** The loop over [skill_frequencies.items()] of [generate_global_rules] and
    [generate_role_rules]: the rules written to the file, in order.  An
    entry below [min_frequency] is passed over. *)
Fixpoint write_rules (self : t) (h : SkillDictionary.heap)
    (top : list Aggregator.top_entry) (total_jds : Z) (role : option string)
    (items : list (string * Z)) : result (list rule) :=
  match items with
  | [] => Ok []
  | (skill, count) :: items' =>
      if (count <? min_frequency self)%Z
      then write_rules self h top total_jds role items'
      else
        match _create_rule self h skill count total_jds
                (_get_rank skill top) role with
        | Raise e => Raise e
        | Ok rule =>
            match write_rules self h top total_jds role items' with
            | Raise e => Raise e
            | Ok rules => Ok (rule :: rules)
            end
        end
  end.

(** [generate_global_rules]: the rules written to [global_rules.jsonl];
    [agg] is the generator's [Aggregator]. *)
Definition generate_global_rules (o : set_order) (self : t)
    (agg : Aggregator.t) (h : SkillDictionary.heap) (df : list Aggregator.row)
    : result (list rule) :=
  match Aggregator._aggregate_group o agg df with
  | Raise e => Raise e
  | Ok aggregation =>
      write_rules self h (Aggregator.top_skills aggregation)
        (Aggregator.total_jds aggregation) None
        (Aggregator.skill_frequencies aggregation)
  end.



End RulesGenerator.

(* ===================================================================== *)
(** * [Preprocessor] *)
(* ===================================================================== *)

Module Preprocessor.
Import PyStr Py.

(** The settings that the constructor reads from the configuration. *)
Record t := {
  lowercase : bool;
  normalize_whitespace : bool;
  remove_special_chars : bool;
  preserve_hyphens : bool;
  expand_abbreviations : bool
}.

(** [re.sub(r'\s+', ' ', text)]: every maximal run of white space becomes
    one blank.  [in_run] tells that the character before was white space,
    so that the run has its blank already. *)
Fixpoint sub_spaces (in_run : bool) (text : string) : string :=
  match text with
  | EmptyString => EmptyString
  | String c text' =>
      if is_space c then
        if in_run then sub_spaces true text'
        else String " " (sub_spaces true text')
      else String c (sub_spaces false text')
  end.

(** [_normalize]. *)
Definition _normalize (self : t) (text : string) : string :=
  let text := if lowercase self then lower text else text in
  if normalize_whitespace self then strip (sub_spaces false text) else text.

(** A cell of the text column: null ([None], [NaN]), or a value, given by
    its [str]. *)
Definition cell := option string.

(** The statistics kept in [_stats]. *)
Record stats := {
  total_processed : nat;
  skipped_null : nat;
  skipped_empty : nat
}.

(** [isna()] on a cell. *)
Definition isna (c : cell) : bool :=
  match c with
  | None => true
  | Some _ => false
  end.

(** [fillna('').astype(str).str.strip() == ''] on a cell. *)
Definition is_blank (c : cell) : bool :=
  match c with
  | None => is_empty (strip "")
  | Some text => is_empty (strip text)
  end.

(** [mask.sum()]. *)
Definition mask_sum (mask : list bool) : nat :=
  length (List.filter (fun b => b) mask).

(** [_create_valid_mask]: the mask, and the statistics with the two
    counters of skipped rows set. *)
Definition _create_valid_mask (st : stats) (col : list cell)
    : list bool * stats :=
  let null_mask := map isna col in
  let empty_mask := map is_blank col in
  let st :=
    {| total_processed := total_processed st;
       skipped_null := mask_sum null_mask;
       skipped_empty :=
         mask_sum (map (fun c => is_blank c && negb (isna c)) col) |} in
  (map (fun c => negb (isna c) && negb (is_blank c)) col, st).

(** [df[mask]]: the rows at which the mask is true. *)
Fixpoint select {A : Type} (mask : list bool) (rows : list A) : list A :=
  match mask, rows with
  | b :: mask', r :: rows' =>
      if b then r :: select mask' rows' else select mask' rows'
  | _, _ => []
  end.

(** [preprocess] on the text column: the cells of the rows that are kept,
    in order, and the statistics returned.  The [processed_text] column
    that is added to the kept rows is left out. *)
Definition preprocess (st : stats) (col : list cell) : list cell * stats :=
  let '(valid_mask, st) := _create_valid_mask st col in
  let df := select valid_mask col in
  (df,
   {| total_processed := length df;
      skipped_null := skipped_null st;
      skipped_empty := skipped_empty st |}).

End Preprocessor.

(* ===================================================================== *)
(** * [ConfigLoader] *)
(* ===================================================================== *)

Module ConfigLoader.
Import PyStr Py.

(** A value of the parsed YAML configuration.  The keys of a mapping are
    its string keys: [get] looks up strings only. *)
#[warnings="-register-all"]
Inductive yaml :=
| VNone
| VBool (b : bool)
| VInt (z : Z)
| VStr (s : string)
| VList (l : list yaml)
| VDict (d : list (string * yaml)).

(** [d[key]] when [key in d]. *)
Fixpoint dict_lookup (d : list (string * yaml)) (key : string)
    : option yaml :=
  match d with
  | [] => None
  | (k, v) :: d' => if String.eqb k key then Some v else dict_lookup d' key
  end.

(** [s.split(sep)] for a one-character separator. *)
Fixpoint split_on (sep : ascii) (s : string) : list string :=
  match s with
  | EmptyString => [EmptyString]
  | String c s' =>
      if Ascii.eqb c sep then EmptyString :: split_on sep s'
      else
        match split_on sep s' with
        | [] => [String c EmptyString]
        | w :: ws => String c w :: ws
        end
  end.

(** The loop of [get] over the keys of the path. *)
Fixpoint get_path (value : yaml) (keys : list string) (default : yaml)
    : yaml :=
  match keys with
  | [] => value
  | key :: keys' =>
      match value with
      | VDict d =>
          match dict_lookup d key with
          | Some v => get_path v keys' default
          | None => default
          end
      | _ => default
      end
  end.

(** [get]; [self] is [self._config]. *)
Definition get (self : yaml) (key_path : string) (default : yaml) : yaml :=
  get_path self (split_on "." key_path) default.

(** [REQUIRED_FIELDS]. *)
Definition REQUIRED_FIELDS : list string :=
  ["input.file_path"; "input.columns.text_column";
   "extraction.dictionaries.technical"; "output.directory"].

(** [value is None]. *)
Definition is_none (v : yaml) : bool :=
  match v with
  | VNone => true
  | _ => false
  end.

(** The reasons for which [ConfigurationError] is raised. *)
Inductive configuration_error :=
| NotFound
| InvalidYaml
| EmptyFile
| MissingFields (missing_fields : list string).

(** [validate]: the list of the missing fields, and the error raised when
    there are some. *)
Definition missing_fields (self : yaml) : list string :=
  List.filter (fun field_path => is_none (get self field_path VNone))
              REQUIRED_FIELDS.

Definition validate (self : yaml) : option configuration_error :=
  match missing_fields self with
  | [] => None
  | fields => Some (MissingFields fields)
  end.

(** What is at the path of the configuration file: nothing, a text that is
    not YAML, or a text that [yaml.safe_load] parses ([VNone] for an empty
    document).  A file that is there can be opened. *)
Inductive config_file :=
| Absent
| NotYaml
| Parsed (config_dict : yaml).

(** [load]: the configuration, or the error raised. *)
Definition load (fs : string -> config_file) (config_path : string)
    : yaml + configuration_error :=
  match fs config_path with
  | Absent => inr NotFound
  | NotYaml => inr InvalidYaml
  | Parsed config_dict =>
      if is_none config_dict then inr EmptyFile
      else
        match validate config_dict with
        | Some e => inr e
        | None => inl config_dict
        end
  end.

End ConfigLoader.

(* ===================================================================== *)
(** * Specification vocabulary *)
(* ===================================================================== *)

Module Spec.
Import PyStr Py.





(** Following the words of the specification: the elements of a list in
    the order of their first occurrence, later occurrences dropped. *)
Fixpoint first_occurrences (l : list string) : list string :=
  match l with
  | [] => []
  | x :: l' => x :: filter (fun y => y <> x) (first_occurrences l')
  end.

(** The index of the first occurrence of [x] in [l] ([length l] when there
    is none). *)
Fixpoint first_index (x : string) (l : list string) : nat :=
  match l with
  | [] => 0
  | y :: l' => if String.eqb y x then 0 else S (first_index x l')
  end.

(** Keys in descending order. *)
Definition descending {A : Type} (key : A -> Z) (l : list A) : Prop :=
  forall i j x y, (i < j)%nat -> l !! i = Some x -> l !! j = Some y ->
    (key y <= key x)%Z.

(** The entries of [l] whose key is [k], in their order in [l]. *)
Definition with_key {A : Type} (key : A -> Z) (k : Z) (l : list A) : list A :=
  filter (fun x => key x = k) l.

(** The ranking breaks ties by ascending skill name. *)
Definition ties_by_name (top : list (string * Z)) : Prop :=
  forall i j x y, (i < j)%nat -> top !! i = Some x -> top !! j = Some y ->
    x.2 = y.2 -> String.ltb x.1 y.1 = true.

(** The number of cells of the column whose skill set contains [s]. *)
Definition documents_with (s : string) (col : list Aggregator.cell) : nat :=
  length (filter (fun c => s ∈ Aggregator.unique_skills_of c) col).

(** A path that cannot be read: nothing is there, or reading it raises. *)
Definition cannot_be_read (fs : SkillDictionary.filesystem) (path : string)
    : Prop :=
  match fs path with
  | SkillDictionary.Lines _ => False
  | _ => True
  end.

(** A call failed. *)
Definition failed {A : Type} (r : result A) : Prop :=
  match r with
  | Raise _ => True
  | Ok _ => False
  end.

(** A role label is missing: [None], NaN, or the empty string. *)
Definition missing (role : Aggregator.role_value) : Prop :=
  match role with
  | Aggregator.RStr s => s = ""
  | _ => True
  end.

(** The entry [(canonical, vs)] of the synonym table lists the label. *)
Definition lists_label (label : string) (cv : string * list string) : Prop :=
  label ∈ map lower cv.2.

(** The call gets past the two early returns of [extract]: the text is a
    non-empty string and a pattern was compiled. *)
Definition reaches_matching (self : SkillExtractor.t)
    (text : SkillExtractor.pyval) : Prop :=
  match text with
  | SkillExtractor.PStr s => s <> "" /\ SkillExtractor._pattern self <> None
  | _ => False
  end.

(** What a frequency becomes after [n] more documents with the skill. *)
Definition bump (v : option Z) (n : nat) : option Z :=
  match n with
  | O => v
  | S _ => Some (default 0%Z v + Z.of_nat n)%Z
  end.

(** A line of a dictionary file that holds a term: not blank and not a
    comment once trimmed. *)
Definition is_term (line : string) : bool :=
  negb (is_empty (strip line) || startswith_char "#" (strip line)).

(** The set a call returned: the content of the new object. *)
Definition returned (rh : SkillDictionary.loc * SkillDictionary.heap)
    : gset string :=
  SkillDictionary.deref rh.2 rh.1.

(** What the four queries of a dictionary answer in a heap, for a skill and
    a category. *)
Definition observe (d : SkillDictionary.t) (h : SkillDictionary.heap)
    (skill category : string)
    : bool * option string * gset string * gset string :=
  (SkillDictionary.contains d skill h,
   SkillDictionary.get_category d skill h,
   returned (SkillDictionary.get_all_skills d h),
   returned (SkillDictionary.get_skills_by_category d category h)).

(** The heap after the caller applied [ops], in order, to the set it was
    handed. *)
Definition after_mutations (rh : SkillDictionary.loc * SkillDictionary.heap)
    (ops : list SkillDictionary.set_op) : SkillDictionary.heap :=
  foldl (SkillDictionary.mutate rh.1) rh.2 ops.

(** Two heaps that agree on the sets of a dictionary. *)
Definition agree (d : SkillDictionary.t) (h h' : SkillDictionary.heap) : Prop :=
  SkillDictionary.deref h' (SkillDictionary._all_skills d)
  = SkillDictionary.deref h (SkillDictionary._all_skills d) /\
  Forall (fun kl : string * SkillDictionary.loc =>
            SkillDictionary.deref h' kl.2 = SkillDictionary.deref h kl.2)
         (SkillDictionary._skills d).

(** A stored skill: not empty, lowercase, without white space at either
    end, and not a comment. *)
Definition stored_form (x : string) : Prop :=
  x <> "" /\ lower x = x /\ strip x = x /\ startswith_char "#" x = false.

(** The term lines of a dictionary file. *)
Definition term_lines (ls : list string) : list string :=
  filter (fun line => is_term line = true) ls.

(** A string that does not begin with white space. *)
Definition no_leading_space (s : string) : Prop :=
  match s with
  | EmptyString => True
  | String c _ => is_space c = false
  end.

(** The call is one that [extract] counts: [reaches_matching], as a test. *)
Definition counted (self : SkillExtractor.t) (text : SkillExtractor.pyval)
    : bool :=
  match text with
  | SkillExtractor.PStr s =>
      negb (is_empty s)
      && match SkillExtractor._pattern self with
         | Some _ => true
         | None => false
         end
  | _ => false
  end.

(** Two extractors that differ at most in their statistics. *)
Definition same_matcher (a b : SkillExtractor.t) : Prop :=
  SkillExtractor.cfg a = SkillExtractor.cfg b /\
  SkillExtractor.variations a = SkillExtractor.variations b /\
  SkillExtractor._variation_map a = SkillExtractor._variation_map b /\
  SkillExtractor._pattern a = SkillExtractor._pattern b.

(** The entry of the variation table lists the lowercase form [k] among
    its variations. *)
Definition lists_variation (k : string) (cv : string * list string) : Prop :=
  k ∈ map lower cv.2.

#[global] Instance lists_variation_dec k cv : Decision (lists_variation k cv).
Proof. unfold lists_variation. apply _. Defined.

(** The canonical name the variation table gives the lowercase form [k]:
    that of the last entry listing it. *)
Definition last_listing (table : list (string * list string)) (k : string)
    : option string :=
  foldl (fun acc (cv : string * list string) =>
           if decide (lists_variation k cv) then Some (lower cv.1) else acc)
        None table.



(** The skills that occur in some cell of the column. *)
Definition skills_of_column (col : list Aggregator.cell) : gset string :=
  ⋃ (map Aggregator.unique_skills_of col).

(** The rows of a frame whose role is normalised to [k]. *)
Definition rows_of_role (self : Aggregator.t) (k : string)
    (df : list Aggregator.row) : list Aggregator.row :=
  filter (fun r => Aggregator.normalize_role self (Aggregator.role r) = k) df.

(** The characters of a string. *)
Definition chars (s : string) : list ascii := list_ascii_of_string s.


(** The keys of a path joined with dots. *)
Fixpoint join_dots (keys : list string) : string :=
  match keys with
  | [] => ""
  | [k] => k
  | k :: keys' => k ++ "." ++ join_dots keys'
  end.

(** A key without a dot in it. *)
Fixpoint dotless (k : string) : bool :=
  match k with
  | EmptyString => true
  | String c k' => negb (Ascii.eqb c ".") && dotless k'
  end.

(** [config[k1][k2]...], when every step finds a mapping with the key. *)
Fixpoint nested (v : ConfigLoader.yaml) (keys : list string)
    : option ConfigLoader.yaml :=
  match keys with
  | [] => Some v
  | k :: keys' =>
      match v with
      | ConfigLoader.VDict d =>
          match ConfigLoader.dict_lookup d k with
          | Some v' => nested v' keys'
          | None => None
          end
      | _ => None
      end
  end.

(** The field at a dotted path is there and is not null. *)
Definition present (self : ConfigLoader.yaml) (keys : list string) : Prop :=
  exists v, nested self keys = Some v /\ v <> ConfigLoader.VNone.

(** The value found, or the default. *)
Definition default_if_absent {A : Type} (default : A) (found : option A) : A :=
  match found with
  | Some v => v
  | None => default
  end.

(** [a <= b] on Python strings. *)
Definition str_le (a b : string) : Prop := String.leb a b = true.

(** [a < b] on Python strings. *)
Definition str_lt (a b : string) : Prop := String.ltb a b = true.

(** A list of strings in strictly ascending order. *)
Definition ascending (l : list string) : Prop :=
  forall i j a b,
    (i < j)%nat -> l !! i = Some a -> l !! j = Some b -> str_lt a b.

(** White space is single blanks between other characters: every white
    space character is a blank, and the character after it, if there is
    one, is not white space. *)
Definition single_blanks (s : string) : Prop :=
  forall i c,
    String.get i s = Some c -> is_space c = true ->
    c = " "%char /\
    forall d, String.get (S i) s = Some d -> is_space d = false.

(** The characters of a string that are not white space. *)
Definition visible (s : string) : list ascii :=
  List.filter (fun c => negb (is_space c)) (chars s).

(** A cell with a text that is not blank. *)
Definition has_text (c : Preprocessor.cell) : Prop :=
  exists text, c = Some text /\ strip text <> "".

(** [single_blanks] as a test that runs along the string; [prev] tells
    that the character before is white space. *)
Fixpoint blanks_ok (prev : bool) (s : string) : bool :=
  match s with
  | EmptyString => true
  | String c s' =>
      if is_space c then Ascii.eqb c " " && negb prev && blanks_ok true s'
      else blanks_ok false s'
  end.

(** The test of the valid mask on one cell. *)
Definition valid_cell (c : Preprocessor.cell) : bool :=
  negb (Preprocessor.isna c) && negb (Preprocessor.is_blank c).

End Spec.

(* ===================================================================== *)
(** * Facts about strings *)
(* ===================================================================== *)

Section StringFacts.
Import PyStr.






End StringFacts.

(* ===================================================================== *)
(** * Facts about the stable descending sort *)
(* ===================================================================== *)

Section SortFacts.
Import Py Spec.
Context {A : Type} (key : A -> Z).

Lemma insert_desc_perm x l : insert_desc key x l ≡ₚ x :: l.
Proof.
  induction l as [|y l IH]; simpl; [reflexivity|].
  destruct (key x <? key y)%Z; [|reflexivity].
  rewrite IH. apply Permutation_swap.
Qed.

Lemma sorted_desc_perm l : sorted_desc key l ≡ₚ l.
Proof.
  induction l as [|x l IH]; simpl; [reflexivity|].
  rewrite insert_desc_perm. now rewrite IH.
Qed.

Lemma insert_desc_chain x l : desc_chain key l -> desc_chain key (insert_desc key x l).
Proof.
  induction 1 as [|y l Hy Hl IH]; simpl.
  - constructor; constructor.
  - destruct (key x <? key y)%Z eqn:E.
    + apply Z.ltb_lt in E. constructor; [|exact IH].
      rewrite insert_desc_perm. constructor; [lia | exact Hy].
    + apply Z.ltb_ge in E. constructor; [|constructor; assumption].
      constructor; [exact E|].
      eapply Forall_impl; [exact Hy|]. simpl. intros; lia.
Qed.

Lemma sorted_desc_chain l : desc_chain key (sorted_desc key l).
Proof.
  induction l as [|x l IH]; simpl; [constructor | now apply insert_desc_chain].
Qed.

Lemma desc_chain_descending l : desc_chain key l -> descending key l.
Proof.
  induction 1 as [|x l Hx Hl IH]; intros i j a b Hij Hi Hj.
  - discriminate.
  - destruct j as [|j]; [lia|]. simpl in Hj.
    destruct i as [|i]; simpl in Hi.
    + injection Hi as <-. rewrite Forall_forall in Hx.
      apply Hx. eapply list_elem_of_lookup_2, Hj.
    + eapply (IH i j); [lia | eassumption | eassumption].
Qed.


Lemma insert_desc_with_key x l k :
  desc_chain key l ->
  with_key key k (insert_desc key x l) = with_key key k (x :: l).
Proof.
  unfold with_key.
  induction 1 as [|y l Hy Hl IH]; simpl; [reflexivity|].
  destruct (key x <? key y)%Z eqn:E; [|reflexivity].
  apply Z.ltb_lt in E.
  rewrite !filter_cons in *.
  destruct (decide (key y = k)) as [Ey|Ey], (decide (key x = k)) as [Ex|Ex];
    try (exfalso; lia); rewrite IH; reflexivity.
Qed.

(** Stability: the entries of one key keep their order. *)
Lemma sorted_desc_stable l k :
  with_key key k (sorted_desc key l) = with_key key k l.
Proof.
  induction l as [|x l IH]; simpl; [reflexivity|].
  rewrite insert_desc_with_key by apply sorted_desc_chain.
  unfold with_key in *. rewrite !filter_cons, IH. reflexivity.
Qed.

End SortFacts.

(* ===================================================================== *)
(** * Facts about the matcher *)
(* ===================================================================== *)

Section RegexFacts.
Import PyStr Py Spec Regex.















End RegexFacts.

(* ===================================================================== *)
(** * The pattern built by [_build_patterns] *)
(* ===================================================================== *)

Section BuildPatternFacts.
Import PyStr Py Spec Regex SkillExtractor.




End BuildPatternFacts.


(** The boundaries of the theorem are those of [\b], a change between a
    word character and a character that is not one (or an end of the
    text): a skill ending in a symbol does not occur, in that sense, in
    front of a blank, and the shorter skill is what is found there. *)
Example boundary_after_symbol :
  Regex.findall {| Regex.alternatives := ["c++"; "c"];
                   Regex.ignorecase := true |} "c++ developer" = ["c"]
  /\ Regex.findall {| Regex.alternatives := ["c++"; "c"];
                      Regex.ignorecase := true |} "c++11 developer" = ["c++"].
Proof. split; vm_compute; reflexivity. Qed.


(* ===================================================================== *)
(** * Facts about duplicate removal *)
(* ===================================================================== *)

Section DedupFacts.
Import PyStr Py Spec SkillExtractor.

Lemma first_occurrences_elem l x : x ∈ first_occurrences l <-> x ∈ l.
Proof.
  induction l as [|a l IH]; simpl; [reflexivity|].
  rewrite !elem_of_cons, list_elem_of_filter, IH.
  destruct (decide (x = a)); tauto.
Qed.

Lemma first_occurrences_NoDup l : NoDup (first_occurrences l).
Proof.
  induction l as [|a l IH]; simpl; constructor.
  - rewrite list_elem_of_filter. tauto.
  - now apply NoDup_filter.
Qed.

(** The loop of [_remove_duplicates_preserve_order], started from any
    [result] with [seen] its set of elements. *)
Lemma dedup_loop l : forall (seen : gset string) (res : list string),
  (forall x, x ∈ seen <-> x ∈ res) ->
  (foldl dedup_step (seen, res) l).2
  = (res ++ filter (fun y => y ∉ res) (first_occurrences l))%list.
Proof.
  induction l as [|a l IH]; intros seen res Hs; simpl.
  - now rewrite filter_nil, app_nil_r.
  - rewrite filter_cons, list_filter_filter.
    destruct (decide (a ∈ seen)) as [Ha|Ha].
    + rewrite (IH _ _ Hs).
      destruct (decide (a ∉ res)) as [Hr|Hr]; [exfalso; apply Hr, Hs, Ha|].
      f_equal. apply list_filter_iff. intros y. split; [|tauto].
      intros Hy. split; [exact Hy|]. intros ->. apply Hy, Hs, Ha.
    + rewrite IH.
      * destruct (decide (a ∉ res)) as [Hr|Hr];
          [|exfalso; apply Hr; intros Hr'; apply Ha, Hs, Hr'].
        rewrite <- app_assoc. simpl. do 2 f_equal.
        apply list_filter_iff. intros y.
        rewrite elem_of_app, list_elem_of_singleton. tauto.
      * intros x. rewrite elem_of_union, elem_of_singleton, elem_of_app,
          list_elem_of_singleton, Hs. tauto.
Qed.

Lemma filter_all (P : string -> Prop) `{!forall x, Decision (P x)}
    (l : list string) : (forall x, P x) -> filter P l = l.
Proof.
  intros HP. induction l as [|a l IH]; [reflexivity|].
  rewrite filter_cons_True by apply HP. now rewrite IH.
Qed.

(** The loop computes the first occurrences. *)
Lemma remove_duplicates_first_occurrences l :
  _remove_duplicates_preserve_order l = first_occurrences l.
Proof.
  unfold _remove_duplicates_preserve_order.
  rewrite dedup_loop by (intros x; rewrite elem_of_empty, elem_of_nil; tauto).
  simpl. apply filter_all. intros x. apply not_elem_of_nil.
Qed.

(** Filtering keeps the relative order of what it keeps. *)
Lemma filter_keeps_order (P : string -> Prop) `{!forall x, Decision (P x)}
    (l : list string) : forall i j x y,
  (i < j)%nat -> filter P l !! i = Some x -> filter P l !! j = Some y ->
  exists i' j', (i' < j')%nat /\ l !! i' = Some x /\ l !! j' = Some y.
Proof.
  induction l as [|a l IH]; intros i j x y Hij Hi Hj; [discriminate|].
  rewrite filter_cons in Hi, Hj. destruct (decide (P a)).
  - destruct j as [|j]; [lia|]. simpl in Hj. destruct i as [|i]; simpl in Hi.
    + injection Hi as ->.
      apply list_elem_of_lookup_2, list_elem_of_filter in Hj as [_ Hj].
      apply list_elem_of_lookup_1 in Hj as [j' Hj'].
      exists 0%nat, (S j'). repeat split; [lia | exact Hj'].
    + destruct (IH i j x y ltac:(lia) Hi Hj) as (i' & j' & ? & ? & ?).
      exists (S i'), (S j'). repeat split; [lia | assumption | assumption].
  - destruct (IH i j x y Hij Hi Hj) as (i' & j' & ? & ? & ?).
    exists (S i'), (S j'). repeat split; [lia | assumption | assumption].
Qed.

(** The first occurrences are listed in the order of their first index. *)
Lemma first_occurrences_order l : forall i j x y,
  (i < j)%nat ->
  first_occurrences l !! i = Some x -> first_occurrences l !! j = Some y ->
  (first_index x l < first_index y l)%nat.
Proof.
  induction l as [|a l IH]; intros i j x y Hij Hi Hj; [discriminate|].
  simpl in Hi, Hj. destruct j as [|j]; [lia|]. simpl in Hj.
  assert (Hy : y <> a).
  { apply list_elem_of_lookup_2, list_elem_of_filter in Hj. tauto. }
  simpl. destruct (String.eqb_spec a y) as [->|_]; [congruence|].
  destruct i as [|i]; simpl in Hi.
  - injection Hi as ->. rewrite String.eqb_refl. lia.
  - assert (Hx : x <> a).
    { apply list_elem_of_lookup_2, list_elem_of_filter in Hi. tauto. }
    destruct (String.eqb_spec a x) as [->|_]; [congruence|].
    destruct (filter_keeps_order (fun z => z <> a) _ i j x y ltac:(lia) Hi Hj)
      as (i' & j' & Hij' & Hi' & Hj').
    specialize (IH i' j' x y Hij' Hi' Hj'). lia.
Qed.

End DedupFacts.

(** C4. For every extractor with [remove_duplicates] on and every input,
    the list returned by [extract] has no duplicates; when the input is a
    non-empty string and a pattern was compiled, it is the list of first
    occurrences of the normalised match sequence: it has the same elements,
    and they come in the order of their first index in that sequence (it is
    not sorted). *)
Theorem extract_no_duplicates_first_occurrence_order
    (self : SkillExtractor.t) (text : SkillExtractor.pyval) :
  SkillExtractor.remove_duplicates (SkillExtractor.cfg self) = true ->
  let out := (SkillExtractor.extract self text).1 in
  NoDup out /\
  forall pat s,
    text = SkillExtractor.PStr s -> s <> "" ->
    SkillExtractor._pattern self = Some pat ->
    let raw := SkillExtractor.normalized_matches self pat s in
    out = Spec.first_occurrences raw /\
    (forall x, x ∈ out <-> x ∈ raw) /\
    (forall i j x y, (i < j)%nat -> out !! i = Some x -> out !! j = Some y ->
       (Spec.first_index x raw < Spec.first_index y raw)%nat).
Proof.
  intros Hd out.
  assert (E : forall pat s, text = SkillExtractor.PStr s -> s <> "" ->
            SkillExtractor._pattern self = Some pat ->
            out = Spec.first_occurrences
                    (SkillExtractor.normalized_matches self pat s)).
  { intros pat s -> Hs Hp. subst out. unfold SkillExtractor.extract.
    destruct s as [|c s]; [congruence|]. simpl PyStr.is_empty. cbv iota.
    rewrite Hp, Hd. simpl. apply remove_duplicates_first_occurrences. }
  split.
  - destruct text as [| s |]; try (subst out; simpl; constructor).
    destruct s as [|c s]; [subst out; simpl; constructor|].
    destruct (SkillExtractor._pattern self) as [pat|] eqn:Hp.
    + rewrite (E pat (String c s) eq_refl ltac:(discriminate) eq_refl).
      apply first_occurrences_NoDup.
    + subst out. unfold SkillExtractor.extract. simpl PyStr.is_empty.
      cbv iota. rewrite Hp. constructor.
  - intros pat s Ht Hs Hp raw. rewrite (E pat s Ht Hs Hp). fold raw.
    split; [reflexivity|]. split.
    + intros x. apply first_occurrences_elem.
    + apply first_occurrences_order.
Qed.

(** Two runs of the whole of [extract]: the skills come out lowercased,
    in the order of the text, and a variation comes out as its canonical
    name. *)
Example extract_end_to_end :
  (SkillExtractor.extract
     (SkillExtractor.init Py.elements_order
        {| SkillExtractor.case_sensitive := false;
           SkillExtractor.remove_duplicates := true;
           SkillExtractor.normalize_skills := true |}
        {["python"; "java"; "sql"; "docker"]} [])
     (SkillExtractor.PStr
        "Looking for Python developer with AWS and SQL experience. Must know Docker.")).1
  = ["python"; "sql"; "docker"]
  /\ (SkillExtractor.extract
        (SkillExtractor.init Py.elements_order
           {| SkillExtractor.case_sensitive := false;
              SkillExtractor.remove_duplicates := true;
              SkillExtractor.normalize_skills := true |}
           {["javascript"]} [("JavaScript", ["JS"])])
        (SkillExtractor.PStr "need a JS dev")).1
     = ["javascript"].
Proof. split; vm_compute; reflexivity. Qed.

(** The theorem on a text that names one skill three times and another
    one in between. *)
Lemma extract_no_duplicates_witness :
  let self := SkillExtractor.init Py.elements_order
      {| SkillExtractor.case_sensitive := false;
         SkillExtractor.remove_duplicates := true;
         SkillExtractor.normalize_skills := true |}
      {["python"; "sql"]} [] in
  (SkillExtractor.extract self
     (SkillExtractor.PStr "SQL and python, sql; Python")).1 = ["sql"; "python"]
  /\ NoDup (SkillExtractor.extract self
     (SkillExtractor.PStr "SQL and python, sql; Python")).1.
Proof.
  split; [vm_compute; reflexivity|].
  exact (proj1 (extract_no_duplicates_first_occurrence_order
    (SkillExtractor.init Py.elements_order
      {| SkillExtractor.case_sensitive := false;
         SkillExtractor.remove_duplicates := true;
         SkillExtractor.normalize_skills := true |}
      {["python"; "sql"]} [])
    (SkillExtractor.PStr "SQL and python, sql; Python") eq_refl)).
Defined.

(* ===================================================================== *)
(** * The running statistics of the extractor *)
(* ===================================================================== *)

(** C7, as stated, fails: a call of [extract] on the empty string returns
    before the statistics are touched, so the count of documents processed
    does not move. *)
Lemma extract_empty_text_not_counted :
  let self := SkillExtractor.init Py.elements_order
      {| SkillExtractor.case_sensitive := false;
         SkillExtractor.remove_duplicates := true;
         SkillExtractor.normalize_skills := true |}
      {["python"]} [] in
  SkillExtractor.total_extractions
    (SkillExtractor._stats
       (SkillExtractor.extract self (SkillExtractor.PStr "")).2)
  <> (SkillExtractor.total_extractions (SkillExtractor._stats self) + 1)%nat.
Proof. vm_compute. discriminate. Qed.

(** C7, amended. A call of [extract] that gets past the early returns (the
    text is a non-empty string and a pattern was compiled) adds one to the
    count of documents processed, adds the number of skills it returns to
    the count of skill instances, and adds each returned skill to the set of
    skills seen; any other call returns the empty list and leaves the
    statistics as they were; [reset_stats] puts the three back to zero and
    changes nothing else. *)
Theorem extract_updates_stats
    (self : SkillExtractor.t) (text : SkillExtractor.pyval) :
  let out := (SkillExtractor.extract self text).1 in
  let before := SkillExtractor._stats self in
  let after := SkillExtractor._stats (SkillExtractor.extract self text).2 in
  (Spec.reaches_matching self text ->
     SkillExtractor.total_extractions after
       = (SkillExtractor.total_extractions before + 1)%nat /\
     SkillExtractor.total_skills_found after
       = (SkillExtractor.total_skills_found before + length out)%nat /\
     SkillExtractor.unique_skills_found after
       = SkillExtractor.unique_skills_found before ∪ list_to_set out) /\
  (~ Spec.reaches_matching self text -> out = [] /\ after = before) /\
  SkillExtractor._stats
    (SkillExtractor.reset_stats (SkillExtractor.extract self text).2)
    = SkillExtractor.zero_stats /\
  SkillExtractor.total_extractions SkillExtractor.zero_stats = 0%nat /\
  SkillExtractor.total_skills_found SkillExtractor.zero_stats = 0%nat /\
  SkillExtractor.unique_skills_found SkillExtractor.zero_stats = ∅.
Proof.
  intros out before after. subst out before after.
  split; [|split; [|repeat split]].
  - destruct text as [| s |]; simpl; try tauto.
    intros [Hs Hp]. destruct s as [|c s]; [congruence|]. simpl.
    destruct (SkillExtractor._pattern self) as [pat|]; [|congruence].
    simpl. repeat split.
  - destruct text as [| s |]; simpl; try (intros _; split; reflexivity).
    intros Hn. destruct s as [|c s]; [split; reflexivity|]. simpl.
    destruct (SkillExtractor._pattern self) as [pat|].
    + exfalso. apply Hn. split; discriminate.
    + split; reflexivity.
Qed.

(** The theorem on one document with two skills, one of them twice. *)
Lemma extract_updates_stats_witness :
  let self := SkillExtractor.init Py.elements_order
      {| SkillExtractor.case_sensitive := false;
         SkillExtractor.remove_duplicates := true;
         SkillExtractor.normalize_skills := true |}
      {["python"; "sql"]} [] in
  let text := SkillExtractor.PStr "python, SQL and Python" in
  Spec.reaches_matching self text /\
  SkillExtractor.total_extractions
    (SkillExtractor._stats (SkillExtractor.extract self text).2)
  = (SkillExtractor.total_extractions (SkillExtractor._stats self) + 1)%nat.
Proof.
  assert (H : Spec.reaches_matching
    (SkillExtractor.init Py.elements_order
      {| SkillExtractor.case_sensitive := false;
         SkillExtractor.remove_duplicates := true;
         SkillExtractor.normalize_skills := true |}
      {["python"; "sql"]} [])
    (SkillExtractor.PStr "python, SQL and Python")).
  { split; [discriminate | vm_compute; discriminate]. }
  split; [exact H|].
  exact (proj1 (proj1 (extract_updates_stats _ _) H)).
Defined.

(* ===================================================================== *)
(** * Document frequency *)
(* ===================================================================== *)

Section FrequencyFacts.
Import PyStr Py Spec Aggregator.

Lemma freq_get_incr c k s :
  freq_get (counter_incr c k) s
  = if decide (k = s) then Some (default 0%Z (freq_get c s) + 1)%Z
    else freq_get c s.
Proof.
  induction c as [|[k' n] c IH]; simpl.
  - destruct (String.eqb_spec k s), (decide (k = s));
      try reflexivity; congruence.
  - destruct (String.eqb_spec k' k) as [->|Hk]; simpl.
    + destruct (String.eqb_spec k s), (decide (k = s));
        try reflexivity; congruence.
    + destruct (String.eqb_spec k' s) as [->|Hs].
      * destruct (decide (k = s)); [congruence | reflexivity].
      * exact IH.
Qed.

Lemma bump_bump v a b : bump (bump v a) b = bump v (a + b).
Proof.
  destruct a as [|a], b as [|b]; simpl; try reflexivity.
  - now rewrite Nat.add_0_r.
  - f_equal. lia.
Qed.

(** [Counter.update] with an iterable without repetition adds one to the
    count of each of its elements. *)
Lemma freq_get_update l : forall c s, NoDup l ->
  freq_get (counter_update c l) s
  = bump (freq_get c s) (if decide (s ∈ l) then 1 else 0).
Proof.
  unfold counter_update.
  induction l as [|k l IH]; intros c s Hnd; simpl.
  - destruct (decide (s ∈ [])) as [H|_]; [inversion H | reflexivity].
  - apply NoDup_cons in Hnd as [Hk Hnd]. rewrite (IH _ _ Hnd), freq_get_incr.
    destruct (decide (k = s)) as [->|Hks].
    + destruct (decide (s ∈ l)); [contradiction|].
      destruct (decide (s ∈ s :: l)) as [_|H]; [reflexivity|].
      exfalso. apply H. now left.
    + destruct (decide (s ∈ l)), (decide (s ∈ k :: l)) as [H|H];
        try reflexivity.
      * exfalso. apply H. now right.
      * apply elem_of_cons in H as [->|H]; congruence.
Qed.

Lemma iter_NoDup (o : set_order) (X : gset string) : NoDup (iter o X).
Proof. rewrite (iter_perm o X). apply NoDup_elements. Qed.

Lemma iter_elem (o : set_order) (X : gset string) s : s ∈ iter o X <-> s ∈ X.
Proof. rewrite (iter_perm o X). apply elem_of_elements. Qed.

(** The loop of [calculate_document_frequency], started from any counter. *)
Lemma document_frequency_loop (o : set_order) col : forall c s,
  freq_get
    (foldl (fun skill_counts skills =>
              counter_update skill_counts (iter o (unique_skills_of skills)))
           c col) s
  = bump (freq_get c s) (documents_with s col).
Proof.
  induction col as [|cell col IH]; intros c s; [reflexivity|].
  simpl foldl. rewrite IH, freq_get_update by apply iter_NoDup.
  rewrite bump_bump. f_equal.
  unfold documents_with. rewrite filter_cons.
  destruct (decide (s ∈ iter o (unique_skills_of cell))) as [H|H];
    rewrite iter_elem in H;
    destruct (decide (s ∈ unique_skills_of cell)); try contradiction;
    reflexivity.
Qed.

End FrequencyFacts.

(** C5. For every column of extraction results and every skill [s], the
    frequency table holds for [s] the number of results whose set of skills
    contains [s] (no entry when there is none); a result counts once however
    often it lists the skill, and the frequency is at most the number of
    documents. *)
Theorem document_frequency_counts_documents
    (o : Py.set_order) (col : list Aggregator.cell) (s : string) :
  let freq := Aggregator.calculate_document_frequency o col in
  Aggregator.freq_get freq s
  = (if decide (Spec.documents_with s col = 0%nat) then None
     else Some (Z.of_nat (Spec.documents_with s col))) /\
  (Spec.documents_with s col <= length col)%nat /\
  (forall n, Aggregator.freq_get freq s = Some n ->
     (1 <= n <= Z.of_nat (length col))%Z) /\
  Aggregator.calculate_document_frequency o
    [Aggregator.CList ["python"; "python"; "python"]] = [("python", 1%Z)].
Proof.
  intros freq.
  assert (Hle : (Spec.documents_with s col <= length col)%nat)
    by apply length_filter.
  assert (Hf : Aggregator.freq_get freq s
     = if decide (Spec.documents_with s col = 0%nat) then None
       else Some (Z.of_nat (Spec.documents_with s col))).
  { subst freq. unfold Aggregator.calculate_document_frequency.
    rewrite document_frequency_loop. simpl Aggregator.freq_get.
    destruct (Spec.documents_with s col) as [|d]; [reflexivity|].
    destruct (decide (S d = 0%nat)); [discriminate|].
    unfold Spec.bump. simpl default. f_equal. }
  repeat split; try assumption.
  - rewrite Hf in H. case_decide; [discriminate|].
    injection H as <-. lia.
  - rewrite Hf in H. case_decide; [discriminate|].
    injection H as <-. lia.
  - change (Aggregator.counter_update []
              (Py.iter o (list_to_set ["python"; "python"; "python"]))
            = [("python", 1%Z)]).
    pose proof (Py.iter_perm o (list_to_set ["python"; "python"; "python"])) as P.
    assert (E : elements (list_to_set ["python"; "python"; "python"] : gset string)
                = ["python"]).
    { replace (list_to_set ["python"; "python"; "python"] : gset string)
        with ({["python"]} : gset string) by set_solver.
      apply elements_singleton. }
    rewrite E in P. apply Permutation_singleton_r in P. rewrite P. reflexivity.
Qed.

(* ===================================================================== *)
(** * The top-N ranking *)
(* ===================================================================== *)

(** C2, as stated, fails: two documents, the first with "sql" and the
    second with "java", give a table in which both skills have frequency
    one; the ranking keeps "sql" before "java", the order of the table, not
    the order of the names. *)
Lemma top_skills_ties_not_by_name :
  Aggregator.calculate_document_frequency Py.elements_order
    [Aggregator.CList ["sql"]; Aggregator.CList ["java"]]
  = [("sql", 1%Z); ("java", 1%Z)]
  /\ Aggregator.top_skills_of 2 [("sql", 1%Z); ("java", 1%Z)]
     = [("sql", 1%Z); ("java", 1%Z)]
  /\ ~ Spec.ties_by_name
         (Aggregator.top_skills_of 2 [("sql", 1%Z); ("java", 1%Z)]).
Proof.
  split; [vm_compute; reflexivity|]. split; [vm_compute; reflexivity|].
  intros H.
  specialize (H 0%nat 1%nat ("sql", 1%Z) ("java", 1%Z)
                ltac:(lia) eq_refl eq_refl eq_refl).
  vm_compute in H. discriminate.
Qed.

(** The order of the table is itself the order in which the sets of the
    documents were iterated: one document with two skills gives either
    skill the first rank, depending on that order. *)
Example top_skill_depends_on_set_order :
  Aggregator.top_skills_of 1
    (Aggregator.calculate_document_frequency Py.elements_order
       [Aggregator.CList ["sql"; "java"]])
  <> Aggregator.top_skills_of 1
       (Aggregator.calculate_document_frequency Py.reversed_order
          [Aggregator.CList ["sql"; "java"]]).
Proof. vm_compute. discriminate. Qed.

(** C2, amended. For every frequency table and every N, the ranking is the
    first N entries (all but the last -N for a negative N) of the table
    rearranged by descending frequency: what is left out has a frequency no
    greater than what is kept, and entries of equal frequency stay in the
    order they have in the table, so the ranking is determined by the
    table and its order. *)
Theorem top_skills_ranking (freqs : list (string * Z)) (n : Z) :
  let top := Aggregator.top_skills_of n freqs in
  exists rest,
    (top ++ rest)%list ≡ₚ freqs /\
    Spec.descending Aggregator.count_key (top ++ rest)%list /\
    (forall k, Spec.with_key Aggregator.count_key k (top ++ rest)%list
               = Spec.with_key Aggregator.count_key k freqs) /\
    length top
    = (if (0 <=? n)%Z then Nat.min (Z.to_nat n) (length freqs)
       else length freqs - Z.to_nat (- n))%nat.
Proof.
  intros top. subst top. unfold Aggregator.top_skills_of, Py.slice_to.
  set (sorted := Py.sorted_desc Aggregator.count_key freqs).
  assert (Hlen : length sorted = length freqs)
    by (apply Permutation_length, sorted_desc_perm).
  assert (Hall : forall k, exists rest,
    (take k sorted ++ rest)%list ≡ₚ freqs /\
    Spec.descending Aggregator.count_key (take k sorted ++ rest)%list /\
    (forall c, Spec.with_key Aggregator.count_key c (take k sorted ++ rest)%list
               = Spec.with_key Aggregator.count_key c freqs) /\
    length (take k sorted) = Nat.min k (length freqs)).
  { intros k. exists (drop k sorted). rewrite take_drop. repeat split.
    - apply sorted_desc_perm.
    - apply desc_chain_descending, sorted_desc_chain.
    - intros c. apply sorted_desc_stable.
    - rewrite length_take, Hlen. reflexivity. }
  destruct (0 <=? n)%Z.
  - apply Hall.
  - destruct (Hall (length sorted - Z.to_nat (- n))%nat)
      as (rest & H1 & H2 & H3 & H4).
    exists rest. repeat split; try assumption.
    rewrite H4, Hlen. lia.
Qed.

(* ===================================================================== *)
(** * Loading a dictionary file *)
(* ===================================================================== *)

Section LoadFacts.
Import PyStr Py Spec SkillDictionary.

(** The three ways one line can leave the loop state. *)
Lemma load_line_cases skills0 d0 l :
  (is_term l = false /\ load_line (skills0, d0) l = (skills0, d0)) \/
  (is_term l = true /\ lower (strip l) ∈ skills0 /\
   load_line (skills0, d0) l = (skills0, S d0)) \/
  (is_term l = true /\ (lower (strip l) ∉ skills0) /\
   load_line (skills0, d0) l = ({[lower (strip l)]} ∪ skills0, d0)).
Proof.
  unfold load_line, is_term.
  destruct (is_empty (strip l) || startswith_char "#" (strip l)); simpl.
  - now left.
  - right. destruct (decide (lower (strip l) ∈ skills0)); [left | right]; auto.
Qed.

(** The skills gathered by the loop of [load_from_file]. *)
Lemma load_loop ls : forall skills0 d0 x,
  x ∈ (foldl load_line (skills0, d0) ls).1 <->
  x ∈ skills0 \/
  exists line, line ∈ ls /\ is_term line = true /\ x = lower (strip line).
Proof.
  induction ls as [|l ls IH]; intros skills0 d0 x.
  - simpl. split; [tauto|]. intros [H|(line & H & _)]; [exact H | inversion H].
  - change (foldl load_line (skills0, d0) (l :: ls))
      with (foldl load_line (load_line (skills0, d0) l) ls).
    destruct (load_line_cases skills0 d0 l)
      as [[Ht ->] | [(Ht & Hin & ->) | (Ht & Hin & ->)]]; rewrite IH.
    + split.
      * intros [H|(line & H1 & H2 & H3)]; [now left|].
        right. exists line. split; [now right | tauto].
      * intros [H|(line & H1 & H2 & H3)]; [now left|].
        apply elem_of_cons in H1 as [->|H1]; [congruence | right; eauto].
    + split.
      * intros [H|(line & H1 & H2 & H3)]; [now left|].
        right. exists line. split; [now right | tauto].
      * intros [H|(line & H1 & H2 & H3)]; [now left|].
        apply elem_of_cons in H1 as [->|H1]; [left; congruence | right; eauto].
    + rewrite elem_of_union, elem_of_singleton. split.
      * intros [[->|H]|(line & H1 & H2 & H3)].
        -- right. exists l. split; [now left | auto].
        -- now left.
        -- right. exists line. split; [now right | tauto].
      * intros [H|(line & H1 & H2 & H3)]; [tauto|].
        apply elem_of_cons in H1 as [->|H1]; [tauto|].
        right. exists line. tauto.
Qed.

End LoadFacts.

(** C3, as stated, fails: a path at which there is no file cannot be read,
    yet loading it does not fail; it returns the empty set. *)
Lemma load_missing_file_does_not_fail :
  let fs : SkillDictionary.filesystem := fun _ => SkillDictionary.Missing in
  let st := {| SkillDictionary.total_loaded := 0;
               SkillDictionary.duplicates_removed := 0;
               SkillDictionary.files_loaded := 0 |} in
  Spec.cannot_be_read fs "skills/technical.txt" /\
  (SkillDictionary.load_from_file fs st "skills/technical.txt").1 = Py.Ok ∅ /\
  ~ Spec.failed (SkillDictionary.load_from_file fs st "skills/technical.txt").1.
Proof. simpl. repeat split. intros []. Qed.

(** C3, amended. Loading a path at which there is no file does not fail: it
    returns the empty set and leaves the loading statistics untouched, the
    same set a readable source without terms yields.  Loading a path whose
    file cannot be opened or decoded fails with the exception of the read,
    which the caller may catch.  Loading a readable source succeeds, counts
    one more file loaded, and returns the lowercased trimmed terms of its
    lines, the empty set when no line holds a term. *)
Theorem load_from_file_outcomes
    (fs : SkillDictionary.filesystem) (st : SkillDictionary.stats)
    (path : string) :
  match fs path with
  | SkillDictionary.Missing =>
      SkillDictionary.load_from_file fs st path = (Py.Ok ∅, st)
  | SkillDictionary.Unreadable e =>
      SkillDictionary.load_from_file fs st path = (Py.Raise e, st)
  | SkillDictionary.Lines ls =>
      exists skills st',
        SkillDictionary.load_from_file fs st path = (Py.Ok skills, st') /\
        SkillDictionary.files_loaded st'
          = (SkillDictionary.files_loaded st + 1)%nat /\
        (forall x, x ∈ skills <->
           exists line, line ∈ ls /\ Spec.is_term line = true /\
                        x = PyStr.lower (PyStr.strip line)) /\
        (Forall (fun line => Spec.is_term line = false) ls -> skills = ∅)
  end.
Proof.
  unfold SkillDictionary.load_from_file.
  destruct (fs path) as [| e | ls]; try reflexivity.
  destruct (foldl SkillDictionary.load_line (∅, 0%nat) ls)
    as [skills dups] eqn:E.
  assert (Hin : forall x, x ∈ skills <->
            exists line, line ∈ ls /\ Spec.is_term line = true /\
                         x = PyStr.lower (PyStr.strip line)).
  { intros x. pose proof (load_loop ls ∅ 0%nat x) as H. rewrite E in H.
    simpl in H. rewrite H. split; [|tauto].
    intros [H0|H0]; [|exact H0]. now apply elem_of_empty in H0. }
  eexists _, _. split; [reflexivity|]. split; [reflexivity|].
  split; [exact Hin|].
  intros Hall. apply set_eq. intros x. rewrite Hin. split.
  - intros (line & H1 & H2 & _). rewrite Forall_forall in Hall.
    specialize (Hall line H1). congruence.
  - intros H. now apply elem_of_empty in H.
Qed.

(* ===================================================================== *)
(** * Role normalisation *)
(* ===================================================================== *)

Section RoleFacts.
Context {A : Type} (f : A -> bool).

(** [find] returns the first element that passes the test. *)
Lemma find_first l1 x l2 :
  Forall (fun y => f y = false) l1 -> f x = true ->
  find f (l1 ++ x :: l2)%list = Some x.
Proof.
  induction 1 as [|y l1 Hy _ IH]; intros Hx; simpl.
  - now rewrite Hx.
  - rewrite Hy. now apply IH.
Qed.

Lemma find_nothing l : Forall (fun y => f y = false) l -> find f l = None.
Proof. induction 1 as [|y l Hy _ IH]; simpl; [reflexivity | now rewrite Hy]. Qed.

End RoleFacts.

(** C6, as stated, fails: with a synonym table that does not list it, the
    label "Chef" is returned as it is, not replaced by "Unknown". *)
Lemma unmapped_role_is_kept :
  let self := {| Aggregator.role_column := Some "role";
                 Aggregator.top_n := 20;
                 Aggregator.role_mappings :=
                   [("Data Scientist", ["ds"; "data scientist"])] |} in
  Forall (fun cv => ~ Spec.lists_label
                        (PyStr.strip (PyStr.lower "Chef")) cv)
         (Aggregator.role_mappings self) /\
  Aggregator.normalize_role self (Aggregator.RStr "Chef") = "Chef" /\
  Aggregator.normalize_role self (Aggregator.RStr "Chef") <> "Unknown".
Proof.
  split; [|split; [vm_compute; reflexivity | vm_compute; discriminate]].
  repeat constructor. unfold Spec.lists_label. simpl.
  rewrite !elem_of_cons, elem_of_nil. vm_compute.
  intros [H|[H|[]]]; discriminate.
Qed.

(** C6, amended. A missing label ([None], NaN or the empty string) is
    normalised to "Unknown".  Any other label is lowercased and trimmed and
    looked up in the synonym table: when an entry lists it, the canonical
    label of the first such entry is returned; when no entry lists it, the
    label itself is returned, trimmed. *)
Theorem normalize_role_cases
    (self : Aggregator.t) (role : Aggregator.role_value) :
  (Spec.missing role -> Aggregator.normalize_role self role = "Unknown") /\
  (forall s, role = Aggregator.RStr s -> s <> "" ->
     let label := PyStr.strip (PyStr.lower s) in
     (forall l1 cv l2,
        Aggregator.role_mappings self = (l1 ++ cv :: l2)%list ->
        Forall (fun cv' => ~ Spec.lists_label label cv') l1 ->
        Spec.lists_label label cv ->
        Aggregator.normalize_role self role = cv.1) /\
     (Forall (fun cv' => ~ Spec.lists_label label cv')
             (Aggregator.role_mappings self) ->
      Aggregator.normalize_role self role = PyStr.strip s)).
Proof.
  split.
  - destruct role as [| | s]; simpl; try reflexivity. now intros ->.
  - intros s -> Hs label.
    assert (Hno : forall l,
      Forall (fun cv' => ~ Spec.lists_label label cv') l ->
      Forall (fun cv' : string * list string =>
                bool_decide (label ∈ map PyStr.lower cv'.2) = false) l).
    { intros l Hl. eapply Forall_impl; [exact Hl|]. intros cv' H.
      now apply bool_decide_eq_false. }
    unfold Aggregator.normalize_role.
    destruct s as [|c s]; [congruence|]. simpl PyStr.is_empty. cbv iota.
    fold label. split.
    + intros l1 cv l2 -> Hl1 Hcv.
      rewrite find_first; [now destruct cv | now apply Hno |].
      now apply bool_decide_eq_true.
    + intros Hall. rewrite find_nothing; [reflexivity | now apply Hno].
Qed.

(** The theorem on a label the table lists and on the empty label. *)
Lemma normalize_role_cases_witness :
  let self := {| Aggregator.role_column := Some "role";
                 Aggregator.top_n := 20;
                 Aggregator.role_mappings :=
                   [("Data Scientist", ["ds"; "data scientist"])] |} in
  Spec.missing (Aggregator.RStr "") /\
  Aggregator.normalize_role self (Aggregator.RStr "") = "Unknown" /\
  Aggregator.normalize_role self (Aggregator.RStr " DS ") = "Data Scientist".
Proof.
  split; [reflexivity|]. split.
  - exact (proj1 (normalize_role_cases _ (Aggregator.RStr "")) eq_refl).
  - vm_compute. reflexivity.
Defined.

(* ===================================================================== *)
(** * Percentages and the core-skill flag *)
(* ===================================================================== *)

Section NumFacts.
Import Py.

Lemma inject_Z_pos t : (0 < t)%Z -> (0 < inject_Z t)%Q.
Proof. intros H. change 0%Q with (inject_Z 0). now rewrite <- Zlt_Qlt. Qed.

Lemma inject_Z_nonzero t : (0 < t)%Z -> ~ (inject_Z t == 0)%Q.
Proof. intros H E. apply inject_Z_pos in H. rewrite E in H. discriminate. Qed.

(** The percentage never raises: it is zero without documents and the
    hundredfold ratio otherwise. *)
Lemma percentage_total count total :
  exists p, Num.percentage count total = Ok p /\
    ((total <= 0)%Z -> p = 0%Q) /\
    ((0 < total)%Z -> (p == 100 * inject_Z count / inject_Z total)%Q).
Proof.
  unfold Num.percentage, Num.truediv.
  destruct (0 <? total)%Z eqn:E.
  - apply Z.ltb_lt in E.
    destruct (total =? 0)%Z eqn:E0; [apply Z.eqb_eq in E0; lia|].
    eexists. split; [reflexivity|]. split; [lia|].
    intros _. field. now apply inject_Z_nonzero.
  - apply Z.ltb_ge in E. exists 0%Q. split; [reflexivity|].
    split; [reflexivity | lia].
Qed.



Lemma percentages_total total freqs :
  exists pcts, Aggregator.percentages total freqs = Ok pcts /\
    Forall2 (fun (sc : string * Z) (sp : string * Q) =>
               sp.1 = sc.1 /\ Num.percentage sc.2 total = Ok sp.2)
            freqs pcts.
Proof.
  induction freqs as [|[s c] freqs (pcts & E & F)]; simpl.
  - exists []. split; [reflexivity | constructor].
  - destruct (percentage_total c total) as (p & Ep & _). rewrite Ep, E.
    exists ((s, p) :: pcts). split; [reflexivity|].
    constructor; [split; [reflexivity | exact Ep] | exact F].
Qed.

End NumFacts.


(** C9. The percentage expression never raises: for a total that is not
    positive it is 0, for a positive total it is 100 * frequency / total.
    So the percentages of a frequency table are always built, one per
    skill, [_aggregate_group] always returns (a frame without rows has an
    empty table and total 0), and [_create_rule] always returns a rule
    whose rounded percentage is 0 when the total is 0. *)
Theorem percentage_never_divides_by_zero
    (o : Py.set_order) (agg : Aggregator.t) (df : list Aggregator.row)
    (freqs : list (string * Z))
    (self : RulesGenerator.t) (h : SkillDictionary.heap) (skill : string)
    (count total : Z) (rank : option nat) (role : option string) :
  (exists p, Num.percentage count total = Py.Ok p /\
     ((total <= 0)%Z -> p = 0%Q) /\
     ((0 < total)%Z -> (p == 100 * inject_Z count / inject_Z total)%Q)) /\
  (exists pcts, Aggregator.percentages total freqs = Py.Ok pcts /\
     Forall2 (fun (sc : string * Z) (sp : string * Q) =>
                sp.1 = sc.1 /\ Num.percentage sc.2 total = Py.Ok sp.2)
             freqs pcts) /\
  (exists a, Aggregator._aggregate_group o agg df = Py.Ok a /\
     Aggregator.total_jds a = Z.of_nat (length df) /\
     Aggregator.percentages (Aggregator.total_jds a)
       (Aggregator.skill_frequencies a)
     = Py.Ok (Aggregator.skill_percentages a)) /\
  (exists r p, RulesGenerator._create_rule self h skill count total rank role
               = Py.Ok r /\
     Num.percentage count total = Py.Ok p /\
     RulesGenerator.percentage r = Num.round2 p /\
     ((total <= 0)%Z -> (RulesGenerator.percentage r == 0)%Q)).
Proof.
  split; [apply percentage_total|]. split; [apply percentages_total|]. split.
  - unfold Aggregator._aggregate_group.
    destruct (percentages_total (Z.of_nat (length df))
                (Aggregator.calculate_document_frequency o
                   (map Aggregator.extracted_skills df))) as (pcts & E & _).
    rewrite E. eexists. split; [reflexivity|]. split; [reflexivity | exact E].
  - destruct (percentage_total count total) as (p & Ep & H0 & _).
    unfold RulesGenerator._create_rule. rewrite Ep.
    eexists _, p. split; [reflexivity|]. split; [reflexivity|].
    split; [reflexivity|]. intros Ht. simpl. rewrite (H0 Ht). reflexivity.
Qed.

(* ===================================================================== *)
(** * The sets handed out by a dictionary *)
(* ===================================================================== *)

Section HeapFacts.
Import Py Spec SkillDictionary.

Lemma deref_insert (h : heap) l v l' :
  deref (<[l := v]> h) l' = if decide (l = l') then v else deref h l'.
Proof.
  unfold deref. rewrite lookup_insert.
  destruct (decide (l = l')); reflexivity.
Qed.

(** The new object is not one of the heap's and holds the value; the other
    objects are as they were. *)
Lemma alloc_fresh v (h : heap) : (alloc v h).1 ∉ dom h.
Proof. unfold alloc. simpl. apply is_fresh. Qed.

Lemma alloc_dom v (h : heap) l : l ∈ dom h -> l ∈ dom (alloc v h).2.
Proof. unfold alloc. simpl. rewrite dom_insert. set_solver. Qed.

Lemma returned_alloc v (h : heap) : returned (alloc v h) = v.
Proof.
  unfold returned, alloc. simpl. rewrite deref_insert.
  destruct (decide _); [reflexivity | congruence].
Qed.

Lemma deref_alloc v (h : heap) l : l ∈ dom h -> deref (alloc v h).2 l = deref h l.
Proof.
  intros Hl. unfold alloc. simpl. rewrite deref_insert.
  destruct (decide (fresh (dom h) = l)) as [<-|]; [|reflexivity].
  exfalso. revert Hl. apply is_fresh.
Qed.

(** A new empty set changes nothing that [deref] can see. *)
Lemma deref_alloc_empty (h : heap) l : deref (alloc ∅ h).2 l = deref h l.
Proof.
  unfold alloc. simpl. rewrite deref_insert.
  destruct (decide (fresh (dom h) = l)) as [<-|]; [|reflexivity].
  unfold deref. pose proof (is_fresh (dom h)) as Hf.
  apply not_elem_of_dom in Hf. now rewrite Hf.
Qed.

Lemma deref_mutate r (h : heap) op l : l <> r -> deref (mutate r h op) l = deref h l.
Proof.
  intros Hl. unfold mutate, deref. now rewrite lookup_alter_ne.
Qed.

Lemma deref_mutations r ops : forall (h : heap) l,
  l <> r -> deref (foldl (mutate r) h ops) l = deref h l.
Proof.
  induction ops as [|op ops IH]; intros h l Hl; simpl; [reflexivity|].
  rewrite IH by exact Hl. now apply deref_mutate.
Qed.

Lemma first_category_agree (h h' : heap) items s :
  Forall (fun kl : string * loc => deref h' kl.2 = deref h kl.2) items ->
  first_category h' items s = first_category h items s.
Proof.
  induction 1 as [|[c l] items E _ IH]; simpl; [reflexivity|].
  simpl in E. now rewrite E, IH.
Qed.

Lemma dict_get_agree (h h' : heap) items c :
  Forall (fun kl : string * loc => deref h' kl.2 = deref h kl.2) items ->
  match dict_get items c with
  | Some l => deref h' l = deref h l
  | None => True
  end.
Proof.
  induction 1 as [|[k l] items E _ IH]; simpl; [exact I|].
  destruct (String.eqb k c); [exact E | exact IH].
Qed.

(** What [get_skills_by_category] returns is the set of the category, or
    the empty set for a category that is not a key. *)
Lemma returned_by_category d c (h : heap) :
  returned (get_skills_by_category d c h)
  = match dict_get (_skills d) c with
    | Some l => deref h l
    | None => ∅
    end.
Proof.
  unfold get_skills_by_category.
  destruct (alloc ∅ h) as [dflt h0] eqn:E.
  rewrite returned_alloc.
  assert (H0 : forall l, deref h0 l = deref h l).
  { intros l. change h0 with (dflt, h0).2. rewrite <- E.
    apply deref_alloc_empty. }
  destruct (dict_get (_skills d) c) as [l|]; simpl; [apply H0|].
  change dflt with (dflt, h0).1. change h0 with (dflt, h0).2 at 1.
  rewrite <- E. apply (returned_alloc ∅ h).
Qed.

(** The four queries see only the sets of the dictionary. *)
Lemma observe_agree d (h h' : heap) s c :
  agree d h h' -> observe d h' s c = observe d h s c.
Proof.
  intros [Ha Hs]. unfold observe, contains, get_category, get_all_skills.
  rewrite !returned_alloc, !returned_by_category, Ha.
  rewrite (first_category_agree h h') by exact Hs.
  pose proof (dict_get_agree h h' (_skills d) c Hs) as Hc.
  destruct (dict_get (_skills d) c); [now rewrite Hc | reflexivity].
Qed.

(** Mutating an object that is not one of the dictionary's leaves the
    heaps in agreement. *)
Lemma agree_after_mutations d (h h1 : heap) r ops :
  allocated d h -> r ∉ dom h ->
  (forall l, l ∈ dom h -> deref h1 l = deref h l) ->
  agree d h (foldl (mutate r) h1 ops).
Proof.
  intros [Ha Hs] Hr H1. split.
  - rewrite deref_mutations by (intros E; apply Hr; now rewrite <- E).
    now apply H1.
  - eapply Forall_impl; [exact Hs|]. intros [k l] Hl. simpl in *.
    rewrite deref_mutations by (intros E; apply Hr; now rewrite <- E).
    now apply H1.
Qed.

End HeapFacts.

(** C10. For a dictionary whose sets are objects of the heap, the set
    returned by [get_all_skills] and the set returned by
    [get_skills_by_category] are new objects: after any sequence of
    mutations of the returned set, [contains], [get_category],
    [get_all_skills] and [get_skills_by_category] answer as before, for
    every skill and category. *)
Theorem returned_sets_are_copies
    (d : SkillDictionary.t) (h : SkillDictionary.heap)
    (ops : list SkillDictionary.set_op)
    (skill category from_category : string) :
  SkillDictionary.allocated d h ->
  Spec.observe d
    (Spec.after_mutations (SkillDictionary.get_all_skills d h) ops)
    skill category
  = Spec.observe d h skill category /\
  Spec.observe d
    (Spec.after_mutations
       (SkillDictionary.get_skills_by_category d from_category h) ops)
    skill category
  = Spec.observe d h skill category.
Proof.
  intros Hd. unfold Spec.after_mutations. split; apply observe_agree.
  - unfold SkillDictionary.get_all_skills.
    apply agree_after_mutations; [exact Hd | apply alloc_fresh |].
    intros l Hl. now apply deref_alloc.
  - unfold SkillDictionary.get_skills_by_category.
    destruct (SkillDictionary.alloc ∅ h) as [dflt h0] eqn:E.
    assert (Hdom : forall l, l ∈ dom h -> l ∈ dom h0).
    { intros l Hl. change h0 with (dflt, h0).2. rewrite <- E.
      now apply alloc_dom. }
    assert (H0 : forall l, SkillDictionary.deref h0 l = SkillDictionary.deref h l).
    { intros l. change h0 with (dflt, h0).2. rewrite <- E.
      apply deref_alloc_empty. }
    apply agree_after_mutations; [exact Hd | |].
    + intros Hr. apply Hdom in Hr. revert Hr. apply alloc_fresh.
    + intros l Hl. rewrite deref_alloc by now apply Hdom. apply H0.
Qed.

(** The theorem on a dictionary holding "python": the caller empties the
    set it was given and adds a skill of its own. *)
Lemma returned_sets_are_copies_witness :
  let d := (SkillDictionary.init ∅).1 in
  let h := match SkillDictionary.add_skill d "Python" "technical"
                   (SkillDictionary.init ∅).2 with
           | Py.Ok h => h
           | Py.Raise _ => ∅
           end in
  let ops := [SkillDictionary.Clear; SkillDictionary.Add "cobol"] in
  SkillDictionary.allocated d h /\
  SkillDictionary.contains d "python" h = true /\
  Spec.observe d
    (Spec.after_mutations (SkillDictionary.get_all_skills d h) ops)
    "python" "technical"
  = Spec.observe d h "python" "technical".
Proof.
  intros d h ops.
  assert (Ha : SkillDictionary.allocated d h).
  { split; [|repeat constructor];
      apply elem_of_dom; vm_compute; eexists; reflexivity. }
  split; [exact Ha|]. split; [vm_compute; reflexivity|].
  exact (proj1 (returned_sets_are_copies d h ops "python" "technical"
                  "technical" Ha)).
Defined.

(* ===================================================================== *)
(** * More of [SkillDictionary] *)
(* ===================================================================== *)

Section CaseFacts.
Import PyStr Spec.

Lemma lower_ascii_idem c : lower_ascii (lower_ascii c) = lower_ascii c.
Proof. destruct c as [[] [] [] [] [] [] [] []]; reflexivity. Qed.

Lemma is_space_lower_ascii c : is_space (lower_ascii c) = is_space c.
Proof. destruct c as [[] [] [] [] [] [] [] []]; reflexivity. Qed.


Lemma hash_lower_ascii c :
  Ascii.eqb "#" (lower_ascii c) = Ascii.eqb "#" c.
Proof. destruct c as [[] [] [] [] [] [] [] []]; reflexivity. Qed.

Lemma lower_idem s : lower (lower s) = lower s.
Proof.
  induction s as [|c s IH]; simpl; [reflexivity|].
  now rewrite lower_ascii_idem, IH.
Qed.

Lemma lower_empty s : lower s = "" <-> s = "".
Proof. destruct s; simpl; split; intros; congruence. Qed.

Lemma lstrip_lower s : lstrip (lower s) = lower (lstrip s).
Proof.
  induction s as [|c s IH]; simpl; [reflexivity|].
  rewrite is_space_lower_ascii. destruct (is_space c); [exact IH | reflexivity].
Qed.

Lemma rstrip_lower s : rstrip (lower s) = lower (rstrip s).
Proof.
  induction s as [|c s IH]; simpl; [reflexivity|].
  rewrite IH, is_space_lower_ascii.
  destruct (rstrip s); simpl; [destruct (is_space c)|]; reflexivity.
Qed.

Lemma strip_lower s : strip (lower s) = lower (strip s).
Proof. unfold strip. now rewrite lstrip_lower, rstrip_lower. Qed.

Lemma lstrip_no_leading_space s : no_leading_space (lstrip s).
Proof.
  induction s as [|c s IH]; simpl; [exact I|].
  destruct (is_space c) eqn:E; [exact IH | exact E].
Qed.

Lemma lstrip_fixed s : no_leading_space s -> lstrip s = s.
Proof. destruct s as [|c s]; simpl; [reflexivity|]. now intros ->. Qed.

Lemma rstrip_no_leading_space s : no_leading_space s -> no_leading_space (rstrip s).
Proof.
  destruct s as [|c s]; simpl; [auto|]. intros E. rewrite E.
  destruct (rstrip s); exact E.
Qed.

Lemma rstrip_idem s : rstrip (rstrip s) = rstrip s.
Proof.
  induction s as [|c s IH]; simpl; [reflexivity|].
  destruct (rstrip s) as [|d r] eqn:E.
  - destruct (is_space c) eqn:Ec; simpl; [reflexivity|]. now rewrite Ec.
  - simpl. simpl in IH. destruct (rstrip r) as [|d' r'] eqn:E'.
    + destruct (is_space d); [discriminate|]. now rewrite IH.
    + now rewrite IH.
Qed.

(** Trimming twice is trimming once. *)
Lemma strip_idem s : strip (strip s) = strip s.
Proof.
  unfold strip.
  rewrite (lstrip_fixed (rstrip (lstrip s)))
    by apply rstrip_no_leading_space, lstrip_no_leading_space.
  apply rstrip_idem.
Qed.

Lemma startswith_hash_lower s :
  startswith_char "#" (lower s) = startswith_char "#" s.
Proof. destruct s as [|c s]; simpl; [reflexivity | apply hash_lower_ascii]. Qed.

End CaseFacts.

Section LoadMoreFacts.
Import PyStr Py Spec SkillDictionary.

Lemma is_term_stored line : is_term line = true -> stored_form (lower (strip line)).
Proof.
  unfold is_term. intros H. apply negb_true_iff, orb_false_iff in H as [He Hh].
  repeat split.
  - rewrite lower_empty. intros E. now rewrite E in He.
  - apply lower_idem.
  - now rewrite strip_lower, strip_idem.
  - now rewrite startswith_hash_lower.
Qed.

(** The loop of [load_from_file] counts every term line once, as a new
    skill or as a duplicate. *)
Lemma load_loop_count ls : forall skills0 d0,
  (size (foldl load_line (skills0, d0) ls).1
   + (foldl load_line (skills0, d0) ls).2
   = size skills0 + d0 + length (term_lines ls))%nat.
Proof.
  unfold term_lines.
  induction ls as [|l ls IH]; intros skills0 d0; [simpl; lia|].
  change (foldl load_line (skills0, d0) (l :: ls))
    with (foldl load_line (load_line (skills0, d0) l) ls).
  rewrite filter_cons.
  destruct (load_line_cases skills0 d0 l)
    as [[Ht ->] | [(Ht & Hin & ->) | (Ht & Hin & ->)]]; rewrite IH.
  - destruct (decide (is_term l = true)); [congruence | reflexivity].
  - destruct (decide (is_term l = true)); [simpl; lia | congruence].
  - rewrite size_union, size_singleton by set_solver.
    destruct (decide (is_term l = true)); [simpl; lia | congruence].
Qed.

End LoadMoreFacts.

(** X1. Every skill that [load_from_file] returns is in stored form: it is
    not empty, it is lowercase, it has no white space at either end and it
    does not begin with the comment mark. *)
Theorem loaded_skills_are_in_stored_form
    (fs : SkillDictionary.filesystem) (st : SkillDictionary.stats)
    (path : string) (skills : gset string) (x : string) :
  (SkillDictionary.load_from_file fs st path).1 = Py.Ok skills ->
  x ∈ skills -> Spec.stored_form x.
Proof.
  unfold SkillDictionary.load_from_file.
  destruct (fs path) as [| e | ls]; simpl.
  - intros [= <-] H. now apply elem_of_empty in H.
  - discriminate.
  - destruct (foldl SkillDictionary.load_line (∅, 0%nat) ls)
      as [skills' dups] eqn:E.
    simpl. intros [= <-] H.
    pose proof (load_loop ls ∅ 0%nat x) as L. rewrite E in L. simpl in L.
    apply L in H as [H|(line & _ & Ht & ->)]; [now apply elem_of_empty in H|].
    now apply is_term_stored.
Qed.

(** The theorem on a file with a comment, a blank line and two spellings of
    one skill. *)
Lemma loaded_skills_are_in_stored_form_witness :
  Spec.stored_form "python".
Proof.
  apply (loaded_skills_are_in_stored_form
           (fun _ => SkillDictionary.Lines ["# skills"; ""; "  Python "; "python"])
           {| SkillDictionary.total_loaded := 0;
              SkillDictionary.duplicates_removed := 0;
              SkillDictionary.files_loaded := 0 |}
           "skills.txt" {["python"]} "python").
  - vm_compute. reflexivity.
  - apply elem_of_singleton. reflexivity.
Defined.

(** X2. When [load_from_file] reads a file, every term line is accounted
    for once: the number of skills returned plus the number of duplicates
    added to [duplicates_removed] is the number of lines that hold a term;
    [total_loaded] is left alone. *)
Theorem load_from_file_counts_every_term
    (fs : SkillDictionary.filesystem) (st : SkillDictionary.stats)
    (path : string) (ls : list string) :
  fs path = SkillDictionary.Lines ls ->
  exists skills st',
    SkillDictionary.load_from_file fs st path = (Py.Ok skills, st') /\
    (size skills
     + (SkillDictionary.duplicates_removed st'
        - SkillDictionary.duplicates_removed st)
     = length (Spec.term_lines ls))%nat /\
    (SkillDictionary.duplicates_removed st
     <= SkillDictionary.duplicates_removed st')%nat /\
    SkillDictionary.total_loaded st' = SkillDictionary.total_loaded st.
Proof.
  intros E. unfold SkillDictionary.load_from_file. rewrite E.
  pose proof (load_loop_count ls ∅ 0%nat) as H. rewrite size_empty in H.
  destruct (foldl SkillDictionary.load_line (∅, 0%nat) ls) as [skills dups].
  simpl in H.
  eexists _, _. split; [reflexivity|]. simpl. repeat split; lia.
Qed.

(** The theorem on a file with three term lines, two of them the same
    skill. *)
Lemma load_from_file_counts_every_term_witness :
  exists skills st',
    SkillDictionary.load_from_file
      (fun _ => SkillDictionary.Lines ["# skills"; "Python"; "java"; " python"])
      {| SkillDictionary.total_loaded := 0;
         SkillDictionary.duplicates_removed := 0;
         SkillDictionary.files_loaded := 0 |} "skills.txt"
    = (Py.Ok skills, st') /\
    (size skills + (SkillDictionary.duplicates_removed st' - 0) = 3)%nat.
Proof.
  destruct (load_from_file_counts_every_term
              (fun _ => SkillDictionary.Lines ["# skills"; "Python"; "java"; " python"])
              {| SkillDictionary.total_loaded := 0;
                 SkillDictionary.duplicates_removed := 0;
                 SkillDictionary.files_loaded := 0 |} "skills.txt" _ eq_refl)
    as (skills & st' & H1 & H2 & _).
  exists skills, st'. split; [exact H1 | exact H2].
Defined.

Section DictionaryFacts.
Import PyStr Py Spec SkillDictionary.

Lemma union_fold (h : heap) items : forall (A : gset string) x,
  x ∈ foldl (fun acc (kl : string * loc) => acc ∪ deref h kl.2) A items <->
  x ∈ A \/ exists kl, kl ∈ items /\ x ∈ deref h kl.2.
Proof.
  induction items as [|kl items IH]; intros A x; simpl.
  - split; [tauto|]. intros [H|(kl & H & _)]; [exact H | inversion H].
  - rewrite IH, elem_of_union. split.
    + intros [[H|H]|(kl' & H1 & H2)]; [tauto | |].
      * right. exists kl. split; [now left | exact H].
      * right. exists kl'. split; [now right | exact H2].
    + intros [H|(kl' & H1 & H2)]; [tauto|].
      apply elem_of_cons in H1 as [->|H1]; [tauto | right; eauto].
Qed.

Lemma first_category_is_Some (h : heap) items s :
  is_Some (first_category h items s) <->
  exists kl : string * loc, kl ∈ items /\ s ∈ deref h kl.2.
Proof.
  induction items as [|[c l] items IH]; simpl.
  - split; [intros [? [=]] | intros (kl & H & _); inversion H].
  - destruct (decide (s ∈ deref h l)) as [Hin|Hin].
    + rewrite bool_decide_eq_true_2 by exact Hin. split; [|eauto].
      intros _. exists (c, l). split; [now left | exact Hin].
    + rewrite bool_decide_eq_false_2 by exact Hin. rewrite IH. split.
      * intros (kl & H1 & H2). exists kl. split; [now right | exact H2].
      * intros (kl & H1 & H2).
        apply elem_of_cons in H1 as [->|H1]; [contradiction | eauto].
Qed.

Lemma dict_get_elem items k l :
  dict_get items k = Some l -> (k, l) ∈ items.
Proof.
  induction items as [|[k' l'] items IH]; simpl; [discriminate|].
  destruct (String.eqb_spec k' k) as [->|_].
  - intros [= ->]. now left.
  - intros H. right. now apply IH.
Qed.

Lemma dict_get_NoDup items k l :
  NoDup (map fst items) -> (k, l) ∈ items -> dict_get items k = Some l.
Proof.
  induction items as [|[k' l'] items IH]; simpl; intros Hnd Hin;
    [inversion Hin|].
  apply NoDup_cons in Hnd as [Hk Hnd].
  apply elem_of_cons in Hin as [[= -> ->]|Hin].
  - now rewrite String.eqb_refl.
  - destruct (String.eqb_spec k' k) as [->|_]; [|now apply IH].
    exfalso. apply Hk. apply list_elem_of_fmap. now exists (k, l).
Qed.

Lemma dict_set_keys items k l :
  k ∈ map fst items -> map fst (dict_set items k l) = map fst items.
Proof.
  induction items as [|[k' l'] items IH]; simpl; intros Hin; [inversion Hin|].
  destruct (String.eqb_spec k' k) as [->|Hne]; [reflexivity|].
  simpl. f_equal. apply IH.
  apply elem_of_cons in Hin as [->|Hin]; [congruence | exact Hin].
Qed.

(** The last step of [load_all]: the combined set is built from the sets
    of the categories and stored as a new object. *)
Lemma combined_set_spec (self : t) (h : heap) st :
  let all := foldl (fun acc (kl : string * loc) => acc ∪ deref h kl.2) ∅
                   (_skills self) in
  let d' := {| _skills := _skills self;
               _all_skills := (alloc all h).1;
               _stats := st |} in
  let h' := (alloc all h).2 in
  (forall s, contains d' s h' = true <-> is_Some (get_category d' s h')) /\
  (forall c x, x ∈ returned (get_skills_by_category d' c h') ->
               x ∈ returned (get_all_skills d' h')) /\
  __len__ d' h' = size all.
Proof.
  intros all d' h'.
  assert (Hall : deref h' (alloc all h).1 = all) by apply (returned_alloc all h).
  assert (Hin : forall x, x ∈ all <->
            exists kl : string * loc, kl ∈ _skills self /\ x ∈ deref h kl.2).
  { intros x. subst all. rewrite union_fold. split; [|eauto].
    intros [H|H]; [now apply elem_of_empty in H | exact H]. }
  assert (Hitem : forall (kl : string * loc) x,
            x ∈ deref h' kl.2 <->
            if decide ((alloc all h).1 = kl.2) then x ∈ all
            else x ∈ deref h kl.2).
  { intros kl x. subst h'. unfold alloc at 1. simpl. rewrite deref_insert.
    unfold alloc. simpl. destruct (decide _); reflexivity. }
  assert (Hup : forall (kl : string * loc) x, kl ∈ _skills self ->
            x ∈ deref h kl.2 -> x ∈ deref h' kl.2).
  { intros kl x Hkl Hx. apply Hitem. destruct (decide _); [|exact Hx].
    apply Hin. eauto. }
  assert (Hdown : forall (kl : string * loc) x, kl ∈ _skills self ->
            x ∈ deref h' kl.2 -> x ∈ all).
  { intros kl x Hkl Hx. apply Hitem in Hx. destruct (decide _); [exact Hx|].
    apply Hin. eauto. }
  split; [|split].
  - intros s. unfold contains, get_category. subst d'. cbn [_all_skills _skills].
    rewrite Hall, bool_decide_eq_true, first_category_is_Some. split.
    + intros H. apply Hin in H as (kl & Hkl & Hx). exists kl. auto.
    + intros (kl & Hkl & Hx). eauto.
  - intros c x. unfold get_all_skills.
    rewrite returned_alloc, returned_by_category. subst d'.
    cbn [_all_skills _skills]. rewrite Hall.
    destruct (dict_get (_skills self) c) as [l|] eqn:E;
      [|intros H; now apply elem_of_empty in H].
    apply dict_get_elem in E. intros Hx. exact (Hdown (c, l) x E Hx).
  - unfold __len__. subst d'. cbn [_all_skills]. now rewrite Hall.
Qed.

(** [load_category] leaves the keys of [_skills] as they are when the
    category is one of them. *)
Lemma load_category_keys fs category path (self : t) (h : heap) self' h' :
  category ∈ map fst (_skills self) ->
  load_category fs category path self h = Ok (self', h') ->
  map fst (_skills self') = map fst (_skills self).
Proof.
  intros Hc. unfold load_category.
  destruct path as [p|]; [|now intros [= <- <-]].
  destruct (is_empty p); [now intros [= <- <-]|].
  destruct (load_from_file fs (_stats self) p) as [[skills|e] st]; [|discriminate].
  intros [= <- <-]. simpl. now apply dict_set_keys.
Qed.

End DictionaryFacts.

Section LoadAllFacts.
Import PyStr Py Spec SkillDictionary.

(** What is left of [load_all] once the three categories are loaded. *)
Lemma load_all_inv fs cfg (self : t) (h : heap) d' h' :
  load_all fs cfg self h = Ok (d', h') ->
  exists (self3 : t) (h3 : heap) s1 h1 s2 h2,
    load_category fs "technical" (technical cfg) self h = Ok (s1, h1) /\
    load_category fs "soft" (soft cfg) s1 h1 = Ok (s2, h2) /\
    load_category fs "custom" (custom cfg) s2 h2 = Ok (self3, h3) /\
    let all := foldl (fun acc (kl : string * loc) => acc ∪ deref h3 kl.2) ∅
                     (_skills self3) in
    d' = {| _skills := _skills self3;
            _all_skills := (alloc all h3).1;
            _stats := {| total_loaded := size all;
                         duplicates_removed := duplicates_removed (_stats self3);
                         files_loaded := files_loaded (_stats self3) |} |} /\
    h' = (alloc all h3).2.
Proof.
  unfold load_all.
  destruct (load_category fs "technical" (technical cfg) self h)
    as [[s1 h1]|e1] eqn:E1; [|discriminate].
  destruct (load_category fs "soft" (soft cfg) s1 h1)
    as [[s2 h2]|e2] eqn:E2; [|discriminate].
  destruct (load_category fs "custom" (custom cfg) s2 h2)
    as [[s3 h3]|e3] eqn:E3; [|discriminate].
  intros [= <- <-]. exists s3, h3, s1, h1, s2, h2.
  split; [reflexivity|]. split; [exact E2|]. split; [exact E3|].
  cbv zeta. split; reflexivity.
Qed.

(** A category whose file is absent or readable is loaded without error. *)
Lemma load_category_ok fs category path (self : t) (h : heap) :
  (forall p e, path = Some p -> fs p <> Unreadable e) ->
  exists self' h', load_category fs category path self h = Ok (self', h').
Proof.
  intros Hp. unfold load_category.
  destruct path as [p|]; [|eauto].
  destruct (is_empty p); [eauto|].
  unfold load_from_file. specialize (Hp p).
  destruct (fs p) as [| e | ls].
  - eauto.
  - exfalso. now apply (Hp e).
  - destruct (foldl load_line (∅, 0%nat) ls). eauto.
Qed.

(** [load_all] returns when no configured file raises on reading. *)
Lemma load_all_ok fs cfg (self : t) (h : heap) :
  (forall p e, p ∈ [technical cfg; soft cfg; custom cfg] ->
               forall q, p = Some q -> fs q <> Unreadable e) ->
  exists d' h', load_all fs cfg self h = Ok (d', h').
Proof.
  intros Hp. unfold load_all.
  destruct (load_category_ok fs "technical" (technical cfg) self h)
    as (s1 & h1 & ->).
  { intros p e Hq. apply (Hp (technical cfg) e); [set_solver | exact Hq]. }
  destruct (load_category_ok fs "soft" (soft cfg) s1 h1) as (s2 & h2 & ->).
  { intros p e Hq. apply (Hp (soft cfg) e); [set_solver | exact Hq]. }
  destruct (load_category_ok fs "custom" (custom cfg) s2 h2) as (s3 & h3 & ->).
  { intros p e Hq. apply (Hp (custom cfg) e); [set_solver | exact Hq]. }
  unfold alloc. simpl. eauto.
Qed.

End LoadAllFacts.

(** X3. When [load_all] returns, the combined set agrees with the
    categories: [contains] holds for a skill exactly when [get_category]
    finds a category for it, every set returned by [get_skills_by_category]
    is included in the set returned by [get_all_skills], and [total_loaded]
    is the number of skills of the combined set ([__len__]). *)
Theorem load_all_combined_set_agrees
    (fs : SkillDictionary.filesystem) (cfg : SkillDictionary.dict_config)
    (self : SkillDictionary.t) (h : SkillDictionary.heap)
    (d' : SkillDictionary.t) (h' : SkillDictionary.heap) :
  SkillDictionary.load_all fs cfg self h = Py.Ok (d', h') ->
  (forall s, SkillDictionary.contains d' s h' = true <->
             is_Some (SkillDictionary.get_category d' s h')) /\
  (forall c x,
     x ∈ Spec.returned (SkillDictionary.get_skills_by_category d' c h') ->
     x ∈ Spec.returned (SkillDictionary.get_all_skills d' h')) /\
  SkillDictionary.total_loaded (SkillDictionary._stats d')
  = SkillDictionary.__len__ d' h'.
Proof.
  intros H.
  destruct (load_all_inv _ _ _ _ _ _ H)
    as (self3 & h3 & _ & _ & _ & _ & _ & _ & _ & -> & ->).
  destruct (combined_set_spec self3 h3
    {| SkillDictionary.total_loaded :=
         size (foldl (fun acc (kl : string * SkillDictionary.loc) =>
                        acc ∪ SkillDictionary.deref h3 kl.2) ∅
                     (SkillDictionary._skills self3));
       SkillDictionary.duplicates_removed :=
         SkillDictionary.duplicates_removed (SkillDictionary._stats self3);
       SkillDictionary.files_loaded :=
         SkillDictionary.files_loaded (SkillDictionary._stats self3) |})
    as (H1 & H2 & H3).
  split; [exact H1|]. split; [exact H2|]. now rewrite H3.
Qed.

(** The theorem on a dictionary loaded from one file of two skills. *)
Lemma load_all_combined_set_agrees_witness :
  exists d' h',
    SkillDictionary.load_all
      (fun _ => SkillDictionary.Lines ["Python"; "sql"])
      {| SkillDictionary.technical := Some "technical.txt";
         SkillDictionary.soft := None;
         SkillDictionary.custom := None |}
      (SkillDictionary.init ∅).1 (SkillDictionary.init ∅).2
    = Py.Ok (d', h') /\
    (SkillDictionary.contains d' "SQL" h' = true <->
     is_Some (SkillDictionary.get_category d' "SQL" h')).
Proof.
  destruct (load_all_ok (fun _ => SkillDictionary.Lines ["Python"; "sql"])
              {| SkillDictionary.technical := Some "technical.txt";
                 SkillDictionary.soft := None;
                 SkillDictionary.custom := None |}
              (SkillDictionary.init ∅).1 (SkillDictionary.init ∅).2)
    as (d' & h' & E); [intros p e _ q _; discriminate|].
  exists d', h'. split; [exact E|].
  exact (proj1 (load_all_combined_set_agrees _ _ _ _ _ _ E) "SQL").
Defined.

(** X4. [load_all] fails only on a file that cannot be read: when no
    configured dictionary file raises on reading (files that are absent
    included), it returns a dictionary; when the technical dictionary is
    configured and reading it raises, [load_all] raises the same
    exception. *)
Theorem load_all_fails_only_on_unreadable_file
    (fs : SkillDictionary.filesystem) (cfg : SkillDictionary.dict_config)
    (self : SkillDictionary.t) (h : SkillDictionary.heap) :
  ((forall p e, p ∈ [SkillDictionary.technical cfg; SkillDictionary.soft cfg;
                     SkillDictionary.custom cfg] ->
                forall q, p = Some q -> fs q <> SkillDictionary.Unreadable e) ->
   exists d' h', SkillDictionary.load_all fs cfg self h = Py.Ok (d', h')) /\
  (forall p e, SkillDictionary.technical cfg = Some p -> p <> "" ->
     fs p = SkillDictionary.Unreadable e ->
     SkillDictionary.load_all fs cfg self h = Py.Raise e).
Proof.
  split.
  - apply load_all_ok.
  - intros p e Hc Hp Hf. unfold SkillDictionary.load_all,
      SkillDictionary.load_category, SkillDictionary.load_from_file.
    rewrite Hc. destruct p as [|c p]; [congruence|]. simpl PyStr.is_empty.
    cbv iota. rewrite Hf. reflexivity.
Qed.

(** The theorem on a configuration whose technical dictionary is absent
    from the disk. *)
Lemma load_all_fails_only_on_unreadable_file_witness :
  exists d' h',
    SkillDictionary.load_all (fun _ => SkillDictionary.Missing)
      {| SkillDictionary.technical := Some "technical.txt";
         SkillDictionary.soft := None;
         SkillDictionary.custom := None |}
      (SkillDictionary.init ∅).1 (SkillDictionary.init ∅).2
    = Py.Ok (d', h').
Proof.
  apply (proj1 (load_all_fails_only_on_unreadable_file
                  (fun _ => SkillDictionary.Missing) _ _ _)).
  intros p e _ q _. discriminate.
Defined.

(** X5. [add_skill] to a category that is not a key raises [KeyError].
    To a category that is one, it succeeds, and afterwards the skill is
    found whatever its case: [contains] holds for every spelling with the
    same lowercase form, [get_category] finds a category for it, the set of
    the category holds its lowercase form, and every skill that was
    contained before still is. *)
Theorem add_skill_then_contains
    (d : SkillDictionary.t) (h : SkillDictionary.heap)
    (skill category : string) :
  match SkillDictionary.dict_get (SkillDictionary._skills d) category with
  | None => SkillDictionary.add_skill d skill category h = Py.Raise Py.KeyError
  | Some _ =>
      exists h',
        SkillDictionary.add_skill d skill category h = Py.Ok h' /\
        (forall s, PyStr.lower s = PyStr.lower skill ->
                   SkillDictionary.contains d s h' = true) /\
        is_Some (SkillDictionary.get_category d skill h') /\
        PyStr.lower skill
          ∈ Spec.returned (SkillDictionary.get_skills_by_category d category h') /\
        (forall x, SkillDictionary.contains d x h = true ->
                   SkillDictionary.contains d x h' = true)
  end.
Proof.
  unfold SkillDictionary.add_skill.
  destruct (SkillDictionary.dict_get (SkillDictionary._skills d) category)
    as [l|] eqn:E; [|reflexivity].
  eexists. split; [reflexivity|].
  set (s0 := PyStr.lower skill).
  set (h1 := <[l := {[s0]} ∪ SkillDictionary.deref h l]> h).
  set (a := SkillDictionary._all_skills d).
  assert (Ha : forall x, x ∈ SkillDictionary.deref
                 (<[a := {[s0]} ∪ SkillDictionary.deref h1 a]> h1) a <->
               x = s0 \/ x ∈ SkillDictionary.deref h1 a).
  { intros x. rewrite deref_insert. destruct (decide (a = a)); [|congruence].
    now rewrite elem_of_union, elem_of_singleton. }
  assert (Hl : s0 ∈ SkillDictionary.deref
                 (<[a := {[s0]} ∪ SkillDictionary.deref h1 a]> h1) l).
  { rewrite deref_insert. destruct (decide (a = l)).
    - apply elem_of_union. left. now apply elem_of_singleton.
    - subst h1. rewrite deref_insert. destruct (decide (l = l)); [|congruence].
      apply elem_of_union. left. now apply elem_of_singleton. }
  split; [|split; [|split]].
  - intros s Hs. unfold SkillDictionary.contains. fold a.
    apply bool_decide_eq_true. apply Ha. left. exact Hs.
  - unfold SkillDictionary.get_category. apply first_category_is_Some.
    exists (category, l). split; [now apply dict_get_elem | exact Hl].
  - rewrite returned_by_category, E. exact Hl.
  - intros x. unfold SkillDictionary.contains. fold a.
    rewrite !bool_decide_eq_true. intros Hx. apply Ha. right.
    subst h1. rewrite deref_insert. destruct (decide (l = a)) as [->|]; [|exact Hx].
    apply elem_of_union. now right.
Qed.

Section PriorityFacts.
Import PyStr Py Spec SkillDictionary.

(** The keys of a dictionary made by [__init__] and filled by [load_all]
    are the three categories, in the order of [__init__]. *)
Lemma load_all_keys fs cfg (h0 : heap) d' h' :
  load_all fs cfg (init h0).1 (init h0).2 = Ok (d', h') ->
  map fst (_skills d') = ["technical"; "soft"; "custom"].
Proof.
  intros H.
  destruct (load_all_inv _ _ _ _ _ _ H)
    as (s3 & h3 & s1 & h1 & s2 & h2 & E1 & E2 & E3 & -> & _).
  cbn [_skills].
  assert (K0 : map fst (_skills (init h0).1) = ["technical"; "soft"; "custom"])
    by reflexivity.
  assert (K1 : map fst (_skills s1) = ["technical"; "soft"; "custom"]).
  { rewrite (load_category_keys fs "technical" _ _ _ _ _
               ltac:(rewrite K0; set_solver) E1).
    exact K0. }
  assert (K2 : map fst (_skills s2) = ["technical"; "soft"; "custom"]).
  { rewrite (load_category_keys fs "soft" _ _ _ _ _
               ltac:(rewrite K1; set_solver) E2).
    exact K1. }
  rewrite (load_category_keys fs "custom" _ _ _ _ _
             ltac:(rewrite K2; set_solver) E3).
  exact K2.
Qed.

End PriorityFacts.

(** X6. For a dictionary made by [__init__] and filled by [load_all], the
    category of a skill is decided in the order technical, soft, custom:
    [get_category] answers with the first of the three whose set, as
    [get_skills_by_category] returns it, holds the lowercased skill, and
    with [None] when none does. *)
Theorem get_category_priority
    (fs : SkillDictionary.filesystem) (cfg : SkillDictionary.dict_config)
    (h0 : SkillDictionary.heap)
    (d' : SkillDictionary.t) (h' : SkillDictionary.heap) (s : string) :
  SkillDictionary.load_all fs cfg (SkillDictionary.init h0).1
    (SkillDictionary.init h0).2 = Py.Ok (d', h') ->
  let has c :=
    bool_decide
      (PyStr.lower s
         ∈ Spec.returned (SkillDictionary.get_skills_by_category d' c h')) in
  SkillDictionary.get_category d' s h'
  = if has "technical" then Some "technical"
    else if has "soft" then Some "soft"
    else if has "custom" then Some "custom"
    else None.
Proof.
  intros H has. subst has. cbv beta.
  pose proof (load_all_keys _ _ _ _ _ H) as K.
  rewrite !returned_by_category. unfold SkillDictionary.get_category.
  destruct (SkillDictionary._skills d') as [|[k1 l1] [|[k2 l2] [|[k3 l3] [|? ?]]]];
    try discriminate.
  injection K as -> -> ->. simpl.
  destruct (bool_decide (PyStr.lower s ∈ SkillDictionary.deref h' l1));
    [reflexivity|].
  destruct (bool_decide (PyStr.lower s ∈ SkillDictionary.deref h' l2));
    [reflexivity|].
  destruct (bool_decide (PyStr.lower s ∈ SkillDictionary.deref h' l3));
    reflexivity.
Qed.

(** The theorem on a dictionary with a technical and a soft file. *)
Lemma get_category_priority_witness :
  exists d' h',
    SkillDictionary.load_all
      (fun p => if String.eqb p "t.txt"
                then SkillDictionary.Lines ["python"; "agile"]
                else SkillDictionary.Lines ["Agile"; "leadership"])
      {| SkillDictionary.technical := Some "t.txt";
         SkillDictionary.soft := Some "s.txt";
         SkillDictionary.custom := None |}
      (SkillDictionary.init ∅).1 (SkillDictionary.init ∅).2
    = Py.Ok (d', h') /\
    (PyStr.lower "AGILE"
       ∈ Spec.returned (SkillDictionary.get_skills_by_category d' "technical" h') ->
     SkillDictionary.get_category d' "AGILE" h' = Some "technical").
Proof.
  destruct (load_all_ok
              (fun p => if String.eqb p "t.txt"
                        then SkillDictionary.Lines ["python"; "agile"]
                        else SkillDictionary.Lines ["Agile"; "leadership"])
              {| SkillDictionary.technical := Some "t.txt";
                 SkillDictionary.soft := Some "s.txt";
                 SkillDictionary.custom := None |}
              (SkillDictionary.init ∅).1 (SkillDictionary.init ∅).2)
    as (d' & h' & E).
  { intros p e _ q _. destruct (String.eqb q "t.txt"); discriminate. }
  exists d', h'. split; [exact E|]. intros Hin.
  rewrite (get_category_priority _ _ _ _ _ "AGILE" E).
  now rewrite bool_decide_eq_true_2 by exact Hin.
Defined.

(* ===================================================================== *)
(** * More of [SkillExtractor] *)
(* ===================================================================== *)

Section ExtractFacts.
Import PyStr Py Spec Regex SkillExtractor.

(** What [extract] returns, in terms of the normalised matches. *)
Lemma extract_result (self : t) (text : pyval) :
  (extract self text).1
  = match text with
    | PStr s =>
        if is_empty s then []
        else match _pattern self with
             | None => []
             | Some pat =>
                 if remove_duplicates (cfg self)
                 then first_occurrences (normalized_matches self pat s)
                 else normalized_matches self pat s
             end
    | _ => []
    end.
Proof.
  destruct text as [| s |]; simpl; try reflexivity.
  destruct (is_empty s); [reflexivity|].
  destruct (_pattern self); [|reflexivity]. simpl.
  destruct (remove_duplicates (cfg self)); [|reflexivity].
  apply remove_duplicates_first_occurrences.
Qed.

(** [extract] changes nothing but the statistics. *)
Lemma extract_same_matcher (self : t) (text : pyval) :
  same_matcher self (extract self text).2.
Proof.
  destruct text as [| s |]; simpl; try (repeat split; reflexivity).
  destruct (is_empty s); [repeat split; reflexivity|].
  destruct (_pattern self) eqn:E; repeat split; try reflexivity.
  simpl. now rewrite E.
Qed.

Lemma same_matcher_trans a b c :
  same_matcher a b -> same_matcher b c -> same_matcher a c.
Proof.
  intros (A1 & A2 & A3 & A4) (B1 & B2 & B3 & B4).
  repeat split; congruence.
Qed.

(** What [extract] returns does not depend on the statistics. *)
Lemma extract_result_same (a b : t) (text : pyval) :
  same_matcher a b -> (extract a text).1 = (extract b text).1.
Proof.
  intros (A1 & A2 & A3 & A4). rewrite !extract_result.
  destruct text as [| s |]; try reflexivity.
  destruct (is_empty s); [reflexivity|]. rewrite <- A4, <- A1.
  destruct (_pattern a) as [pat|]; [|reflexivity].
  unfold normalized_matches, _normalize_skill. now rewrite <- A1, <- A3.
Qed.

Lemma counted_same (a b : t) (text : pyval) :
  same_matcher a b -> counted a text = counted b text.
Proof. intros (_ & _ & _ & A4). unfold counted. now rewrite A4. Qed.

(** The statistics after one call. *)
Lemma extract_stats (self : t) (text : pyval) :
  let out := (extract self text).1 in
  let after := _stats (extract self text).2 in
  total_extractions after
    = (total_extractions (_stats self) + if counted self text then 1 else 0)%nat /\
  total_skills_found after
    = (total_skills_found (_stats self) + length out)%nat /\
  unique_skills_found after = unique_skills_found (_stats self) ∪ list_to_set out.
Proof.
  assert (Hnone : forall st : stats,
    total_extractions st = (total_extractions st + 0)%nat /\
    total_skills_found st = (total_skills_found st + 0)%nat /\
    unique_skills_found st = unique_skills_found st ∪ list_to_set []).
  { intros st. repeat split; try lia. simpl. now rewrite union_empty_r_L. }
  destruct text as [| s |]; simpl; try apply Hnone.
  destruct (is_empty s); simpl; [apply Hnone|].
  destruct (_pattern self); simpl; [|apply Hnone]. repeat split.
Qed.

End ExtractFacts.

Section BatchFacts.
Import PyStr Py Spec SkillExtractor.

Lemma extract_batch_cons (self : t) text col :
  extract_batch self (text :: col)
  = (((extract self text).1, length (extract self text).1)
       :: (extract_batch (extract self text).2 col).1,
     (extract_batch (extract self text).2 col).2).
Proof.
  simpl. destruct (extract self text) as [skills self1]. simpl.
  destruct (extract_batch self1 col) as [rows self2]. reflexivity.
Qed.

(** The rows and the statistics of a batch. *)
Lemma extract_batch_spec col : forall self : t,
  (extract_batch self col).1
    = map (fun text => ((extract self text).1, length (extract self text).1)) col /\
  same_matcher self (extract_batch self col).2 /\
  total_extractions (_stats (extract_batch self col).2)
    = (total_extractions (_stats self)
       + length (filter (fun text => counted self text = true) col))%nat /\
  total_skills_found (_stats (extract_batch self col).2)
    = (total_skills_found (_stats self)
       + sum_list (map snd (extract_batch self col).1))%nat /\
  unique_skills_found (_stats (extract_batch self col).2)
    = unique_skills_found (_stats self)
      ∪ ⋃ (map (fun r : list string * nat => list_to_set r.1)
               (extract_batch self col).1).
Proof.
  induction col as [|text col IH]; intros self.
  - simpl. repeat split; try lia. now rewrite union_empty_r_L.
  - rewrite extract_batch_cons. cbn [fst snd].
    pose proof (extract_same_matcher self text) as Hs.
    destruct (IH (extract self text).2) as (I1 & I2 & I3 & I4 & I5).
    destruct (extract_stats self text) as (S1 & S2 & S3).
    split; [|split; [|split; [|split]]].
    + simpl. f_equal. rewrite I1. apply map_ext. intros t.
      now rewrite (extract_result_same _ _ t Hs).
    + eapply same_matcher_trans; eassumption.
    + rewrite I3, S1, filter_cons.
      assert (E : filter (fun t => counted (extract self text).2 t = true) col
                  = filter (fun t => counted self t = true) col).
      { apply list_filter_iff. intros t.
        now rewrite (counted_same _ _ t Hs). }
      rewrite E. destruct (counted self text) eqn:C.
      * destruct (decide (true = true)); [simpl; lia | congruence].
      * destruct (decide (false = true)); [congruence | simpl; lia].
    + rewrite I4, S2. simpl. lia.
    + rewrite I5, S3. simpl. now rewrite union_assoc_L.
Qed.

Lemma size_list_to_set_le (l : list string) :
  (size (list_to_set l : gset string) <= length l)%nat.
Proof.
  induction l as [|x l IH].
  - rewrite list_to_set_nil, size_empty. simpl. lia.
  - rewrite list_to_set_cons. cbn [length].
    pose proof (size_union_alt ({[x]} : gset string) (list_to_set l)) as H.
    rewrite size_singleton in H.
    assert (size (list_to_set l ∖ {[x]} : gset string)
            <= size (list_to_set l : gset string))%nat
      by (apply subseteq_size, subseteq_difference_l; reflexivity).
    lia.
Qed.

Lemma size_union_le (X Y : gset string) : (size (X ∪ Y) <= size X + size Y)%nat.
Proof.
  rewrite size_union_alt.
  assert (size (Y ∖ X) <= size Y)%nat
    by (apply subseteq_size, subseteq_difference_l; reflexivity).
  lia.
Qed.

(** One call keeps the distinct skills no more numerous than the skill
    instances. *)
Lemma extract_keeps_bound (self : t) text :
  (size (unique_skills_found (_stats self)) <= total_skills_found (_stats self))%nat ->
  (size (unique_skills_found (_stats (extract self text).2))
   <= total_skills_found (_stats (extract self text).2))%nat.
Proof.
  intros H. destruct (extract_stats self text) as (_ & S2 & S3).
  rewrite S2, S3.
  pose proof (size_union_le (unique_skills_found (_stats self))
                (list_to_set (extract self text).1)).
  pose proof (size_list_to_set_le (extract self text).1). lia.
Qed.

Lemma extract_batch_keeps_bound col : forall self : t,
  (size (unique_skills_found (_stats self)) <= total_skills_found (_stats self))%nat ->
  (size (unique_skills_found (_stats (extract_batch self col).2))
   <= total_skills_found (_stats (extract_batch self col).2))%nat.
Proof.
  induction col as [|text col IH]; intros self H; [exact H|].
  rewrite extract_batch_cons. cbn [snd]. apply IH. now apply extract_keeps_bound.
Qed.

End BatchFacts.

(** X7. [extract_batch] treats the documents independently and in order:
    the row of each document holds what [extract] returns for it on the
    extractor as it was before the batch, with the length of that list as
    [skill_count]; only the statistics change, and they grow by the batch:
    the documents counted, the sum of the skill counts, and the union of
    the skills of the rows. *)
Theorem extract_batch_rows_and_statistics
    (self : SkillExtractor.t) (col : list SkillExtractor.pyval) :
  let rows := (SkillExtractor.extract_batch self col).1 in
  let before := SkillExtractor._stats self in
  let after := SkillExtractor._stats (SkillExtractor.extract_batch self col).2 in
  rows = map (fun text => ((SkillExtractor.extract self text).1,
                           length (SkillExtractor.extract self text).1)) col /\
  Spec.same_matcher self (SkillExtractor.extract_batch self col).2 /\
  SkillExtractor.total_extractions after
    = (SkillExtractor.total_extractions before
       + length (filter (fun text => Spec.counted self text = true) col))%nat /\
  SkillExtractor.total_skills_found after
    = (SkillExtractor.total_skills_found before + sum_list (map snd rows))%nat /\
  SkillExtractor.unique_skills_found after
    = SkillExtractor.unique_skills_found before
      ∪ ⋃ (map (fun r : list string * nat => list_to_set r.1) rows).
Proof. apply extract_batch_spec. Qed.

(** X8. After [reset_stats], whatever batch is run, the statistics stay
    within bounds: the documents counted are at most the documents of the
    batch, and the distinct skills seen are at most the skill instances
    found. *)
Theorem statistics_bounds_after_reset
    (self : SkillExtractor.t) (col : list SkillExtractor.pyval) :
  let after :=
    SkillExtractor._stats
      (SkillExtractor.extract_batch (SkillExtractor.reset_stats self) col).2 in
  (SkillExtractor.total_extractions after <= length col)%nat /\
  (size (SkillExtractor.unique_skills_found after)
   <= SkillExtractor.total_skills_found after)%nat.
Proof.
  intros after. subst after. split.
  - destruct (extract_batch_spec col (SkillExtractor.reset_stats self))
      as (_ & _ & H & _).
    rewrite H. simpl.
    apply length_filter.
  - apply extract_batch_keeps_bound.
    change (size (∅ : gset string) <= 0)%nat. now rewrite size_empty.
Qed.

Section VariationFacts.
Import PyStr Py Spec SkillExtractor.

Lemma variation_fold_lookup (c : string) vs : forall (m : gmap string string) k,
  foldl (fun m v => <[lower v := c]> m) m vs !! k
  = if decide (k ∈ map lower vs) then Some c else m !! k.
Proof.
  induction vs as [|v vs IH]; intros m k; simpl.
  - destruct (decide (k ∈ [])) as [H|_]; [inversion H | reflexivity].
  - rewrite IH. destruct (decide (k ∈ map lower vs)) as [H|H].
    + destruct (decide (k ∈ lower v :: map lower vs)) as [_|N];
        [reflexivity | exfalso; apply N; now right].
    + rewrite lookup_insert.
      destruct (decide (lower v = k)) as [<-|Hne].
      * destruct (decide (lower v ∈ lower v :: map lower vs)) as [_|N];
          [reflexivity | exfalso; apply N; now left].
      * destruct (decide (k ∈ lower v :: map lower vs)) as [Hin|_];
          [|reflexivity].
        apply elem_of_cons in Hin as [->|Hin]; congruence.
Qed.

Lemma variation_map_fold table : forall (m : gmap string string) k,
  foldl (fun m '(canonical, vs) =>
           foldl (fun m v => <[lower v := lower canonical]> m) m vs)
        m table !! k
  = foldl (fun acc (cv : string * list string) =>
             if decide (lists_variation k cv) then Some (lower cv.1) else acc)
          (m !! k) table.
Proof.
  induction table as [|[c vs] table IH]; intros m k; simpl; [reflexivity|].
  rewrite IH, variation_fold_lookup. reflexivity.
Qed.

(** The reverse mapping gives a lowercase form the canonical name of the
    last entry that lists it. *)
Lemma variation_map_lookup table k :
  build_variation_map table !! k = last_listing table k.
Proof.
  unfold build_variation_map, last_listing.
  now rewrite variation_map_fold, lookup_empty.
Qed.

Lemma last_listing_app table cv k :
  last_listing (table ++ [cv]) k
  = if decide (lists_variation k cv) then Some (lower cv.1)
    else last_listing table k.
Proof. unfold last_listing. now rewrite foldl_app. Qed.

Lemma last_listing_none_after acc post k :
  Forall (fun cv => ~ lists_variation k cv) post ->
  foldl (fun acc (cv : string * list string) =>
           if decide (lists_variation k cv) then Some (lower cv.1) else acc)
        acc post = acc.
Proof.
  intros H. revert acc. induction H as [|cv post Hcv _ IH]; intros acc; simpl;
    [reflexivity|].
  destruct (decide (lists_variation k cv)); [contradiction | apply IH].
Qed.

Lemma last_listing_split pre cv post k :
  lists_variation k cv ->
  Forall (fun cv' => ~ lists_variation k cv') post ->
  last_listing (pre ++ cv :: post) k = Some (lower cv.1).
Proof.
  intros Hcv Hpost. unfold last_listing. rewrite foldl_app. simpl.
  destruct (decide (lists_variation k cv)); [|contradiction].
  now apply last_listing_none_after.
Qed.

Lemma last_listing_lowercase table k v :
  last_listing table k = Some v -> lower v = v.
Proof.
  induction table as [|cv table IH] using rev_ind; [discriminate|].
  rewrite last_listing_app. destruct (decide _); [|exact IH].
  intros [= <-]. apply lower_idem.
Qed.

(** [_normalize_skill] returns a lowercase string when the reverse mapping
    is the one built from a table. *)
Lemma normalize_skill_lowercase (self : t) table y :
  _variation_map self = build_variation_map table ->
  lower (_normalize_skill self y) = _normalize_skill self y.
Proof.
  intros E. unfold _normalize_skill. rewrite E, variation_map_lookup.
  destruct (last_listing table (lower y)) as [v|] eqn:L.
  - now apply (last_listing_lowercase table (lower y)).
  - apply lower_idem.
Qed.


End VariationFacts.

(** X9. With normalisation on, [_normalize_skill] looks the lowercased
    skill up among the lowercased variations of the table: when entries
    list it, the answer is the lowercased canonical name of the last such
    entry; when none does, the answer is the lowercased skill itself. *)
Theorem normalize_skill_uses_last_listing
    (o : Py.set_order) (cs rd : bool) (all_skills : gset string)
    (loaded : list (string * list string)) (skill : string) :
  let self := SkillExtractor.init o
      {| SkillExtractor.case_sensitive := cs;
         SkillExtractor.remove_duplicates := rd;
         SkillExtractor.normalize_skills := true |} all_skills loaded in
  (forall pre cv post,
     loaded = (pre ++ cv :: post)%list ->
     Spec.lists_variation (PyStr.lower skill) cv ->
     Forall (fun cv' => ~ Spec.lists_variation (PyStr.lower skill) cv') post ->
     SkillExtractor._normalize_skill self skill = PyStr.lower cv.1) /\
  (Forall (fun cv' => ~ Spec.lists_variation (PyStr.lower skill) cv') loaded ->
   SkillExtractor._normalize_skill self skill = PyStr.lower skill).
Proof.
  intros self. subst self. unfold SkillExtractor._normalize_skill.
  cbn [SkillExtractor.init SkillExtractor._variation_map
       SkillExtractor.normalize_skills].
  rewrite variation_map_lookup. split.
  - intros pre cv post -> Hcv Hpost. now rewrite last_listing_split.
  - intros Hall. unfold Spec.last_listing.
    now rewrite last_listing_none_after.
Qed.

(** The theorem on a table in which two entries list the same variation. *)
Lemma normalize_skill_uses_last_listing_witness :
  SkillExtractor._normalize_skill
    (SkillExtractor.init Py.elements_order
       {| SkillExtractor.case_sensitive := false;
          SkillExtractor.remove_duplicates := true;
          SkillExtractor.normalize_skills := true |}
       {["javascript"; "java"]}
       [("Java", ["JS"]); ("JavaScript", ["JS"; "ECMAScript"])])
    "Js"
  = "javascript".
Proof.
  apply (proj1 (normalize_skill_uses_last_listing Py.elements_order
                  false true {["javascript"; "java"]}
                  [("Java", ["JS"]); ("JavaScript", ["JS"; "ECMAScript"])] "Js")
               [("Java", ["JS"])] ("JavaScript", ["JS"; "ECMAScript"]) []).
  - reflexivity.
  - unfold Spec.lists_variation. simpl. apply elem_of_cons. now left.
  - constructor.
Defined.

Section ExtractMoreFacts.
Import PyStr Py Spec Regex SkillExtractor.



(** The elements of what [extract] returns are normalised matches. *)
Lemma extract_elem (self : t) text x :
  x ∈ (extract self text).1 ->
  exists s pat, text = PStr s /\ _pattern self = Some pat /\
                x ∈ normalized_matches self pat s.
Proof.
  rewrite extract_result.
  destruct text as [| s |]; [intros H; inversion H | | intros H; inversion H].
  destruct (is_empty s); [intros H; inversion H|].
  destruct (_pattern self) as [pat|]; [|intros H; inversion H].
  intros H. exists s, pat. repeat split.
  destruct (remove_duplicates (cfg self)); [|exact H].
  now apply first_occurrences_elem.
Qed.

Lemma build_patterns_None o cs (S : gset string) table :
  all_patterns S table = ∅ -> _build_patterns o cs S table = None.
Proof.
  intros E. unfold _build_patterns. rewrite E.
  pose proof (iter_perm o ∅) as P. rewrite elements_empty in P.
  apply Permutation_nil_r in P. now rewrite P.
Qed.

Lemma extract_no_pattern (self : t) text :
  _pattern self = None -> extract self text = ([], self).
Proof.
  intros Hp. destruct text as [| s |]; try reflexivity.
  unfold extract. destruct (is_empty s); [reflexivity|]. now rewrite Hp.
Qed.

End ExtractMoreFacts.

(** X10. Every skill that [extract] returns, for an extractor made by
    [__init__], is lowercase. *)
Theorem extracted_skills_are_lowercase
    (o : Py.set_order) (c : SkillExtractor.settings)
    (all_skills : gset string) (loaded : list (string * list string))
    (text : SkillExtractor.pyval) (x : string) :
  x ∈ (SkillExtractor.extract (SkillExtractor.init o c all_skills loaded) text).1 ->
  PyStr.lower x = x.
Proof.
  intros H. apply extract_elem in H as (s & pat & _ & _ & H).
  unfold SkillExtractor.normalized_matches in H.
  destruct (SkillExtractor.normalize_skills
              (SkillExtractor.cfg (SkillExtractor.init o c all_skills loaded))).
  - apply list_elem_of_fmap in H as (y & -> & _).
    now apply (normalize_skill_lowercase _
                 (if SkillExtractor.normalize_skills c then loaded else [])).
  - apply list_elem_of_fmap in H as (y & -> & _). apply lower_idem.
Qed.

(** The theorem on a text in capitals with a variation in it. *)
Lemma extracted_skills_are_lowercase_witness :
  PyStr.lower "javascript" = "javascript".
Proof.
  apply (extracted_skills_are_lowercase Py.elements_order
           {| SkillExtractor.case_sensitive := false;
              SkillExtractor.remove_duplicates := true;
              SkillExtractor.normalize_skills := true |}
           {["javascript"]} [("JavaScript", ["JS"])]
           (SkillExtractor.PStr "NEED A JS DEV")).
  vm_compute. apply list_elem_of_here.
Defined.



(** X12. Switching [remove_duplicates] off changes nothing but the
    duplicates: with it on, [extract] returns the first occurrences of
    what it returns with it off, which is the whole normalised match
    sequence, duplicates kept in order. *)
Theorem remove_duplicates_only_drops_repeats
    (o : Py.set_order) (cs ns : bool) (all_skills : gset string)
    (loaded : list (string * list string)) (text : SkillExtractor.pyval) :
  let keep := SkillExtractor.init o
      {| SkillExtractor.case_sensitive := cs;
         SkillExtractor.remove_duplicates := false;
         SkillExtractor.normalize_skills := ns |} all_skills loaded in
  let drop := SkillExtractor.init o
      {| SkillExtractor.case_sensitive := cs;
         SkillExtractor.remove_duplicates := true;
         SkillExtractor.normalize_skills := ns |} all_skills loaded in
  (SkillExtractor.extract drop text).1
  = Spec.first_occurrences (SkillExtractor.extract keep text).1 /\
  (forall s pat, text = SkillExtractor.PStr s -> s <> "" ->
     SkillExtractor._pattern keep = Some pat ->
     (SkillExtractor.extract keep text).1
     = SkillExtractor.normalized_matches keep pat s).
Proof.
  intros keep drop. rewrite !extract_result. split.
  - destruct text as [| s |]; try reflexivity.
    destruct (PyStr.is_empty s); [reflexivity|].
    subst keep drop.
    cbn [SkillExtractor.init SkillExtractor._pattern SkillExtractor.cfg
         SkillExtractor.case_sensitive SkillExtractor.normalize_skills
         SkillExtractor.remove_duplicates].
    destruct (SkillExtractor._build_patterns o cs all_skills
                (if ns then loaded else [])); reflexivity.
  - intros s pat -> Hs Hp. destruct s as [|ch s]; [congruence|].
    simpl PyStr.is_empty. cbv iota. rewrite Hp. reflexivity.
Qed.

(** X13. With no skill and no variation to match, no pattern is compiled,
    and [extract] returns the empty list for every input, without touching
    the statistics. *)
Theorem empty_dictionary_extracts_nothing
    (o : Py.set_order) (c : SkillExtractor.settings)
    (all_skills : gset string) (loaded : list (string * list string))
    (text : SkillExtractor.pyval) :
  let self := SkillExtractor.init o c all_skills loaded in
  SkillExtractor.all_patterns all_skills (SkillExtractor.variations self) = ∅ ->
  SkillExtractor._pattern self = None /\
  SkillExtractor.extract self text = ([], self).
Proof.
  intros self H.
  assert (Hp : SkillExtractor._pattern self = None).
  { subst self. cbn [SkillExtractor.init SkillExtractor._pattern
                     SkillExtractor.variations] in *.
    now apply build_patterns_None. }
  split; [exact Hp | now apply extract_no_pattern].
Qed.

(** The theorem on a dictionary without skills and without variations. *)
Lemma empty_dictionary_extracts_nothing_witness :
  (SkillExtractor.extract
     (SkillExtractor.init Py.elements_order
        {| SkillExtractor.case_sensitive := false;
           SkillExtractor.remove_duplicates := true;
           SkillExtractor.normalize_skills := true |} ∅ [])
     (SkillExtractor.PStr "python developer")).1 = [].
Proof.
  exact (f_equal fst
           (proj2 (empty_dictionary_extracts_nothing Py.elements_order
                     {| SkillExtractor.case_sensitive := false;
                        SkillExtractor.remove_duplicates := true;
                        SkillExtractor.normalize_skills := true |} ∅ []
                     (SkillExtractor.PStr "python developer") eq_refl))).
Defined.

Section IgnoreCaseFacts.
Import PyStr Py Spec Regex SkillExtractor.












End IgnoreCaseFacts.



(* ===================================================================== *)
(** * More of [Aggregator] *)
(* ===================================================================== *)

Section CounterFacts.
Import PyStr Py Spec Aggregator.

Lemma counter_incr_keys c k :
  map fst (counter_incr c k)
  = if decide (k ∈ map fst c) then map fst c else (map fst c ++ [k])%list.
Proof.
  induction c as [|[k' n] c IH]; simpl.
  - destruct (decide (k ∈ [])) as [H|_]; [inversion H | reflexivity].
  - destruct (String.eqb_spec k' k) as [->|Hne]; simpl.
    + destruct (decide (k ∈ k :: map fst c)) as [_|N];
        [reflexivity | exfalso; apply N; now left].
    + rewrite IH. destruct (decide (k ∈ map fst c)) as [H|H].
      * destruct (decide (k ∈ k' :: map fst c)) as [_|N];
          [reflexivity | exfalso; apply N; now right].
      * destruct (decide (k ∈ k' :: map fst c)) as [Hin|_]; [|reflexivity].
        apply elem_of_cons in Hin as [->|Hin]; congruence.
Qed.

Lemma counter_incr_NoDup c k :
  NoDup (map fst c) -> NoDup (map fst (counter_incr c k)).
Proof.
  intros H. rewrite counter_incr_keys. destruct (decide _) as [|Hk]; [exact H|].
  apply NoDup_app. split; [exact H|]. split.
  - intros x Hx Hx'. apply list_elem_of_singleton in Hx' as ->. contradiction.
  - apply NoDup_singleton.
Qed.

Lemma counter_incr_elem c k x :
  x ∈ map fst (counter_incr c k) <-> x ∈ map fst c \/ x = k.
Proof.
  rewrite counter_incr_keys. destruct (decide _) as [Hk|Hk].
  - split; [tauto|]. intros [H| ->]; assumption.
  - now rewrite elem_of_app, list_elem_of_singleton.
Qed.

Lemma counter_update_NoDup l : forall c,
  NoDup (map fst c) -> NoDup (map fst (counter_update c l)).
Proof.
  unfold counter_update. induction l as [|k l IH]; intros c H; simpl;
    [exact H|].
  apply IH. now apply counter_incr_NoDup.
Qed.

Lemma counter_update_elem l : forall c x,
  x ∈ map fst (counter_update c l) <-> x ∈ map fst c \/ x ∈ l.
Proof.
  unfold counter_update. induction l as [|k l IH]; intros c x; simpl.
  - split; [tauto|]. intros [H|H]; [exact H | inversion H].
  - rewrite IH, counter_incr_elem, elem_of_cons. tauto.
Qed.

(** The keys of the frequency table are distinct, and they are the skills
    of the column. *)
Lemma document_frequency_keys (o : set_order) col : forall c,
  NoDup (map fst c) ->
  let c' := foldl (fun skill_counts skills =>
                     counter_update skill_counts
                       (iter o (unique_skills_of skills))) c col in
  NoDup (map fst c') /\
  forall x, x ∈ map fst c' <-> x ∈ map fst c \/ x ∈ skills_of_column col.
Proof.
  unfold skills_of_column.
  induction col as [|cell col IH]; intros c H; simpl.
  - split; [exact H|]. intros x. rewrite elem_of_empty. tauto.
  - destruct (IH (counter_update c (iter o (unique_skills_of cell)))
                (counter_update_NoDup _ _ H)) as [H1 H2].
    split; [exact H1|]. intros x.
    rewrite H2, counter_update_elem, iter_elem, elem_of_union. tauto.
Qed.

Lemma freq_get_elem c s n : freq_get c s = Some n -> (s, n) ∈ c.
Proof.
  induction c as [|[k m] c IH]; simpl; [discriminate|].
  destruct (String.eqb_spec k s) as [->|_].
  - intros [= ->]. now left.
  - intros H. right. now apply IH.
Qed.

Lemma freq_get_NoDup c s n :
  NoDup (map fst c) -> (s, n) ∈ c -> freq_get c s = Some n.
Proof.
  induction c as [|[k m] c IH]; simpl; intros Hnd Hin; [inversion Hin|].
  apply NoDup_cons in Hnd as [Hk Hnd].
  apply elem_of_cons in Hin as [[= -> ->]|Hin].
  - now rewrite String.eqb_refl.
  - destruct (String.eqb_spec k s) as [->|_]; [|now apply IH].
    exfalso. apply Hk. apply list_elem_of_fmap. now exists (s, n).
Qed.

(** The frequency of a skill, in terms of the documents that have it. *)
Lemma document_frequency_get (o : set_order) col s :
  freq_get (calculate_document_frequency o col) s
  = bump None (documents_with s col).
Proof.
  unfold calculate_document_frequency. now rewrite document_frequency_loop.
Qed.

Lemma documents_with_app s c1 c2 :
  documents_with s (c1 ++ c2) = (documents_with s c1 + documents_with s c2)%nat.
Proof. unfold documents_with. now rewrite filter_app, length_app. Qed.

Lemma bump_value n : default 0%Z (bump None n) = Z.of_nat n.
Proof. destruct n; simpl; [reflexivity | lia]. Qed.

End CounterFacts.

(** X15. The frequency table of a column has one entry for each skill
    that occurs in some document of the column and no other: its keys are
    distinct, they are exactly those skills, and their number is the number
    of distinct skills. *)
Theorem frequency_table_keys
    (o : Py.set_order) (col : list Aggregator.cell) :
  let freq := Aggregator.calculate_document_frequency o col in
  NoDup (map fst freq) /\
  (forall x, x ∈ map fst freq <-> x ∈ Spec.skills_of_column col) /\
  length freq = size (Spec.skills_of_column col).
Proof.
  intros freq.
  destruct (document_frequency_keys o col [] (NoDup_nil_2)) as [H1 H2].
  fold (Aggregator.calculate_document_frequency o col) in H1, H2. fold freq in H1, H2.
  assert (H3 : forall x, x ∈ map fst freq <-> x ∈ Spec.skills_of_column col).
  { intros x. rewrite H2. simpl. rewrite elem_of_nil. tauto. }
  split; [exact H1|]. split; [exact H3|].
  rewrite <- (length_map fst freq), <- (size_list_to_set (C:=gset string)) by exact H1.
  f_equal. apply set_eq. intros x. rewrite elem_of_list_to_set. apply H3.
Qed.

(** X16. Frequencies add up over parts of a column: the frequency of a
    skill in two columns put end to end is the sum of its frequencies in
    each (a skill without entry counting for zero). *)
Theorem document_frequency_is_additive
    (o : Py.set_order) (c1 c2 : list Aggregator.cell) (s : string) :
  default 0%Z (Aggregator.freq_get
                 (Aggregator.calculate_document_frequency o (c1 ++ c2)) s)
  = (default 0%Z (Aggregator.freq_get
                    (Aggregator.calculate_document_frequency o c1) s)
     + default 0%Z (Aggregator.freq_get
                      (Aggregator.calculate_document_frequency o c2) s))%Z.
Proof.
  rewrite !document_frequency_get, !bump_value, documents_with_app. lia.
Qed.

Section PercentageFacts.
Import PyStr Py Spec Aggregator.

(** The percentage of a skill is looked up as its frequency is. *)
Lemma pct_get_percentages total freqs : forall pcts s,
  percentages total freqs = Ok pcts ->
  pct_get pcts s
  = match freq_get freqs s with
    | Some c => match Num.percentage c total with
                | Ok p => Some p
                | Raise _ => None
                end
    | None => None
    end.
Proof.
  induction freqs as [|[k c] freqs IH]; intros pcts s; simpl.
  - now intros [= <-].
  - destruct (Num.percentage c total) as [p|e] eqn:Ep; [|discriminate].
    destruct (percentages total freqs) as [ps|e]; [|discriminate].
    intros [= <-]. simpl. destruct (String.eqb k s); [now rewrite Ep|].
    now apply IH.
Qed.

(** A share of a positive total lies between 0 and 100 per cent. *)
Lemma share_bounds (c t : Z) (p : Q) :
  (1 <= c <= t)%Z -> (p == 100 * inject_Z c / inject_Z t)%Q ->
  (0 < p)%Q /\ (p <= 100)%Q.
Proof.
  intros [Hc Ht] ->.
  assert (Hq : (0 < inject_Z t)%Q) by (apply inject_Z_pos; lia).
  split.
  - apply Qlt_shift_div_l; [exact Hq|]. rewrite Qmult_0_l.
    change 0%Q with (100 * 0)%Q. apply Qmult_lt_l; [reflexivity|].
    apply inject_Z_pos. lia.
  - apply Qle_shift_div_r; [exact Hq|]. apply Qmult_le_l; [reflexivity|].
    now rewrite <- Zle_Qle.
Qed.

End PercentageFacts.

(** X17. In the report of a group, the percentage recorded for a skill is
    100 times the number of the group's documents that have the skill,
    divided by the number of documents of the group; it is greater than 0
    and at most 100. *)
Theorem skill_percentages_are_shares
    (o : Py.set_order) (agg : Aggregator.t) (df : list Aggregator.row)
    (a : Aggregator.aggregation) (s : string) (p : Q) :
  Aggregator._aggregate_group o agg df = Py.Ok a ->
  Aggregator.pct_get (Aggregator.skill_percentages a) s = Some p ->
  (p == 100 * inject_Z (Z.of_nat (Spec.documents_with s
                                    (map Aggregator.extracted_skills df)))
        / inject_Z (Z.of_nat (length df)))%Q /\
  (0 < p)%Q /\ (p <= 100)%Q.
Proof.
  unfold Aggregator._aggregate_group.
  destruct (Aggregator.percentages _ _) as [pcts|e] eqn:E; [|discriminate].
  intros [= <-]. cbn [Aggregator.skill_percentages].
  rewrite (pct_get_percentages _ _ _ s E), document_frequency_get.
  pose proof (length_filter
    (fun c => s ∈ Aggregator.unique_skills_of c)
    (map Aggregator.extracted_skills df)) as Hle.
  rewrite length_map in Hle. fold (Spec.documents_with s
    (map Aggregator.extracted_skills df)) in Hle.
  destruct (Spec.documents_with s (map Aggregator.extracted_skills df))
    as [|d] eqn:D; [discriminate|].
  cbn [Spec.bump default].
  destruct (percentage_total (0 + Z.of_nat (S d)) (Z.of_nat (length df)))
    as (q & Eq & _ & Hq).
  rewrite Eq. intros [= <-].
  assert (Hp : (q == 100 * inject_Z (Z.of_nat (S d))
                     / inject_Z (Z.of_nat (length df)))%Q).
  { rewrite Hq by lia. now rewrite Z.add_0_l. }
  split; [exact Hp|].
  apply (share_bounds (Z.of_nat (S d)) (Z.of_nat (length df))); [lia | exact Hp].
Qed.

(** The theorem on two documents, one of which has the skill. *)
Lemma skill_percentages_are_shares_witness :
  exists a,
    Aggregator._aggregate_group Py.elements_order
      {| Aggregator.role_column := None; Aggregator.top_n := 20;
         Aggregator.role_mappings := [] |}
      [ {| Aggregator.role := Aggregator.RNone;
           Aggregator.extracted_skills := Aggregator.CList ["python"; "java"] |};
        {| Aggregator.role := Aggregator.RNone;
           Aggregator.extracted_skills := Aggregator.CList ["python"] |} ]
    = Py.Ok a /\
    Aggregator.pct_get (Aggregator.skill_percentages a) "java" = Some (100 # 2) /\
    (100 # 2 <= 100)%Q.
Proof.
  eexists. split; [vm_compute; reflexivity|].
  assert (H : Aggregator.pct_get
                [("java", (100 # 2)%Q); ("python", (200 # 2)%Q)] "java"
              = Some (100 # 2)) by reflexivity.
  split; [exact H|].
  apply (skill_percentages_are_shares Py.elements_order
           {| Aggregator.role_column := None; Aggregator.top_n := 20;
              Aggregator.role_mappings := [] |}
           [ {| Aggregator.role := Aggregator.RNone;
                Aggregator.extracted_skills := Aggregator.CList ["python"; "java"] |};
             {| Aggregator.role := Aggregator.RNone;
                Aggregator.extracted_skills := Aggregator.CList ["python"] |} ]
           _ "java" (100 # 2) ltac:(vm_compute; reflexivity) H).
Defined.

Section GroupFacts.
Import PyStr Py Spec Aggregator.

(** The loop of [group_rows], started from any grouping. *)
Lemma group_rows_loop (self : t) df : forall (m : gmap string (list row)) k,
  foldl (fun m r =>
           let k := normalize_role self (role r) in
           <[k := (default [] (m !! k) ++ [r])%list]> m) m df !! k
  = match rows_of_role self k df with
    | [] => m !! k
    | rows => Some (default [] (m !! k) ++ rows)%list
    end.
Proof.
  unfold rows_of_role.
  induction df as [|r df IH]; intros m k; [reflexivity|].
  simpl foldl. rewrite IH, filter_cons.
  destruct (decide (normalize_role self (role r) = k)) as [E|E].
  - rewrite E, lookup_insert_eq. simpl.
    destruct (filter _ df); [reflexivity|].
    now rewrite <- app_assoc.
  - rewrite lookup_insert_ne by exact E. reflexivity.
Qed.

Lemma group_rows_lookup (self : t) df k :
  group_rows self df !! k
  = match rows_of_role self k df with
    | [] => None
    | rows => Some rows
    end.
Proof.
  unfold group_rows. rewrite group_rows_loop, lookup_empty. reflexivity.
Qed.

End GroupFacts.

(** X18. With a role column, [aggregate_by_role] reports on a role exactly
    when some row is normalised to it, and the report is that of those
    rows, taken in their order in the frame; without a configured role
    column, or when the frame does not have it, there is one report, under
    "all", on the whole frame. *)
Theorem aggregate_by_role_groups
    (o : Py.set_order) (self : Aggregator.t) (has_role_column : bool)
    (df : list Aggregator.row) (k : string) :
  (forall c, Aggregator.role_column self = Some c -> c <> "" ->
     has_role_column = true ->
     Aggregator.aggregate_by_role o self has_role_column df !! k
     = match Spec.rows_of_role self k df with
       | [] => None
       | rows => Some (Aggregator._aggregate_group o self rows)
       end) /\
  (Aggregator.role_column self = None \/
   Aggregator.role_column self = Some "" \/ has_role_column = false ->
   Aggregator.aggregate_by_role o self has_role_column df
   = {[ "all" := Aggregator._aggregate_group o self df ]}).
Proof.
  unfold Aggregator.aggregate_by_role. split.
  - intros c -> Hc ->. destruct c as [|ch c]; [congruence|]. simpl.
    rewrite lookup_fmap, group_rows_lookup.
    now destruct (Spec.rows_of_role self k df).
  - intros [-> | [-> | ->]]; [reflexivity | reflexivity |].
    destruct (Aggregator.role_column self) as [c|]; [|reflexivity].
    now rewrite orb_true_r.
Qed.

(** The theorem on a frame with two spellings of one role. *)
Lemma aggregate_by_role_groups_witness :
  let self := {| Aggregator.role_column := Some "role";
                 Aggregator.top_n := 20;
                 Aggregator.role_mappings :=
                   [("Data Scientist", ["ds"; "data scientist"])] |} in
  let r1 := {| Aggregator.role := Aggregator.RStr "DS";
               Aggregator.extracted_skills := Aggregator.CList ["python"] |} in
  let r2 := {| Aggregator.role := Aggregator.RNone;
               Aggregator.extracted_skills := Aggregator.CList ["sql"] |} in
  let r3 := {| Aggregator.role := Aggregator.RStr " data scientist";
               Aggregator.extracted_skills := Aggregator.CList ["sql"] |} in
  Aggregator.aggregate_by_role Py.elements_order self true [r1; r2; r3]
    !! "Data Scientist"
  = Some (Aggregator._aggregate_group Py.elements_order self [r1; r3]).
Proof.
  intros self r1 r2 r3.
  rewrite (proj1 (aggregate_by_role_groups Py.elements_order self true
                    [r1; r2; r3] "Data Scientist") "role" eq_refl
                 ltac:(discriminate) eq_refl).
  reflexivity.
Defined.

(* ===================================================================== *)
(** * More of the ranking and of [RulesGenerator] *)
(* ===================================================================== *)

Section TopFacts.
Import PyStr Py Spec Aggregator.

Lemma slice_to_take {A} (n : Z) (l : list A) :
  exists k, slice_to n l = take k l.
Proof. unfold slice_to. destruct (0 <=? n)%Z; eauto. Qed.

Lemma top_skills_sub n freqs x : x ∈ top_skills_of n freqs -> x ∈ freqs.
Proof.
  unfold top_skills_of. destruct (slice_to_take n (sorted_desc count_key freqs))
    as [k ->].
  intros H. apply elem_of_take in H as (i & H & _).
  apply list_elem_of_lookup_2 in H. now rewrite sorted_desc_perm in H.
Qed.

Lemma top_skills_NoDup n freqs :
  NoDup (map fst freqs) -> NoDup (map fst (top_skills_of n freqs)).
Proof.
  intros H. unfold top_skills_of.
  destruct (slice_to_take n (sorted_desc count_key freqs)) as [k ->].
  change (NoDup (fst <$> take k (sorted_desc count_key freqs))).
  rewrite fmap_take.
  apply (sublist_NoDup _ (fst <$> sorted_desc count_key freqs));
    [|apply sublist_take].
  change (NoDup (fst <$> freqs)) in H.
  now rewrite (sorted_desc_perm count_key freqs).
Qed.

Lemma top_skills_descending n freqs :
  descending count_key (top_skills_of n freqs).
Proof.
  unfold top_skills_of.
  destruct (slice_to_take n (sorted_desc count_key freqs)) as [k ->].
  intros i j x y Hij Hi Hj.
  apply lookup_take_Some in Hi as [Hi _]. apply lookup_take_Some in Hj as [Hj _].
  exact (desc_chain_descending count_key _ (sorted_desc_chain count_key freqs)
           i j x y Hij Hi Hj).
Qed.

Lemma top_skills_length n freqs :
  (0 <= n)%Z -> (Z.of_nat (length (top_skills_of n freqs)) <= n)%Z.
Proof.
  intros H. unfold top_skills_of, slice_to.
  destruct (0 <=? n)%Z eqn:E; [|apply Z.leb_gt in E; lia].
  rewrite length_take. lia.
Qed.

Lemma lookup_map_Some {A B} (f : A -> B) (l : list A) i y :
  map f l !! i = Some y -> exists x, l !! i = Some x /\ y = f x.
Proof.
  revert i. induction l as [|a l IH]; intros [|i] H; simpl in H;
    try discriminate.
  - injection H as <-. eauto.
  - now apply IH.
Qed.

End TopFacts.

(** The ranked entries of a report, against its frequency table. *)
Lemma aggregate_group_top_spec
    (o : Py.set_order) (agg : Aggregator.t) (df : list Aggregator.row)
    (a : Aggregator.aggregation) :
  Aggregator._aggregate_group o agg df = Py.Ok a ->
  NoDup (map Aggregator.skill (Aggregator.top_skills a)) /\
  Forall (fun e =>
            Aggregator.freq_get (Aggregator.skill_frequencies a)
              (Aggregator.skill e) = Some (Aggregator.count e) /\
            exists p,
              Aggregator.pct_get (Aggregator.skill_percentages a)
                (Aggregator.skill e) = Some p /\
              Aggregator.percentage e = Num.round2 p)
         (Aggregator.top_skills a) /\
  Spec.descending Aggregator.count (Aggregator.top_skills a) /\
  ((0 <= Aggregator.top_n agg)%Z ->
   (Z.of_nat (length (Aggregator.top_skills a)) <= Aggregator.top_n agg)%Z).
Proof.
  unfold Aggregator._aggregate_group.
  set (freqs := Aggregator.calculate_document_frequency o
                  (map Aggregator.extracted_skills df)).
  destruct (Aggregator.percentages _ freqs) as [pcts|e] eqn:E; [|discriminate].
  intros [= <-].
  cbn [Aggregator.top_skills Aggregator.skill_frequencies
       Aggregator.skill_percentages].
  assert (Hnd : NoDup (map fst freqs))
    by apply (document_frequency_keys o _ [] NoDup_nil_2).
  set (top := Aggregator.top_skills_of (Aggregator.top_n agg) freqs).
  split; [|split; [|split]].
  - rewrite map_map. simpl. apply (top_skills_NoDup _ _ Hnd).
  - apply Forall_forall. intros e He.
    apply list_elem_of_fmap in He as ([s c] & -> & Hin). simpl.
    apply top_skills_sub in Hin.
    pose proof (freq_get_NoDup _ _ _ Hnd Hin) as Hf. split; [exact Hf|].
    rewrite (pct_get_percentages _ _ _ s E), Hf.
    destruct (percentage_total c (Z.of_nat (length df))) as (p & Ep & _).
    rewrite Ep. exists p. split; reflexivity.
  - intros i j x y Hij Hi Hj.
    apply lookup_map_Some in Hi as (x' & Hi & ->).
    apply lookup_map_Some in Hj as (y' & Hj & ->). simpl.
    exact (top_skills_descending _ _ i j x' y' Hij Hi Hj).
  - intros Hn. rewrite length_map. now apply top_skills_length.
Qed.

(** X19. In the report of a group the ranked entries are entries of the
    frequency table: they name distinct skills, each with the frequency the
    table holds for it and with the rounding of the percentage recorded for
    it (the lookup of the percentage never misses); their counts never
    increase down the list, and for a limit that is not negative there are
    no more of them than the limit. *)
Theorem top_skills_are_entries_of_the_table
    (o : Py.set_order) (agg : Aggregator.t) (df : list Aggregator.row)
    (a : Aggregator.aggregation) :
  Aggregator._aggregate_group o agg df = Py.Ok a ->
  NoDup (map Aggregator.skill (Aggregator.top_skills a)) /\
  Forall (fun e =>
            Aggregator.freq_get (Aggregator.skill_frequencies a)
              (Aggregator.skill e) = Some (Aggregator.count e) /\
            exists p,
              Aggregator.pct_get (Aggregator.skill_percentages a)
                (Aggregator.skill e) = Some p /\
              Aggregator.percentage e = Num.round2 p)
         (Aggregator.top_skills a) /\
  Spec.descending Aggregator.count (Aggregator.top_skills a) /\
  ((0 <= Aggregator.top_n agg)%Z ->
   (Z.of_nat (length (Aggregator.top_skills a)) <= Aggregator.top_n agg)%Z).
Proof. apply aggregate_group_top_spec. Qed.

(** The theorem on three documents and a limit of one. *)
Lemma top_skills_are_entries_of_the_table_witness :
  exists a,
    Aggregator._aggregate_group Py.elements_order
      {| Aggregator.role_column := None; Aggregator.top_n := 1;
         Aggregator.role_mappings := [] |}
      [ {| Aggregator.role := Aggregator.RNone;
           Aggregator.extracted_skills := Aggregator.CList ["python"; "java"] |};
        {| Aggregator.role := Aggregator.RNone;
           Aggregator.extracted_skills := Aggregator.CList ["python"] |};
        {| Aggregator.role := Aggregator.RNone;
           Aggregator.extracted_skills := Aggregator.COther |} ]
    = Py.Ok a /\
    NoDup (map Aggregator.skill (Aggregator.top_skills a)).
Proof.
  eexists. split; [vm_compute; reflexivity|].
  apply (top_skills_are_entries_of_the_table Py.elements_order
           {| Aggregator.role_column := None; Aggregator.top_n := 1;
              Aggregator.role_mappings := [] |}
           [ {| Aggregator.role := Aggregator.RNone;
                Aggregator.extracted_skills := Aggregator.CList ["python"; "java"] |};
             {| Aggregator.role := Aggregator.RNone;
                Aggregator.extracted_skills := Aggregator.CList ["python"] |};
             {| Aggregator.role := Aggregator.RNone;
                Aggregator.extracted_skills := Aggregator.COther |} ]).
  vm_compute. reflexivity.
Defined.

Section RankFacts.
Import PyStr Py Spec RulesGenerator.

(** [rank_from] answers with the position of the first entry that names
    the skill, counted from its starting number. *)
Lemma rank_from_spec top skill0 : forall i0,
  match rank_from i0 top skill0 with
  | Some i =>
      exists j e, i = (i0 + j)%nat /\ top !! j = Some e /\
                  Aggregator.skill e = skill0 /\
                  forall j' e', (j' < j)%nat -> top !! j' = Some e' ->
                                Aggregator.skill e' <> skill0
  | None => Forall (fun e => Aggregator.skill e <> skill0) top
  end.
Proof.
  induction top as [|e top IH]; intros i0; simpl; [constructor|].
  destruct (String.eqb_spec (Aggregator.skill e) skill0) as [E|E].
  - exists 0%nat, e. repeat split; [lia | exact E |]. intros j' e' Hj. lia.
  - specialize (IH (S i0)). destruct (rank_from (S i0) top skill0) as [i|].
    + destruct IH as (j & e1 & -> & H1 & H2 & H3).
      exists (S j), e1. repeat split; [lia | exact H1 | exact H2 |].
      intros [|j'] e' Hj He'; simpl in He'.
      * now injection He' as <-.
      * apply (H3 j' e'); [lia | exact He'].
    + now constructor.
Qed.

(** The rules written for a list of entries: one for each entry that
    reaches [min_frequency], in order; nothing is raised. *)
Lemma write_rules_spec (self : t) h top total role0 items :
  exists rules,
    write_rules self h top total role0 items = Ok rules /\
    map (fun r => (skill r, frequency r)) rules
    = filter (fun sc : string * Z => (min_frequency self <= sc.2)%Z) items /\
    Forall (fun r => role r = role0 /\ pattern r = skill r /\
                     rank r = _get_rank (skill r) top) rules.
Proof.
  induction items as [|[s c] items (rules & E & Hm & Hf)]; simpl.
  - exists []. repeat split. constructor.
  - rewrite filter_cons. simpl.
    destruct (c <? min_frequency self)%Z eqn:Hc.
    + apply Z.ltb_lt in Hc.
      destruct (decide (min_frequency self <= c)%Z); [lia|].
      exists rules. repeat split; assumption.
    + apply Z.ltb_ge in Hc.
      destruct (decide (min_frequency self <= c)%Z); [|lia].
      unfold _create_rule.
      destruct (percentage_total c total) as (p & Ep & _). rewrite Ep, E.
      eexists. split; [reflexivity|]. split; [simpl; now rewrite Hm|].
      constructor; [repeat split | exact Hf].
Qed.

End RankFacts.

(** X20. [_get_rank] answers with the position, counted from one, of the
    first entry of the ranking that names the skill, and with [None] exactly
    when no entry names it. *)
Theorem get_rank_is_first_position
    (skill : string) (top : list Aggregator.top_entry) :
  match RulesGenerator._get_rank skill top with
  | Some i =>
      (1 <= i <= length top)%nat /\
      exists e, top !! (i - 1)%nat = Some e /\ Aggregator.skill e = skill /\
                forall j e', (j < i - 1)%nat -> top !! j = Some e' ->
                             Aggregator.skill e' <> skill
  | None => Forall (fun e => Aggregator.skill e <> skill) top
  end.
Proof.
  unfold RulesGenerator._get_rank.
  pose proof (rank_from_spec top skill 1) as H.
  destruct (RulesGenerator.rank_from 1 top skill) as [i|]; [|exact H].
  destruct H as (j & e & -> & H1 & H2 & H3).
  replace (1 + j - 1)%nat with j by lia. split.
  - apply lookup_lt_Some in H1. lia.
  - exists e. repeat split; assumption.
Qed.

(** The rules of [generate_global_rules], against the frequency table. *)
Lemma global_rules_spec
    (o : Py.set_order) (self : RulesGenerator.t) (agg : Aggregator.t)
    (h : SkillDictionary.heap) (df : list Aggregator.row) :
  exists rules a,
    RulesGenerator.generate_global_rules o self agg h df = Py.Ok rules /\
    Aggregator._aggregate_group o agg df = Py.Ok a /\
    map (fun r => (RulesGenerator.skill r, RulesGenerator.frequency r)) rules
    = filter (fun sc : string * Z => (RulesGenerator.min_frequency self <= sc.2)%Z)
             (Aggregator.calculate_document_frequency o
                (map Aggregator.extracted_skills df)) /\
    Forall (fun r =>
              (RulesGenerator.min_frequency self <= RulesGenerator.frequency r)%Z /\
              RulesGenerator.role r = None /\
              RulesGenerator.pattern r = RulesGenerator.skill r /\
              RulesGenerator.rank r
              = RulesGenerator._get_rank (RulesGenerator.skill r)
                  (Aggregator.top_skills a))
           rules.
Proof.
  unfold RulesGenerator.generate_global_rules, Aggregator._aggregate_group.
  destruct (percentages_total (Z.of_nat (length df))
              (Aggregator.calculate_document_frequency o
                 (map Aggregator.extracted_skills df))) as (pcts & E & _).
  rewrite E.
  match goal with
  | |- context [RulesGenerator.write_rules self h ?top ?total None ?items] =>
      destruct (write_rules_spec self h top total None items)
        as (rules & Er & Hm & Hf)
  end.
  exists rules. eexists. split; [exact Er|]. split; [reflexivity|].
  cbn [Aggregator.skill_frequencies] in Hm. split; [exact Hm|].
  apply Forall_forall. intros r Hr.
  rewrite Forall_forall in Hf. destruct (Hf r Hr) as (H1 & H2 & H3).
  split; [|repeat split; assumption].
  assert (Hin : (RulesGenerator.skill r, RulesGenerator.frequency r)
                ∈ map (fun r => (RulesGenerator.skill r,
                                 RulesGenerator.frequency r)) rules).
  { apply list_elem_of_fmap. now exists r. }
  rewrite Hm in Hin. apply list_elem_of_filter in Hin as [Hin _]. exact Hin.
Qed.

(** X21. [generate_global_rules] never raises, and it writes one rule for
    each skill of the frequency table whose frequency reaches
    [min_frequency], in the order of the table, with that frequency; a
    skill below the threshold gets no rule.  Every rule has its skill as
    pattern, no role, and the rank of its skill in the ranking. *)
Theorem global_rules_are_the_frequent_skills
    (o : Py.set_order) (self : RulesGenerator.t) (agg : Aggregator.t)
    (h : SkillDictionary.heap) (df : list Aggregator.row) :
  exists rules a,
    RulesGenerator.generate_global_rules o self agg h df = Py.Ok rules /\
    Aggregator._aggregate_group o agg df = Py.Ok a /\
    map (fun r => (RulesGenerator.skill r, RulesGenerator.frequency r)) rules
    = filter (fun sc : string * Z => (RulesGenerator.min_frequency self <= sc.2)%Z)
             (Aggregator.calculate_document_frequency o
                (map Aggregator.extracted_skills df)) /\
    Forall (fun r =>
              (RulesGenerator.min_frequency self <= RulesGenerator.frequency r)%Z /\
              RulesGenerator.role r = None /\
              RulesGenerator.pattern r = RulesGenerator.skill r /\
              RulesGenerator.rank r
              = RulesGenerator._get_rank (RulesGenerator.skill r)
                  (Aggregator.top_skills a))
           rules.
Proof. apply global_rules_spec. Qed.

Section RankOrderFacts.
Import PyStr Py Spec.

Lemma aggregate_group_frequencies o agg df a :
  Aggregator._aggregate_group o agg df = Ok a ->
  Aggregator.skill_frequencies a
  = Aggregator.calculate_document_frequency o
      (map Aggregator.extracted_skills df).
Proof.
  unfold Aggregator._aggregate_group.
  destruct (Aggregator.percentages _ _); [|discriminate].
  now intros [= <-].
Qed.

(** A ranked rule carries the count of the entry of the ranking at its
    rank. *)
Lemma ranked_rule_entry o self agg h df rules a r i :
  RulesGenerator.generate_global_rules o self agg h df = Ok rules ->
  Aggregator._aggregate_group o agg df = Ok a ->
  r ∈ rules -> RulesGenerator.rank r = Some i ->
  exists e, Aggregator.top_skills a !! (i - 1)%nat = Some e /\
            (1 <= i)%nat /\
            Aggregator.count e = RulesGenerator.frequency r.
Proof.
  intros Hg Ha Hr Hrank.
  destruct (global_rules_spec o self agg h df)
    as (rules' & a' & Hg' & Ha' & Hm & Hf).
  rewrite Hg in Hg'. injection Hg' as <-.
  rewrite Ha in Ha'. injection Ha' as <-.
  rewrite Forall_forall in Hf. destruct (Hf r Hr) as (_ & _ & _ & Hk).
  rewrite Hrank in Hk. symmetry in Hk.
  unfold RulesGenerator._get_rank in Hk.
  pose proof (rank_from_spec (Aggregator.top_skills a)
                (RulesGenerator.skill r) 1) as Hs.
  rewrite Hk in Hs. destruct Hs as (j & e & -> & He & Hskill & _).
  exists e. replace (1 + j - 1)%nat with j by lia.
  split; [exact He|]. split; [lia|].
  destruct (aggregate_group_top_spec o agg df a Ha) as (_ & Htop & _).
  rewrite Forall_forall in Htop.
  destruct (Htop e (list_elem_of_lookup_2 _ _ _ He)) as [Hfe _].
  assert (Hin : (RulesGenerator.skill r, RulesGenerator.frequency r)
                ∈ Aggregator.skill_frequencies a).
  { rewrite (aggregate_group_frequencies _ _ _ _ Ha).
    assert (Hin : (RulesGenerator.skill r, RulesGenerator.frequency r)
                  ∈ map (fun r => (RulesGenerator.skill r,
                                   RulesGenerator.frequency r)) rules).
    { apply list_elem_of_fmap. now exists r. }
    rewrite Hm in Hin. now apply list_elem_of_filter in Hin as [_ Hin]. }
  assert (Hnd : NoDup (map fst (Aggregator.skill_frequencies a))).
  { rewrite (aggregate_group_frequencies _ _ _ _ Ha).
    apply (document_frequency_keys o _ [] NoDup_nil_2). }
  pose proof (freq_get_NoDup _ _ _ Hnd Hin) as Hfr.
  rewrite Hskill, Hfr in Hfe. now injection Hfe as ->.
Qed.

End RankOrderFacts.

(** X22. In the global rules the ranks follow the frequencies: of two
    ranked rules, the one with the smaller rank has a frequency at least as
    great; and for a limit that is not negative no rank exceeds the
    limit. *)
Theorem ranks_follow_frequencies
    (o : Py.set_order) (self : RulesGenerator.t) (agg : Aggregator.t)
    (h : SkillDictionary.heap) (df : list Aggregator.row)
    (rules : list RulesGenerator.rule) (r1 r2 : RulesGenerator.rule)
    (i j : nat) :
  RulesGenerator.generate_global_rules o self agg h df = Py.Ok rules ->
  r1 ∈ rules -> r2 ∈ rules ->
  RulesGenerator.rank r1 = Some i -> RulesGenerator.rank r2 = Some j ->
  ((i < j)%nat ->
   (RulesGenerator.frequency r2 <= RulesGenerator.frequency r1)%Z) /\
  ((0 <= Aggregator.top_n agg)%Z -> (Z.of_nat i <= Aggregator.top_n agg)%Z).
Proof.
  intros Hg H1 H2 Hi Hj.
  destruct (global_rules_spec o self agg h df) as (_ & a & _ & Ha & _).
  destruct (ranked_rule_entry _ _ _ _ _ _ _ _ _ Hg Ha H1 Hi)
    as (e1 & He1 & Hi1 & <-).
  destruct (ranked_rule_entry _ _ _ _ _ _ _ _ _ Hg Ha H2 Hj)
    as (e2 & He2 & Hj1 & <-).
  destruct (aggregate_group_top_spec o agg df a Ha) as (_ & _ & Hd & Hl).
  split.
  - intros Hij. apply (Hd (i - 1)%nat (j - 1)%nat e1 e2); [lia | assumption..].
  - intros Hn. specialize (Hl Hn). apply lookup_lt_Some in He1. lia.
Qed.

(** The theorem on three documents: "python" in all, "sql" in two. *)
Lemma ranks_follow_frequencies_witness :
  let self := {| RulesGenerator.dictionary := (SkillDictionary.init ∅).1;
                 RulesGenerator.min_frequency := 2;
                 RulesGenerator.core_threshold := 1 # 2;
                 RulesGenerator.variations := [] |} in
  let agg := {| Aggregator.role_column := None; Aggregator.top_n := 20;
                Aggregator.role_mappings := [] |} in
  let doc skills := {| Aggregator.role := Aggregator.RNone;
                       Aggregator.extracted_skills := Aggregator.CList skills |} in
  let df := [doc ["python"; "sql"]; doc ["python"]; doc ["sql"; "python"; "go"]] in
  exists rules r1 r2,
    RulesGenerator.generate_global_rules Py.elements_order self agg
      (SkillDictionary.init ∅).2 df = Py.Ok rules /\
    rules = [r2; r1] /\
    RulesGenerator.rank r1 = Some 1%nat /\
    RulesGenerator.rank r2 = Some 2%nat /\
    (RulesGenerator.frequency r2 <= RulesGenerator.frequency r1)%Z.
Proof.
  intros self agg doc df.
  assert (E : exists rules,
    RulesGenerator.generate_global_rules Py.elements_order self agg
      (SkillDictionary.init ∅).2 df = Py.Ok rules /\
    exists r1 r2, rules = [r2; r1] /\
      RulesGenerator.rank r1 = Some 1%nat /\
      RulesGenerator.rank r2 = Some 2%nat).
  { eexists. split; [vm_compute; reflexivity|].
    eexists _, _. split; [reflexivity|]. split; reflexivity. }
  destruct E as (rules & E & r1 & r2 & -> & Hr1 & Hr2).
  exists [r2; r1], r1, r2.
  split; [exact E|]. split; [reflexivity|]. split; [exact Hr1|].
  split; [exact Hr2|].
  apply (proj1 (ranks_follow_frequencies Py.elements_order self agg
                  (SkillDictionary.init ∅).2 df [r2; r1] r1 r2 1%nat 2%nat E
                  (list_elem_of_further _ _ _ (list_elem_of_here _ _))
                  (list_elem_of_here _ _) Hr1 Hr2)).
  lia.
Defined.

Section RoundFacts.
Import Py.




End RoundFacts.


Section RoleRulesFacts.
Import PyStr Py Spec.





End RoleRulesFacts.



(* ===================================================================== *)
(** * The configuration *)
(* ===================================================================== *)

Section ConfigFacts.
Import ConfigLoader.

Lemma split_on_dotless (k : string) :
  Spec.dotless k = true -> split_on "." k = [k].
Proof.
  induction k as [|c k IH]; simpl; [reflexivity|].
  intros H. apply andb_prop in H as [Hc Hk].
  apply negb_true_iff in Hc. rewrite Hc, (IH Hk). reflexivity.
Qed.

Lemma split_on_app (k rest : string) :
  Spec.dotless k = true ->
  split_on "." (k ++ "." ++ rest) = k :: split_on "." rest.
Proof.
  induction k as [|c k IH]; intros H.
  - reflexivity.
  - simpl in H. apply andb_prop in H as [Hc Hk].
    apply negb_true_iff in Hc.
    change (String c k ++ "." ++ rest) with (String c (k ++ "." ++ rest)).
    cbn [split_on]. rewrite Hc, (IH Hk). reflexivity.
Qed.

Lemma split_join (keys : list string) :
  keys <> [] ->
  Forall (fun k => Spec.dotless k = true) keys ->
  split_on "." (Spec.join_dots keys) = keys.
Proof.
  induction keys as [|k keys IH]; intros Hne Hall; [congruence|].
  inversion Hall as [|? ? Hk Hks]; subst.
  destruct keys as [|k' keys].
  - simpl. apply split_on_dotless, Hk.
  - change (Spec.join_dots (k :: k' :: keys))
      with (k ++ "." ++ Spec.join_dots (k' :: keys)).
    rewrite (split_on_app _ _ Hk), IH; [reflexivity|discriminate|exact Hks].
Qed.

Lemma get_path_nested (self : yaml) (keys : list string) (default : yaml) :
  get_path self keys default = Spec.default_if_absent default (Spec.nested self keys).
Proof.
  revert self. induction keys as [|k keys IH]; intros self; [reflexivity|].
  simpl. destruct self; try reflexivity.
  destruct (dict_lookup d k); [apply IH|reflexivity].
Qed.

Lemma is_none_spec (v : yaml) : is_none v = true <-> v = VNone.
Proof. destruct v; simpl; split; congruence. Qed.

Lemma missing_field_spec (self : yaml) (f : string) :
  is_none (get self f VNone) = false <->
  Spec.present self (split_on "." f).
Proof.
  unfold get, Spec.present. rewrite get_path_nested.
  destruct (Spec.nested self (split_on "." f)) as [v|]; simpl.
  - split.
    + intros H. exists v. split; [reflexivity|].
      intros ->. discriminate.
    + intros (v' & [= <-] & Hv). destruct v; try reflexivity. congruence.
  - split; [discriminate|]. intros (v' & E & _). discriminate.
Qed.

Lemma missing_fields_spec (self : yaml) (f : string) :
  In f (missing_fields self) <->
  In f REQUIRED_FIELDS /\ ~ Spec.present self (split_on "." f).
Proof.
  unfold missing_fields. rewrite filter_In.
  rewrite <- missing_field_spec.
  destruct (is_none (get self f VNone)); intuition congruence.
Qed.

Lemma present_get (self : yaml) (f : string) :
  Spec.present self (split_on "." f) ->
  exists v, v <> VNone /\ forall default, get self f default = v.
Proof.
  intros (v & E & Hv). exists v. split; [exact Hv|].
  intros default. unfold get. rewrite get_path_nested, E. reflexivity.
Qed.

Lemma validate_None (self : yaml) :
  validate self = None ->
  forall f, In f REQUIRED_FIELDS -> Spec.present self (split_on "." f).
Proof.
  unfold validate. intros H f Hf.
  destruct (missing_fields self) as [|x l] eqn:E; [|discriminate].
  apply missing_field_spec.
  destruct (is_none (get self f VNone)) eqn:En; [|reflexivity].
  assert (Hin : In f (missing_fields self)).
  { unfold missing_fields. apply filter_In. split; assumption. }
  rewrite E in Hin. destruct Hin.
Qed.

End ConfigFacts.

(** X25. [get] with the keys joined by dots follows the keys through the
    nested mappings: it returns the value found at the end, also when that
    value is null, and the default as soon as a step finds no mapping or no
    such key.  The keys are not empty and have no dot in them. *)
Theorem get_follows_the_dotted_path
    (self : ConfigLoader.yaml) (keys : list string)
    (default : ConfigLoader.yaml) :
  keys <> [] ->
  Forall (fun k => Spec.dotless k = true) keys ->
  ConfigLoader.get self (Spec.join_dots keys) default =
  Spec.default_if_absent default (Spec.nested self keys).
Proof.
  intros Hne Hall. unfold ConfigLoader.get.
  rewrite (split_join keys Hne Hall). apply get_path_nested.
Qed.

Lemma get_follows_the_dotted_path_witness :
  let self :=
    ConfigLoader.VDict
      [("input",
        ConfigLoader.VDict
          [("file_path", ConfigLoader.VNone);
           ("columns",
            ConfigLoader.VDict [("text_column", ConfigLoader.VStr "jd")])])] in
  ConfigLoader.get self "input.columns.text_column" (ConfigLoader.VInt 0) =
    ConfigLoader.VStr "jd" /\
  ConfigLoader.get self "input.file_path" (ConfigLoader.VInt 0) =
    ConfigLoader.VNone /\
  ConfigLoader.get self "input.columns.role" (ConfigLoader.VInt 0) =
    ConfigLoader.VInt 0.
Proof.
  intros self. split; [|split].
  - apply (get_follows_the_dotted_path self
             ["input"; "columns"; "text_column"] (ConfigLoader.VInt 0));
      [discriminate | repeat constructor].
  - apply (get_follows_the_dotted_path self
             ["input"; "file_path"] (ConfigLoader.VInt 0));
      [discriminate | repeat constructor].
  - apply (get_follows_the_dotted_path self
             ["input"; "columns"; "role"] (ConfigLoader.VInt 0));
      [discriminate | repeat constructor].
Defined.

(** X26. [validate] accepts a configuration exactly when each of the four
    required fields is there and is not null.  Otherwise the error names
    the required fields that are absent or null, at least one, and no
    other field. *)
Theorem validate_reports_missing_fields (self : ConfigLoader.yaml) :
  (ConfigLoader.validate self = None <->
   forall f, In f ConfigLoader.REQUIRED_FIELDS ->
             Spec.present self (ConfigLoader.split_on "." f)) /\
  (forall e, ConfigLoader.validate self = Some e ->
     exists missing,
       e = ConfigLoader.MissingFields missing /\
       missing <> [] /\
       forall f, In f missing <->
                 In f ConfigLoader.REQUIRED_FIELDS /\
                 ~ Spec.present self (ConfigLoader.split_on "." f)).
Proof.
  split; [split|].
  - apply validate_None.
  - intros H. unfold ConfigLoader.validate.
    destruct (ConfigLoader.missing_fields self) as [|x l] eqn:E;
      [reflexivity|].
    assert (Hx : In x (ConfigLoader.missing_fields self))
      by (rewrite E; left; reflexivity).
    apply missing_fields_spec in Hx as [Hreq Hn].
    destruct (Hn (H x Hreq)).
  - intros e H. unfold ConfigLoader.validate in H.
    destruct (ConfigLoader.missing_fields self) as [|x l] eqn:E;
      [discriminate|].
    injection H as <-. exists (x :: l).
    split; [reflexivity|]. split; [discriminate|].
    intros f. rewrite <- E. apply missing_fields_spec.
Qed.

(** X27. A configuration that [load] returns is the parsed content of the
    file, and each required field of it has a value that is not null:
    [get] returns that value whatever default it is given. *)
Theorem loaded_configuration_has_required_fields
    (fs : string -> ConfigLoader.config_file) (config_path : string)
    (cfg : ConfigLoader.yaml) :
  ConfigLoader.load fs config_path = inl cfg ->
  fs config_path = ConfigLoader.Parsed cfg /\
  forall f, In f ConfigLoader.REQUIRED_FIELDS ->
    exists v, v <> ConfigLoader.VNone /\
              forall default, ConfigLoader.get cfg f default = v.
Proof.
  unfold ConfigLoader.load. intros H.
  destruct (fs config_path) as [| |c]; try discriminate.
  destruct (ConfigLoader.is_none c); [discriminate|].
  destruct (ConfigLoader.validate c) eqn:V; [discriminate|].
  injection H as <-. split; [reflexivity|].
  intros f Hf. apply present_get. exact (validate_None c V f Hf).
Qed.

Lemma loaded_configuration_has_required_fields_witness :
  let cfg :=
    ConfigLoader.VDict
      [("input",
        ConfigLoader.VDict
          [("file_path", ConfigLoader.VStr "jobs.csv");
           ("columns",
            ConfigLoader.VDict [("text_column", ConfigLoader.VStr "jd")])]);
       ("extraction",
        ConfigLoader.VDict
          [("dictionaries",
            ConfigLoader.VDict
              [("technical", ConfigLoader.VStr "technical.txt")])]);
       ("output",
        ConfigLoader.VDict [("directory", ConfigLoader.VStr "out")])] in
  let fs := fun _ : string => ConfigLoader.Parsed cfg in
  ConfigLoader.load fs "config.yaml" = inl cfg /\
  forall f, In f ConfigLoader.REQUIRED_FIELDS ->
    exists v, v <> ConfigLoader.VNone /\
              forall default, ConfigLoader.get cfg f default = v.
Proof.
  intros cfg fs. split; [reflexivity|].
  apply (loaded_configuration_has_required_fields fs "config.yaml" cfg).
  reflexivity.
Defined.

(* ===================================================================== *)
(** * The statistics of the extractor *)
(* ===================================================================== *)

Section SortedStrFacts.

Lemma ascii_compare_lt_trans (a b c : ascii) :
  Ascii.compare a b = Lt -> Ascii.compare b c = Lt -> Ascii.compare a c = Lt.
Proof.
  unfold Ascii.compare. rewrite !N.compare_lt_iff. lia.
Qed.

Lemma str_compare_lt_trans (a b c : string) :
  String.compare a b = Lt -> String.compare b c = Lt ->
  String.compare a c = Lt.
Proof.
  revert b c. induction a as [|x a IH]; intros [|y b] [|z c]; simpl;
    try congruence.
  destruct (Ascii.compare x y) eqn:Exy; try discriminate;
    destruct (Ascii.compare y z) eqn:Eyz; try discriminate.
  - apply Ascii.compare_eq_iff in Exy, Eyz. subst.
    rewrite (proj2 (N.compare_eq_iff _ _) eq_refl : Ascii.compare z z = Eq).
    apply IH.
  - apply Ascii.compare_eq_iff in Exy. subst. rewrite Eyz. reflexivity.
  - apply Ascii.compare_eq_iff in Eyz. subst. rewrite Exy. reflexivity.
  - rewrite (ascii_compare_lt_trans _ _ _ Exy Eyz). reflexivity.
Qed.

Lemma str_compare_refl (a : string) : String.compare a a = Eq.
Proof.
  induction a as [|x a IH]; simpl; [reflexivity|].
  rewrite (proj2 (N.compare_eq_iff _ _) eq_refl : Ascii.compare x x = Eq).
  exact IH.
Qed.

Lemma str_le_cases (a b : string) :
  Spec.str_le a b <-> a = b \/ String.compare a b = Lt.
Proof.
  unfold Spec.str_le, String.leb. destruct (String.compare a b) eqn:E.
  - apply String.compare_eq_iff in E. intuition.
  - intuition.
  - split; [discriminate|]. intros [->|]; [|discriminate].
    rewrite str_compare_refl in E. discriminate.
Qed.

Lemma str_le_trans : Transitive Spec.str_le.
Proof.
  intros a b c Hab Hbc. apply str_le_cases in Hab, Hbc. apply str_le_cases.
  destruct Hab as [->|Hab]; [exact Hbc|].
  destruct Hbc as [<-|Hbc]; [right; exact Hab|].
  right. exact (str_compare_lt_trans _ _ _ Hab Hbc).
Qed.

Lemma str_le_antisym : AntiSymm (=) Spec.str_le.
Proof. intros a b. apply String.leb_antisym. Qed.

Lemma insert_asc_perm (x : string) (l : list string) :
  Py.insert_asc x l ≡ₚ x :: l.
Proof.
  induction l as [|y l IH]; simpl; [reflexivity|].
  destruct (String.leb x y); [reflexivity|].
  rewrite IH. apply Permutation_swap.
Qed.

Lemma sorted_perm (l : list string) : Py.sorted l ≡ₚ l.
Proof.
  induction l as [|x l IH]; simpl; [reflexivity|].
  rewrite insert_asc_perm, IH. reflexivity.
Qed.

Lemma insert_asc_sorted (x : string) (l : list string) :
  StronglySorted Spec.str_le l -> StronglySorted Spec.str_le (Py.insert_asc x l).
Proof.
  induction l as [|y l IH]; intros Hs; simpl.
  - repeat constructor.
  - apply StronglySorted_inv in Hs as [Hs Hy].
    destruct (String.leb x y) eqn:E.
    + constructor; [constructor; assumption|].
      constructor; [exact E|].
      eapply Forall_impl; [exact Hy|].
      intros z Hz. exact (str_le_trans _ _ _ E Hz).
    + constructor; [apply IH, Hs|].
      rewrite insert_asc_perm. constructor; [|exact Hy].
      destruct (String.leb_total x y) as [H|H]; [congruence|exact H].
Qed.

Lemma sorted_sorted (l : list string) : StronglySorted Spec.str_le (Py.sorted l).
Proof.
  induction l as [|x l IH]; simpl; [constructor|].
  apply insert_asc_sorted, IH.
Qed.

Lemma sorted_of_perm (l1 l2 : list string) :
  l1 ≡ₚ l2 -> Py.sorted l1 = Py.sorted l2.
Proof.
  intros H. apply (@StronglySorted_unique _ Spec.str_le str_le_antisym);
    try apply sorted_sorted.
  rewrite !sorted_perm. exact H.
Qed.

Lemma sorted_NoDup_ascending (l : list string) :
  NoDup l -> Spec.ascending (Py.sorted l).
Proof.
  intros Hnd. assert (Hnd' : NoDup (Py.sorted l))
    by (rewrite sorted_perm; exact Hnd).
  pose proof (sorted_sorted l) as Hs.
  revert Hnd' Hs. generalize (Py.sorted l) as m. clear.
  induction m as [|x m IH]; intros Hnd Hs i j a b Hij Hi Hj.
  - destruct i; discriminate.
  - apply NoDup_cons in Hnd as [Hx Hnd].
    apply StronglySorted_inv in Hs as [Hs Hall].
    destruct j as [|j]; [lia|]. simpl in Hj.
    destruct i as [|i].
    + injection Hi as <-.
      assert (Hb : b ∈ m) by (eapply list_elem_of_lookup_2; exact Hj).
      rewrite Forall_forall in Hall. specialize (Hall b Hb).
      apply str_le_cases in Hall as [->|Hlt]; [contradiction|].
      unfold Spec.str_lt, String.ltb. rewrite Hlt. reflexivity.
    + simpl in Hi. apply (IH Hnd Hs i j); [lia|assumption|assumption].
Qed.

End SortedStrFacts.

(** X28. In the statistics that [get_extraction_stats] returns,
    [unique_skills] lists the skills of the set of the found skills, each
    once, in strictly ascending order, and [unique_skills_count] is its
    length.  The list does not depend on the order in which the set is gone
    through. *)
Theorem extraction_stats_list_the_found_skills
    (o : Py.set_order) (self : SkillExtractor.t) :
  let r := SkillExtractor.get_extraction_stats o self in
  let found := SkillExtractor.unique_skills_found (SkillExtractor._stats self) in
  (forall s, s ∈ SkillExtractor.unique_skills r <-> s ∈ found) /\
  NoDup (SkillExtractor.unique_skills r) /\
  Spec.ascending (SkillExtractor.unique_skills r) /\
  SkillExtractor.unique_skills_count r =
    length (SkillExtractor.unique_skills r) /\
  forall o', SkillExtractor.get_extraction_stats o' self = r.
Proof.
  intros r found. subst r. unfold SkillExtractor.get_extraction_stats.
  cbn [SkillExtractor.unique_skills SkillExtractor.unique_skills_count].
  fold found.
  assert (Hp : Py.sorted (Py.iter o found) ≡ₚ elements found)
    by (rewrite sorted_perm; apply Py.iter_perm).
  split; [|split; [|split; [|split]]].
  - intros s. rewrite Hp. apply elem_of_elements.
  - rewrite Hp. apply NoDup_elements.
  - apply sorted_NoDup_ascending.
    rewrite (Py.iter_perm o found). apply NoDup_elements.
  - rewrite Hp. reflexivity.
  - intros o'. f_equal. apply sorted_of_perm.
    rewrite !Py.iter_perm. reflexivity.
Qed.

(* ===================================================================== *)
(** * The preprocessor *)
(* ===================================================================== *)

Section NormalizeFacts.
Import PyStr Preprocessor.

Lemma sub_spaces_ok (b : bool) (t : string) :
  Spec.blanks_ok b (sub_spaces b t) = true.
Proof.
  revert b. induction t as [|c t IH]; intros b; [reflexivity|].
  cbn [sub_spaces]. destruct (is_space c) eqn:E.
  - destruct b; [apply IH|].
    cbn [Spec.blanks_ok]. change (is_space " ") with true. cbn iota.
    rewrite IH. reflexivity.
  - cbn [Spec.blanks_ok]. rewrite E. apply IH.
Qed.

Lemma blanks_ok_weaken (s : string) :
  Spec.blanks_ok true s = true -> Spec.blanks_ok false s = true.
Proof.
  destruct s as [|c s]; [reflexivity|]. cbn [Spec.blanks_ok].
  destruct (is_space c); [|tauto].
  rewrite andb_false_r. discriminate.
Qed.

Lemma lstrip_ok (b : bool) (s : string) :
  Spec.blanks_ok b s = true -> Spec.blanks_ok false (lstrip s) = true.
Proof.
  revert b. induction s as [|c s IH]; intros b H; [reflexivity|].
  cbn [lstrip]. cbn [Spec.blanks_ok] in H.
  destruct (is_space c) eqn:E.
  - apply andb_prop in H as [_ H]. exact (IH true H).
  - cbn [Spec.blanks_ok]. rewrite E. exact H.
Qed.

Lemma rstrip_ok (b : bool) (s : string) :
  Spec.blanks_ok b s = true -> Spec.blanks_ok b (rstrip s) = true.
Proof.
  revert b. induction s as [|c s IH]; intros b H; [reflexivity|].
  cbn [rstrip]. cbn [Spec.blanks_ok] in H.
  destruct (is_space c) eqn:E.
  - apply andb_prop in H as [H1 H2]. specialize (IH true H2).
    destruct (rstrip s) as [|d r]; [reflexivity|].
    cbn [Spec.blanks_ok]. rewrite E, H1. exact IH.
  - specialize (IH false H).
    destruct (rstrip s) as [|d r].
    + cbn [Spec.blanks_ok]. rewrite E. reflexivity.
    + cbn [Spec.blanks_ok]. rewrite E. exact IH.
Qed.

Lemma blanks_ok_fixed (b : bool) (s : string) :
  Spec.blanks_ok b s = true -> sub_spaces b s = s.
Proof.
  revert b. induction s as [|c s IH]; intros b H; [reflexivity|].
  cbn [sub_spaces]. cbn [Spec.blanks_ok] in H.
  destruct (is_space c) eqn:E.
  - apply andb_prop in H as [H1 H2]. apply andb_prop in H1 as [Hc Hb].
    apply negb_true_iff in Hb. subst b.
    apply Ascii.eqb_eq in Hc. subst c.
    rewrite (IH true H2). reflexivity.
  - rewrite (IH false H). reflexivity.
Qed.

Lemma blanks_ok_single (b : bool) (s : string) :
  Spec.blanks_ok b s = true -> Spec.single_blanks s.
Proof.
  revert b. induction s as [|c s IH]; intros b H i x Hi Hx.
  - destruct i; discriminate.
  - cbn [Spec.blanks_ok] in H. destruct i as [|i].
    + simpl in Hi. injection Hi as <-. rewrite Hx in H.
      apply andb_prop in H as [H1 H2]. apply andb_prop in H1 as [Hc _].
      apply Ascii.eqb_eq in Hc. split; [exact Hc|].
      intros d Hd. destruct s as [|e s]; [discriminate|].
      simpl in Hd. injection Hd as <-.
      cbn [Spec.blanks_ok] in H2.
      destruct (is_space e); [|reflexivity].
      rewrite andb_false_r in H2. discriminate.
    + assert (H' : exists b', Spec.blanks_ok b' s = true).
      { destruct (is_space c).
        - apply andb_prop in H as [_ H]. eexists; exact H.
        - eexists; exact H. }
      destruct H' as [b' H'].
      exact (IH b' H' i x Hi Hx).
Qed.

Lemma sub_spaces_lower (b : bool) (t : string) :
  sub_spaces b (lower t) = lower (sub_spaces b t).
Proof.
  revert b. induction t as [|c t IH]; intros b; [reflexivity|].
  cbn [lower sub_spaces]. rewrite is_space_lower_ascii.
  destruct (is_space c).
  - destruct b; [apply IH|]. cbn [lower]. rewrite IH. reflexivity.
  - cbn [lower]. rewrite IH. reflexivity.
Qed.

Lemma visible_cons (c : ascii) (s : string) :
  Spec.visible (String c s) =
  if is_space c then Spec.visible s else c :: Spec.visible s.
Proof.
  unfold Spec.visible, Spec.chars. simpl.
  destruct (is_space c); reflexivity.
Qed.

Lemma visible_sub_spaces (b : bool) (t : string) :
  Spec.visible (sub_spaces b t) = Spec.visible t.
Proof.
  revert b. induction t as [|c t IH]; intros b; [reflexivity|].
  cbn [sub_spaces]. rewrite (visible_cons c t).
  destruct (is_space c) eqn:E.
  - destruct b; [apply IH|]. rewrite visible_cons.
    change (is_space " ") with true. cbn iota. apply IH.
  - rewrite visible_cons, E, IH. reflexivity.
Qed.

Lemma visible_lstrip (s : string) : Spec.visible (lstrip s) = Spec.visible s.
Proof.
  induction s as [|c s IH]; [reflexivity|].
  cbn [lstrip]. rewrite (visible_cons c s).
  destruct (is_space c) eqn:E; [exact IH|].
  rewrite visible_cons, E. reflexivity.
Qed.

Lemma visible_rstrip (s : string) : Spec.visible (rstrip s) = Spec.visible s.
Proof.
  induction s as [|c s IH]; [reflexivity|].
  cbn [rstrip]. rewrite (visible_cons c s), <- IH.
  destruct (rstrip s) as [|d r].
  - destruct (is_space c) eqn:E; [reflexivity|].
    rewrite visible_cons, E. reflexivity.
  - rewrite visible_cons. reflexivity.
Qed.

Lemma normalized_spaces_ok (t : string) :
  Spec.blanks_ok false (strip (sub_spaces false t)) = true.
Proof.
  unfold strip. apply rstrip_ok. apply (lstrip_ok false). apply sub_spaces_ok.
Qed.

Lemma normalized_spaces_fixed (t : string) :
  strip (sub_spaces false (strip (sub_spaces false t))) =
  strip (sub_spaces false t).
Proof.
  rewrite (blanks_ok_fixed false _ (normalized_spaces_ok t)).
  apply strip_idem.
Qed.

End NormalizeFacts.

(** X29. [_normalize] changes white space and the case of letters only: the
    characters of its result that are not white space are those of the
    text, lowered when [lowercase] is on, in the same order.  A text that
    it has returned is left as it is when it is given again.  With
    [normalize_whitespace] on, the result has no white space at either
    end, and its white space is single blanks: every white space character
    of it is a blank, and the character after a blank is not white
    space. *)
Theorem normalize_changes_white_space_and_case_only
    (self : Preprocessor.t) (text : string) :
  let r := Preprocessor._normalize self text in
  Spec.visible r =
    Spec.visible
      (if Preprocessor.lowercase self then PyStr.lower text else text) /\
  (if Preprocessor.lowercase self then PyStr.lower r else r) = r /\
  Preprocessor._normalize self r = r /\
  (Preprocessor.normalize_whitespace self = true ->
   PyStr.strip r = r /\ Spec.single_blanks r).
Proof.
  intros r. subst r. unfold Preprocessor._normalize.
  destruct (Preprocessor.lowercase self),
           (Preprocessor.normalize_whitespace self).
  - assert (E : PyStr.lower
                  (PyStr.strip (Preprocessor.sub_spaces false (PyStr.lower text)))
                = PyStr.strip (Preprocessor.sub_spaces false (PyStr.lower text))).
    { rewrite <- strip_lower, <- sub_spaces_lower, lower_idem. reflexivity. }
    split; [|split; [|split]].
    + unfold PyStr.strip.
      rewrite visible_rstrip, visible_lstrip, visible_sub_spaces. reflexivity.
    + exact E.
    + rewrite E. apply normalized_spaces_fixed.
    + intros _. split; [apply strip_idem|].
      apply (blanks_ok_single false). apply normalized_spaces_ok.
  - split; [reflexivity|]. split; [apply lower_idem|].
    split; [apply lower_idem|discriminate].
  - split; [|split; [|split]].
    + unfold PyStr.strip.
      rewrite visible_rstrip, visible_lstrip, visible_sub_spaces. reflexivity.
    + reflexivity.
    + apply normalized_spaces_fixed.
    + intros _. split; [apply strip_idem|].
      apply (blanks_ok_single false). apply normalized_spaces_ok.
  - split; [reflexivity|]. split; [reflexivity|].
    split; [reflexivity|discriminate].
Qed.

(** A line feed and a tab between two words become one blank. *)
Example normalize_joins_lines :
  Preprocessor._normalize
    {| Preprocessor.lowercase := true;
       Preprocessor.normalize_whitespace := true;
       Preprocessor.remove_special_chars := true;
       Preprocessor.preserve_hyphens := true;
       Preprocessor.expand_abbreviations := false |}
    ("  Python   and" ++ String "010" (String "009" "SQL "))
  = "python and sql".
Proof. reflexivity. Qed.

Section MaskFacts.
Import PyStr Preprocessor.

Lemma select_map {A : Type} (f : A -> bool) (rows : list A) :
  select (map f rows) rows = List.filter f rows.
Proof.
  induction rows as [|r rows IH]; [reflexivity|].
  simpl. destruct (f r); rewrite IH; reflexivity.
Qed.

Lemma mask_sum_map {A : Type} (f : A -> bool) (rows : list A) :
  mask_sum (map f rows) = length (List.filter f rows).
Proof.
  unfold mask_sum. induction rows as [|r rows IH]; [reflexivity|].
  simpl. destruct (f r); simpl; rewrite IH; reflexivity.
Qed.

Lemma filter_sublist {A : Type} (f : A -> bool) (rows : list A) :
  sublist (List.filter f rows) rows.
Proof.
  induction rows as [|r rows IH]; simpl; [constructor|].
  destruct (f r); constructor; exact IH.
Qed.

Lemma valid_cell_spec (c : cell) :
  Spec.valid_cell c = true <-> Spec.has_text c.
Proof.
  unfold Spec.valid_cell, Spec.has_text. destruct c as [text|]; simpl.
  - destruct (strip text) eqn:E; simpl.
    + split; [discriminate|]. intros (t & [= <-] & H). congruence.
    + split; [|reflexivity]. intros _. exists text. split; [reflexivity|].
      rewrite E. discriminate.
  - split; [discriminate|]. intros (t & H & _). discriminate.
Qed.

Lemma mask_partition (col : list cell) :
  (length (List.filter Spec.valid_cell col)
   + length (List.filter isna col)
   + length (List.filter (fun c => is_blank c && negb (isna c)) col)
   = length col)%nat.
Proof.
  induction col as [|c col IH]; [reflexivity|].
  unfold Spec.valid_cell in *. simpl.
  destruct c as [text|]; simpl.
  - destruct (is_empty (strip text)); simpl; lia.
  - lia.
Qed.

Lemma preprocess_spec (st : stats) (col : list cell) :
  preprocess st col =
  (List.filter Spec.valid_cell col,
   {| total_processed := length (List.filter Spec.valid_cell col);
      skipped_null := length (List.filter isna col);
      skipped_empty :=
        length (List.filter (fun c => is_blank c && negb (isna c)) col) |}).
Proof.
  unfold preprocess, _create_valid_mask. cbv zeta.
  cbn [skipped_null skipped_empty].
  rewrite !mask_sum_map.
  change (fun c : cell => negb (isna c) && negb (is_blank c)) with Spec.valid_cell.
  rewrite select_map. reflexivity.
Qed.

End MaskFacts.

(** X30. [preprocess] keeps the rows whose text cell is not null and not
    blank, in their order, and counts every row of the frame once: the
    rows processed, the null ones and the blank ones add up to the number
    of rows.  The statistics are those of this call alone, whatever they
    were before. *)
Theorem preprocess_counts_every_row
    (st : Preprocessor.stats) (col : list Preprocessor.cell) :
  let df := (Preprocessor.preprocess st col).1 in
  let st' := (Preprocessor.preprocess st col).2 in
  sublist df col /\
  (forall c, c ∈ df <-> c ∈ col /\ Spec.has_text c) /\
  Preprocessor.total_processed st' = length df /\
  (Preprocessor.total_processed st' + Preprocessor.skipped_null st'
   + Preprocessor.skipped_empty st' = length col)%nat /\
  forall st0, Preprocessor.preprocess st0 col = Preprocessor.preprocess st col.
Proof.
  intros df st'. subst df st'. rewrite preprocess_spec.
  cbn [fst snd Preprocessor.total_processed Preprocessor.skipped_null
       Preprocessor.skipped_empty].
  split; [apply filter_sublist|].
  split.
  { intros c. rewrite !list_elem_of_In, filter_In, valid_cell_spec.
    reflexivity. }
  split; [reflexivity|].
  split; [apply mask_partition|].
  intros st0. rewrite !preprocess_spec. reflexivity.
Qed.
